(** * dfcx-scrapi: builders for Page / TransitionRouteGroup, PageStats and
    the EntityTypes remote wrapper, embedded in Rocq.

    Sources embedded here:
    - [src/dfcx_scrapi/builders/pages.py]
    - [src/dfcx_scrapi/builders/transition_route_groups.py]
    - [src/dfcx_scrapi/core/entity_types.py]

    Python objects that the code mutates in place are modelled by explicit
    state passing: an operation is a function from the state before the call
    to an outcome (a value or a raised exception) together with the state at
    the moment the call ended.  An exception does not roll anything back, so
    "the call raised and nothing changed" is a property to be proved of each
    operation, not a consequence of the encoding. *)

From Stdlib Require Import List String Ascii Bool ZArith QArith Lia.
Import ListNotations.
Local Open Scope string_scope.
Local Open Scope list_scope.

Set Implicit Arguments.
Set Warnings "-register-all".

(** ** Exceptions and outcomes *)

(** The exception classes raised by the embedded code, by the libraries it
    calls (pandas, proto-plus) and by the remote transport. *)
Inductive exn : Type :=
| ValueError
| UserWarning
| TypeError
| KeyError
| AttributeError
| OverflowError
| RemoteError (detail : string).

Inductive result (A : Type) : Type :=
| Ok (a : A)
| Raise (e : exn).
Arguments Ok {A} a.
Arguments Raise {A} e.

(** State-and-exception computations: the state component of the outcome is
    the state reached when the call returned or raised. *)
Definition Eff (S A : Type) : Type := S -> result A * S.

Definition ret {S A} (a : A) : Eff S A := fun s => (Ok a, s).
Definition raise {S A} (e : exn) : Eff S A := fun s => (Raise e, s).
Definition bind {S A B} (m : Eff S A) (k : A -> Eff S B) : Eff S B :=
  fun s => match m s with
           | (Ok a, s') => k a s'
           | (Raise e, s') => (Raise e, s')
           end.
Definition get {S} : Eff S S := fun s => (Ok s, s).
Definition put {S} (s : S) : Eff S unit := fun _ => (Ok tt, s).
Definition lift {S A} (r : result A) : Eff S A := fun s => (r, s).
Definition when {S} (b : bool) (m : Eff S unit) : Eff S unit :=
  if b then m else ret tt.

Declare Scope eff_scope.
Delimit Scope eff_scope with eff.
Notation "x <- m ;; k" := (bind m (fun x => k))
  (at level 61, m at next level, right associativity) : eff_scope.
Notation "m ;;; k" := (bind m (fun _ => k))
  (at level 61, right associativity) : eff_scope.
Local Open Scope eff_scope.

(** Pure fallible code (no state) uses [result] directly. *)
Definition rbind {A B} (r : result A) (k : A -> result B) : result B :=
  match r with Ok a => k a | Raise e => Raise e end.

(** ** Protobuf messages

    Each message keeps the fields the embedded code reads or writes; a field
    left out of a constructor call has its protobuf default (empty string,
    [false], empty repeated field, empty sub-message).  Response messages of
    a Fulfillment are kept as their texts.

    [truthy] is Python's [bool(msg)] on a proto-plus message: true exactly
    when some field holds a truthy value.  The source relies on it, e.g.
    [bool(self.page_proto_obj.entry_fulfillment)] and
    [if not entry_fulfillment: entry_fulfillment = Fulfillment()] in
    pages.py. *)

Definition str_truthy (s : string) : bool :=
  match s with EmptyString => false | _ => true end.

Definition list_truthy {A} (l : list A) : bool :=
  match l with [] => false | _ => true end.

Module Fulfillment.
Record t : Type := mk {
  messages : list string;
  webhook : string;
  tag : string;
  return_partial_responses : bool;
  set_parameter_actions : list (string * string)
}.
Definition default : t := mk [] "" "" false [].
Definition truthy (f : t) : bool :=
  list_truthy (messages f) || str_truthy (webhook f) || str_truthy (tag f)
  || return_partial_responses f || list_truthy (set_parameter_actions f).
Definition eq_dec (x y : t) : {x = y} + {x <> y}.
Proof.
  decide equality;
    try apply string_dec; try apply bool_dec;
    apply list_eq_dec; try apply string_dec;
    decide equality; apply string_dec.
Defined.
End Fulfillment.

Module EventHandler.
Record t : Type := mk {
  name : string;
  event : string;
  trigger_fulfillment : Fulfillment.t;
  target_page : string;
  target_flow : string
}.
Definition default : t := mk "" "" Fulfillment.default "" "".
Definition truthy (e : t) : bool :=
  str_truthy (name e) || str_truthy (event e)
  || Fulfillment.truthy (trigger_fulfillment e)
  || str_truthy (target_page e) || str_truthy (target_flow e).
Definition eq_dec (x y : t) : {x = y} + {x <> y}.
Proof.
  decide equality; try apply string_dec; apply Fulfillment.eq_dec.
Defined.
End EventHandler.

Module TransitionRoute.
Record t : Type := mk {
  name : string;
  intent : string;
  condition : string;
  trigger_fulfillment : Fulfillment.t;
  target_page : string;
  target_flow : string
}.
Definition default : t := mk "" "" "" Fulfillment.default "" "".
Definition truthy (r : t) : bool :=
  str_truthy (name r) || str_truthy (intent r) || str_truthy (condition r)
  || Fulfillment.truthy (trigger_fulfillment r)
  || str_truthy (target_page r) || str_truthy (target_flow r).
Definition eq_dec (x y : t) : {x = y} + {x <> y}.
Proof.
  decide equality; try apply string_dec; apply Fulfillment.eq_dec.
Defined.
End TransitionRoute.

Module FillBehavior.
Record t : Type := mk {
  initial_prompt_fulfillment : Fulfillment.t;
  reprompt_event_handlers : list EventHandler.t
}.
Definition default : t := mk Fulfillment.default [].
End FillBehavior.

Module FormParameter.
(** [Form.Parameter].  [default_value] is a protobuf [Value]: unset, or a
    string value. *)
Record t : Type := mk {
  display_name : string;
  required : bool;
  entity_type : string;
  is_list : bool;
  fill_behavior : FillBehavior.t;
  default_value : option string;
  redact : bool
}.
Definition with_fill_behavior (fb : FillBehavior.t) (p : t) : t :=
  mk (display_name p) (required p) (entity_type p) (is_list p) fb
     (default_value p) (redact p).
End FormParameter.

Module Form.
Record t : Type := mk { parameters : list FormParameter.t }.
Definition default : t := mk [].
End Form.

Module Page.
Record t : Type := mk {
  name : string;
  display_name : string;
  entry_fulfillment : Fulfillment.t;
  form : Form.t;
  transition_route_groups : list string;
  transition_routes : list TransitionRoute.t;
  event_handlers : list EventHandler.t
}.
Definition default : t := mk "" "" Fulfillment.default Form.default [] [] [].
Definition truthy (p : t) : bool :=
  str_truthy (name p) || str_truthy (display_name p)
  || Fulfillment.truthy (entry_fulfillment p)
  || list_truthy (Form.parameters (form p))
  || list_truthy (transition_route_groups p)
  || list_truthy (transition_routes p)
  || list_truthy (event_handlers p).
(** Field assignments [page.f = v]. *)
Definition with_entry_fulfillment (f : Fulfillment.t) (p : t) : t :=
  mk (name p) (display_name p) f (form p) (transition_route_groups p)
     (transition_routes p) (event_handlers p).
Definition with_parameters (ps : list FormParameter.t) (p : t) : t :=
  mk (name p) (display_name p) (entry_fulfillment p) (Form.mk ps)
     (transition_route_groups p) (transition_routes p) (event_handlers p).
Definition with_transition_route_groups (gs : list string) (p : t) : t :=
  mk (name p) (display_name p) (entry_fulfillment p) (form p) gs
     (transition_routes p) (event_handlers p).
Definition with_transition_routes (rs : list TransitionRoute.t) (p : t) : t :=
  mk (name p) (display_name p) (entry_fulfillment p) (form p)
     (transition_route_groups p) rs (event_handlers p).
Definition with_event_handlers (es : list EventHandler.t) (p : t) : t :=
  mk (name p) (display_name p) (entry_fulfillment p) (form p)
     (transition_route_groups p) (transition_routes p) es.
End Page.

Module TransitionRouteGroup.
Record t : Type := mk {
  name : string;
  display_name : string;
  transition_routes : list TransitionRoute.t
}.
Definition default : t := mk "" "" [].
Definition truthy (g : t) : bool :=
  str_truthy (name g) || str_truthy (display_name g)
  || list_truthy (transition_routes g).
Definition with_transition_routes (rs : list TransitionRoute.t) (g : t) : t :=
  mk (name g) (display_name g) rs.
End TransitionRouteGroup.

(** ** Dynamically typed arguments

    The builders check the classes of their arguments at run time
    ([isinstance]), so an argument is a Python value of any of the classes
    the checks distinguish. *)
Inductive pyval : Type :=
| PyNone
| PyBool (b : bool)
| PyInt (z : Z)
| PyStr (s : string)
| PyFulfillment (f : Fulfillment.t)
| PyTransitionRoute (r : TransitionRoute.t)
| PyEventHandler (e : EventHandler.t)
| PyList (l : list pyval)
| PyDict (d : list (string * string)).

Inductive pytype : Type :=
| TBool | TStr | TList | TFulfillment | TTransitionRoute | TEventHandler.

(** Python truthiness, [bool(v)]. *)
Definition truthy (v : pyval) : bool :=
  match v with
  | PyNone => false
  | PyBool b => b
  | PyInt z => negb (Z.eqb z 0)
  | PyStr s => str_truthy s
  | PyFulfillment f => Fulfillment.truthy f
  | PyTransitionRoute r => TransitionRoute.truthy r
  | PyEventHandler e => EventHandler.truthy e
  | PyList l => list_truthy l
  | PyDict d => list_truthy d
  end.

Definition isinstance (v : pyval) (ty : pytype) : bool :=
  match v, ty with
  | PyBool _, TBool => true
  | PyStr _, TStr => true
  | PyList _, TList => true
  | PyFulfillment _, TFulfillment => true
  | PyTransitionRoute _, TTransitionRoute => true
  | PyEventHandler _, TEventHandler => true
  | _, _ => false
  end.

Definition is_none (v : pyval) : bool :=
  match v with PyNone => true | _ => false end.

(** [x if isinstance(x, list) else [x]]. *)
Definition listify (v : pyval) : list pyval :=
  match v with PyList l => l | _ => [v] end.


(** ** Constructing protobuf fields from Python values

    proto-plus accepts [None] for "field not given" and rejects a value of
    the wrong class with [TypeError].  The builders validate before they
    construct, so the rejecting branches are reached only for arguments that
    slipped past a truthiness test. *)
Definition proto_str (v : pyval) : result string :=
  match v with PyNone => Ok "" | PyStr s => Ok s | _ => Raise TypeError end.

Definition proto_bool (v : pyval) : result bool :=
  match v with PyNone => Ok false | PyBool b => Ok b | _ => Raise TypeError end.

Definition proto_value (v : pyval) : result (option string) :=
  match v with PyNone => Ok None | PyStr s => Ok (Some s) | _ => Raise TypeError end.

Definition proto_fulfillment (v : pyval) : result Fulfillment.t :=
  match v with
  | PyNone => Ok Fulfillment.default
  | PyFulfillment f => Ok f
  | _ => Raise TypeError
  end.

Fixpoint all_strs (l : list pyval) : result (list string) :=
  match l with
  | [] => Ok []
  | PyStr s :: l' => rbind (all_strs l') (fun r => Ok (s :: r))
  | _ :: _ => Raise TypeError
  end.

Fixpoint all_transition_routes (l : list pyval) : result (list TransitionRoute.t) :=
  match l with
  | [] => Ok []
  | PyTransitionRoute r :: l' =>
      rbind (all_transition_routes l') (fun rs => Ok (r :: rs))
  | _ :: _ => Raise TypeError
  end.

Fixpoint all_event_handlers (l : list pyval) : result (list EventHandler.t) :=
  match l with
  | [] => Ok []
  | PyEventHandler e :: l' =>
      rbind (all_event_handlers l') (fun es => Ok (e :: es))
  | _ :: _ => Raise TypeError
  end.

Definition proto_repeated {A} (elems : list pyval -> result (list A))
    (v : pyval) : result (list A) :=
  match v with
  | PyNone => Ok []
  | PyList l => elems l
  | _ => Raise TypeError
  end.

(** [Page(display_name=..., entry_fulfillment=...)] *)
Definition Page_init (display_name entry_fulfillment : pyval) : result Page.t :=
  rbind (proto_str display_name) (fun dn =>
  rbind (proto_fulfillment entry_fulfillment) (fun ef =>
  Ok (Page.mk "" dn ef Form.default [] [] []))).

(** [TransitionRouteGroup(display_name=..., transition_routes=...)] *)
Definition TransitionRouteGroup_init (display_name transition_routes : pyval)
  : result TransitionRouteGroup.t :=
  rbind (proto_str display_name) (fun dn =>
  rbind (proto_repeated all_transition_routes transition_routes) (fun rs =>
  Ok (TransitionRouteGroup.mk "" dn rs))).

(** [Form.Parameter(display_name=..., required=..., entity_type=...,
    is_list=..., redact=..., default_value=...)] *)
Definition FormParameter_init
    (display_name required entity_type is_list redact default_value : pyval)
  : result FormParameter.t :=
  rbind (proto_str display_name) (fun dn =>
  rbind (proto_bool required) (fun rq =>
  rbind (proto_str entity_type) (fun et =>
  rbind (proto_bool is_list) (fun il =>
  rbind (proto_bool redact) (fun rd =>
  rbind (proto_value default_value) (fun dv =>
  Ok (FormParameter.mk dn rq et il FillBehavior.default dv rd))))))).

(** [Form.Parameter.FillBehavior(initial_prompt_fulfillment=...,
    reprompt_event_handlers=...)] *)
Definition FillBehavior_init (initial_prompt_fulfillment reprompt_event_handlers : pyval)
  : result FillBehavior.t :=
  rbind (proto_fulfillment initial_prompt_fulfillment) (fun f =>
  rbind (proto_repeated all_event_handlers reprompt_event_handlers) (fun es =>
  Ok (FillBehavior.mk f es))).

(** ** The leaf builders

    [FulfillmentBuilder], [TransitionRouteBuilder] and [EventHandlerBuilder]
    live in builders/fulfillments.py and builders/routes.py, which are not
    among the embedded sources.  The composite builders only call them on a
    builder object of their own, so they are taken as parameters: each call
    either yields the leaf builder's new [proto_obj] or raises. *)
Record LeafBuilders : Type := {
  trb_create_new_proto_obj :
    pyval -> pyval -> pyval -> pyval -> pyval -> result TransitionRoute.t;
  trb_set_fulfillment :
    TransitionRoute.t -> pyval -> pyval -> result TransitionRoute.t;
  ehb_create_new_proto_obj :
    pyval -> pyval -> pyval -> pyval -> result EventHandler.t;
  ehb_set_fulfillment :
    EventHandler.t -> pyval -> pyval -> result EventHandler.t;
  fb_create_new_proto_obj : pyval -> pyval -> pyval -> result Fulfillment.t;
  fb_add_response_message :
    Fulfillment.t -> pyval -> pyval -> pyval -> result Fulfillment.t;
  fb_add_parameter_presets : Fulfillment.t -> pyval -> result Fulfillment.t;
  fb_has_webhook : Fulfillment.t -> bool
}.

(** ** BuildersCommon, the shared base class (builders_common.py) *)
Module BuildersCommon.

Section Slot.
Variable P : Type.

(** [self.proto_obj.<field> = ...] and in-place updates of a field:
    attribute access on [None] raises [AttributeError]. *)
Definition update_proto_obj (f : P -> P) : Eff (option P) unit :=
  self <- get ;;
  match self with
  | None => raise AttributeError
  | Some p => put (Some (f p))
  end.

Definition read_proto_obj : Eff (option P) P :=
  self <- get ;;
  match self with
  | None => raise AttributeError
  | Some p => ret p
  end.

(** Modelled from the spec: [BuildersCommon._check_proto_obj_attr_exist] is
    not among the embedded sources.  The spec lists "operating on a builder
    with no object yet" as a state-precondition violation, raised
    immediately; the class is the one the embedded code raises for its other
    state-precondition violation. *)
Definition _check_proto_obj_attr_exist : Eff (option P) unit :=
  self <- get ;;
  match self with
  | None => raise UserWarning
  | Some _ => ret tt
  end.

(** [_add_proto_attrs_to_builder_obj] copies the fields of [proto_obj] into
    attributes of the builder object; [proto_obj] itself is not touched. *)
Definition _add_proto_attrs_to_builder_obj : Eff (option P) unit := ret tt.

End Slot.
Arguments update_proto_obj {P} f _.
Arguments read_proto_obj {P} _.
Arguments _check_proto_obj_attr_exist {P} _.
Arguments _add_proto_attrs_to_builder_obj {P} _.

(** Modelled from the spec: [BuildersCommon._is_type_or_list_of_types] is not
    among the embedded sources.  "Reject if not of the declared kind or a
    homogeneous collection of that kind"; the same test is written inline
    in [TransitionRouteGroupBuilder._create_new_proto_obj]. *)
Definition is_type_or_list_of_types (obj : pyval) (type_ : pytype) : bool :=
  isinstance obj type_
  || match obj with
     | PyList l => forallb (fun item => isinstance item type_) l
     | _ => false
     end.

Definition _is_type_or_list_of_types {S} (obj : pyval) (type_ : pytype)
  : Eff S unit :=
  when (negb (is_type_or_list_of_types obj type_)) (raise ValueError).

(** A removal criterion is specified when the argument is not [None]. *)
Definition specified (v : pyval) : bool := negb (is_none v).

Definition route_equals (tr : TransitionRoute.t) (v : pyval) : bool :=
  match v with
  | PyTransitionRoute r => if TransitionRoute.eq_dec tr r then true else false
  | _ => false
  end.

Definition str_equals (s : string) (v : pyval) : bool :=
  match v with PyStr s' => String.eqb s s' | _ => false end.

(** The criteria that are specified all hold of [tr]. *)
Definition criteria_hold (tr : TransitionRoute.t)
    (target_route intent condition : pyval) : bool :=
  (negb (specified target_route) || route_equals tr target_route)
  && (negb (specified intent) || str_equals (TransitionRoute.intent tr) intent)
  && (negb (specified condition)
      || str_equals (TransitionRoute.condition tr) condition).

(** Modelled from the spec: [BuildersCommon._match_transition_route] is not
    among the embedded sources.  "At least one criterion is required, else
    it fails.  Matching is exact structural equality on the specified
    fields." *)
Definition _match_transition_route (transition_route : TransitionRoute.t)
    (target_route intent condition : pyval) : result bool :=
  if negb (specified target_route || specified intent || specified condition)
  then Raise ValueError
  else Ok (criteria_hold transition_route target_route intent condition).

Definition handler_in (e : EventHandler.t) (l : list pyval) : bool :=
  existsb (fun v => match v with
                    | PyEventHandler e' =>
                        if EventHandler.eq_dec e e' then true else false
                    | _ => false
                    end) l.

(** [s in l] for a Python list [l]. *)
Definition str_in (s : string) (l : list pyval) : bool :=
  existsb (str_equals s) l.

(** Modelled from the spec: [BuildersCommon._find_unmatched_event_handlers]
    is not among the embedded sources.  It returns the held event handlers
    that equal none of the given ones ("exact structural equality", "all
    matching elements are removed"), after the argument-shape check. *)
Definition _find_unmatched_event_handlers
    (held : list EventHandler.t) (event_handlers : pyval)
  : result (list EventHandler.t) :=
  if negb (is_type_or_list_of_types event_handlers TEventHandler)
  then Raise ValueError
  else Ok (filter (fun eh => negb (handler_in eh (listify event_handlers))) held).

(** Modelled from the spec:
    [BuildersCommon._find_unmatched_event_handlers_by_name] is not among the
    embedded sources.  It returns the held event handlers whose event name
    is none of the given names, after the argument-shape check. *)
Definition _find_unmatched_event_handlers_by_name
    (held : list EventHandler.t) (event_names : pyval)
  : result (list EventHandler.t) :=
  if negb (is_type_or_list_of_types event_names TStr)
  then Raise ValueError
  else Ok (filter (fun eh => negb (str_in (EventHandler.event eh)
                                          (listify event_names))) held).

End BuildersCommon.

(** ** PageBuilder (builders/pages.py) *)
Module PageBuilder.
Import BuildersCommon.

(** The builder's single mutable slot, [self.proto_obj]. *)
Definition builder : Type := option Page.t.

(** [bool(self.proto_obj)]: [None] is falsy, a message is as truthy as its
    fields. *)
Definition proto_obj_truthy (self : builder) : bool :=
  match self with None => false | Some p => Page.truthy p end.

Definition nonempty_str (v : pyval) : bool := truthy v && isinstance v TStr.

(** pages.py, lines 129-174. *)
Definition _create_new_proto_obj
    (display_name entry_fulfillment : pyval) (overwrite : bool)
  : Eff builder builder :=
  (* Types error checking *)
  when (negb (nonempty_str display_name)) (raise ValueError) ;;;
  when (truthy entry_fulfillment
        && negb (isinstance entry_fulfillment TFulfillment))
       (raise ValueError) ;;;
  (* `overwrite` parameter error checking *)
  self <- get ;;
  when (proto_obj_truthy self && negb overwrite) (raise UserWarning) ;;;
  (* Create the Page *)
  self <- get ;;
  (if overwrite || negb (proto_obj_truthy self) then
     let entry_fulfillment :=
       if negb (truthy entry_fulfillment)
       then PyFulfillment Fulfillment.default
       else entry_fulfillment in
     page <- lift (Page_init display_name entry_fulfillment) ;;
     put (Some page)
   else ret tt) ;;;
  _add_proto_attrs_to_builder_obj ;;;
  get.

(** pages.py, lines 222-244. *)
Definition create_new_page
    (display_name entry_fulfillment : pyval) (overwrite : bool)
  : Eff builder builder :=
  _create_new_proto_obj display_name entry_fulfillment overwrite.

Section WithLeafBuilders.
Variable leaf : LeafBuilders.

(** pages.py, lines 246-325. *)
Definition set_entry_fulfillment
    (message response_type mode webhook tag return_partial_responses
     parameter_map : pyval) : Eff builder builder :=
  _check_proto_obj_attr_exist ;;;
  fb <- lift (fb_create_new_proto_obj leaf webhook tag return_partial_responses) ;;
  fb <- lift (fb_add_response_message leaf fb message response_type mode) ;;
  fb <- (if negb (is_none parameter_map)
         then lift (fb_add_parameter_presets leaf fb parameter_map)
         else ret fb) ;;
  update_proto_obj (Page.with_entry_fulfillment fb) ;;;
  get.

(** pages.py, lines 327-446. *)
Definition add_parameter
    (display_name entity_type initial_prompt_fulfillment required
     default_value is_list redact reprompt_event_handlers : pyval)
  : Eff builder builder :=
  _check_proto_obj_attr_exist ;;;
  (* Types error checking *)
  when (negb (nonempty_str display_name)) (raise ValueError) ;;;
  when (negb (nonempty_str entity_type)) (raise ValueError) ;;;
  when (negb (truthy initial_prompt_fulfillment
              && isinstance initial_prompt_fulfillment TFulfillment))
       (raise ValueError) ;;;
  when (negb (isinstance required TBool && isinstance is_list TBool
              && isinstance redact TBool))
       (raise ValueError) ;;;
  reprompt_event_handlers <-
    (if truthy reprompt_event_handlers then
       _is_type_or_list_of_types reprompt_event_handlers TEventHandler ;;;
       ret (if negb (isinstance reprompt_event_handlers TList)
            then PyList [reprompt_event_handlers]
            else reprompt_event_handlers)
     else ret reprompt_event_handlers) ;;
  the_param <-
    (if truthy required then
       lift (FormParameter_init display_name required entity_type is_list
                                redact PyNone)
     else
       when (negb (isinstance default_value TStr)) (raise ValueError) ;;;
       lift (FormParameter_init display_name required entity_type is_list
                                redact default_value)) ;;
  fill_behavior <-
    lift (FillBehavior_init initial_prompt_fulfillment reprompt_event_handlers) ;;
  let the_param := FormParameter.with_fill_behavior fill_behavior the_param in
  update_proto_obj
    (fun p => Page.with_parameters
                (Form.parameters (Page.form p) ++ [the_param]) p) ;;;
  get.

(** pages.py, lines 448-530. *)
Definition add_transition_route
    (transition_routes intent condition target_page target_flow
     trigger_fulfillment agent_response parameter_map : pyval)
  : Eff builder builder :=
  _check_proto_obj_attr_exist ;;;
  transition_routes <-
    (if negb (is_none transition_routes) then
       _is_type_or_list_of_types transition_routes TTransitionRoute ;;;
       ret (if negb (isinstance transition_routes TList)
            then PyList [transition_routes]
            else transition_routes)
     else
       trb <- lift (trb_create_new_proto_obj leaf intent condition
                      trigger_fulfillment target_page target_flow) ;;
       trb <- (if is_none trigger_fulfillment
               then lift (trb_set_fulfillment leaf trb agent_response
                            parameter_map)
               else ret trb) ;;
       ret (PyList [PyTransitionRoute trb])) ;;
  new <- lift (proto_repeated all_transition_routes transition_routes) ;;
  update_proto_obj
    (fun p => Page.with_transition_routes (Page.transition_routes p ++ new) p) ;;;
  get.

(** pages.py, lines 532-598. *)
Definition add_event_handler
    (event_handlers event target_page target_flow trigger_fulfillment
     agent_response parameter_map : pyval) : Eff builder builder :=
  _check_proto_obj_attr_exist ;;;
  event_handlers <-
    (if negb (is_none event_handlers) then
       _is_type_or_list_of_types event_handlers TEventHandler ;;;
       ret (if negb (isinstance event_handlers TList)
            then PyList [event_handlers]
            else event_handlers)
     else
       ehb <- lift (ehb_create_new_proto_obj leaf event trigger_fulfillment
                      target_page target_flow) ;;
       ehb <- (if is_none trigger_fulfillment
               then lift (ehb_set_fulfillment leaf ehb agent_response
                            parameter_map)
               else ret ehb) ;;
       ret (PyList [PyEventHandler ehb])) ;;
  new <- lift (proto_repeated all_event_handlers event_handlers) ;;
  update_proto_obj
    (fun p => Page.with_event_handlers (Page.event_handlers p ++ new) p) ;;;
  get.

End WithLeafBuilders.

(** pages.py, lines 600-627. *)
Definition add_transition_route_group (transition_route_groups : pyval)
  : Eff builder builder :=
  _check_proto_obj_attr_exist ;;;
  (* Type/Error checking *)
  _is_type_or_list_of_types transition_route_groups TStr ;;;
  let transition_route_groups :=
    if negb (isinstance transition_route_groups TList)
    then PyList [transition_route_groups]
    else transition_route_groups in
  new <- lift (proto_repeated all_strs transition_route_groups) ;;
  update_proto_obj
    (fun p => Page.with_transition_route_groups
                (Page.transition_route_groups p ++ new) p) ;;;
  get.

(** pages.py, lines 629-660. *)
Definition remove_parameter (display_name : pyval) : Eff builder builder :=
  _check_proto_obj_attr_exist ;;;
  (* Types error checking *)
  when (negb (truthy display_name)) (raise ValueError) ;;;
  _is_type_or_list_of_types display_name TStr ;;;
  let display_name :=
    if negb (isinstance display_name TList)
    then [display_name] else listify display_name in
  p <- read_proto_obj ;;
  let new_params :=
    filter (fun param =>
              negb (str_in (FormParameter.display_name param) display_name))
           (Form.parameters (Page.form p)) in
  update_proto_obj (Page.with_parameters new_params) ;;;
  get.

(** The loop of [remove_transition_route]: [new_routes] collects the routes
    for which [_match_transition_route] answered [False]; an exception
    raised by the matcher leaves the loop. *)
Fixpoint unmatched_routes (routes new_routes : list TransitionRoute.t)
    (transition_route intent condition : pyval)
  : result (list TransitionRoute.t) :=
  match routes with
  | [] => Ok new_routes
  | tr :: rest =>
      rbind (_match_transition_route tr transition_route intent condition)
        (fun is_match =>
           if is_match
           then unmatched_routes rest new_routes
                  transition_route intent condition
           else unmatched_routes rest (new_routes ++ [tr])
                  transition_route intent condition)
  end.

(** pages.py, lines 662-696. *)
Definition remove_transition_route (transition_route intent condition : pyval)
  : Eff builder builder :=
  _check_proto_obj_attr_exist ;;;
  p <- read_proto_obj ;;
  new_routes <- lift (unmatched_routes (Page.transition_routes p) []
                        transition_route intent condition) ;;
  update_proto_obj (Page.with_transition_routes new_routes) ;;;
  get.

(** pages.py, lines 698-739. *)
Definition remove_event_handler (event_handlers event_names : pyval)
  : Eff builder builder :=
  _check_proto_obj_attr_exist ;;;
  when (truthy event_handlers && truthy event_names) (raise UserWarning) ;;;
  p <- read_proto_obj ;;
  new_ehs <-
    (if truthy event_handlers then
       lift (_find_unmatched_event_handlers (Page.event_handlers p)
               event_handlers)
     else if truthy event_names then
       lift (_find_unmatched_event_handlers_by_name (Page.event_handlers p)
               event_names)
     else raise UserWarning) ;;
  update_proto_obj (Page.with_event_handlers new_ehs) ;;;
  get.

(** pages.py, lines 741-774. *)
Definition remove_transition_route_group (transition_route_groups : pyval)
  : Eff builder builder :=
  _check_proto_obj_attr_exist ;;;
  (* Type error checking *)
  _is_type_or_list_of_types transition_route_groups TStr ;;;
  let transition_route_groups :=
    if negb (isinstance transition_route_groups TList)
    then [transition_route_groups] else listify transition_route_groups in
  p <- read_proto_obj ;;
  let new_trgs :=
    filter (fun trg => negb (str_in trg transition_route_groups))
           (Page.transition_route_groups p) in
  update_proto_obj (Page.with_transition_route_groups new_trgs) ;;;
  get.

(** A call of one of the builder's operations, with its arguments.  The
    [show_] operations and [__str__] are left out: they read [proto_obj] and
    print. *)
Inductive call : Type :=
| CreateNewPage (display_name entry_fulfillment : pyval) (overwrite : bool)
| SetEntryFulfillment
    (message response_type mode webhook tag return_partial_responses
     parameter_map : pyval)
| AddParameter
    (display_name entity_type initial_prompt_fulfillment required
     default_value is_list redact reprompt_event_handlers : pyval)
| AddTransitionRoute
    (transition_routes intent condition target_page target_flow
     trigger_fulfillment agent_response parameter_map : pyval)
| AddEventHandler
    (event_handlers event target_page target_flow trigger_fulfillment
     agent_response parameter_map : pyval)
| AddTransitionRouteGroup (transition_route_groups : pyval)
| RemoveParameter (display_name : pyval)
| RemoveTransitionRoute (transition_route intent condition : pyval)
| RemoveEventHandler (event_handlers event_names : pyval)
| RemoveTransitionRouteGroup (transition_route_groups : pyval).

Definition run (leaf : LeafBuilders) (c : call) : Eff builder builder :=
  match c with
  | CreateNewPage dn ef ow => create_new_page dn ef ow
  | SetEntryFulfillment m rt md wh tg rp pm =>
      set_entry_fulfillment leaf m rt md wh tg rp pm
  | AddParameter dn et ipf rq dv il rd reh =>
      add_parameter dn et ipf rq dv il rd reh
  | AddTransitionRoute trs i c tp tf ff ar pm =>
      add_transition_route leaf trs i c tp tf ff ar pm
  | AddEventHandler ehs ev tp tf ff ar pm =>
      add_event_handler leaf ehs ev tp tf ff ar pm
  | AddTransitionRouteGroup g => add_transition_route_group g
  | RemoveParameter dn => remove_parameter dn
  | RemoveTransitionRoute tr i c => remove_transition_route tr i c
  | RemoveEventHandler ehs ens => remove_event_handler ehs ens
  | RemoveTransitionRouteGroup g => remove_transition_route_group g
  end.

(** A sequence of calls on one builder; a call that raises is caught by the
    caller, who goes on with the builder as the call left it. *)
Fixpoint run_all (leaf : LeafBuilders) (cs : list call) (self : builder)
  : builder :=
  match cs with
  | [] => self
  | c :: cs' => run_all leaf cs' (snd (run leaf c self))
  end.

(** The display names of the parameters of the form. *)
Definition parameter_names (p : Page.t) : list string :=
  map FormParameter.display_name (Form.parameters (Page.form p)).

End PageBuilder.

(** ** TransitionRouteGroupBuilder (builders/transition_route_groups.py) *)
Module TransitionRouteGroupBuilder.
Import BuildersCommon.

Definition builder : Type := option TransitionRouteGroup.t.

Definition proto_obj_truthy (self : builder) : bool :=
  match self with None => false | Some g => TransitionRouteGroup.truthy g end.

Definition nonempty_str (v : pyval) : bool := truthy v && isinstance v TStr.

(** [all(isinstance(tr, TransitionRoute) for tr in transition_routes)] *)
Definition all_routes (v : pyval) : bool :=
  forallb (fun tr => isinstance tr TTransitionRoute) (listify v).

(** transition_route_groups.py, lines 62-115. *)
Definition _create_new_proto_obj
    (display_name transition_routes : pyval) (overwrite : bool)
  : Eff builder builder :=
  (* Types error checking *)
  when (negb (nonempty_str display_name)) (raise ValueError) ;;;
  when (truthy transition_routes
        && negb (isinstance transition_routes TTransitionRoute
                 || (isinstance transition_routes TList
                     && all_routes transition_routes)))
       (raise ValueError) ;;;
  (* `overwrite` parameter error checking *)
  self <- get ;;
  when (proto_obj_truthy self && negb overwrite) (raise UserWarning) ;;;
  (* Create the TransitionRouteGroup *)
  self <- get ;;
  (if overwrite || negb (proto_obj_truthy self) then
     let transition_routes :=
       if negb (truthy transition_routes) then PyList []
       else transition_routes in
     let transition_routes :=
       if negb (isinstance transition_routes TList)
       then PyList [transition_routes]
       else transition_routes in
     group <- lift (TransitionRouteGroup_init display_name transition_routes) ;;
     put (Some group)
   else ret tt) ;;;
  _add_proto_attrs_to_builder_obj ;;;
  get.

(** transition_route_groups.py, lines 124-149. *)
Definition create_new_transition_route_group
    (display_name transition_routes : pyval) (overwrite : bool)
  : Eff builder builder :=
  _create_new_proto_obj display_name transition_routes overwrite.

Section WithLeafBuilders.
Variable leaf : LeafBuilders.

(** transition_route_groups.py, lines 151-233. *)
Definition add_transition_route
    (transition_routes intent condition target_page target_flow
     trigger_fulfillment agent_response parameter_map : pyval)
  : Eff builder builder :=
  _check_proto_obj_attr_exist ;;;
  transition_routes <-
    (if negb (is_none transition_routes) then
       _is_type_or_list_of_types transition_routes TTransitionRoute ;;;
       ret (if negb (isinstance transition_routes TList)
            then PyList [transition_routes]
            else transition_routes)
     else
       trb <- lift (trb_create_new_proto_obj leaf intent condition
                      trigger_fulfillment target_page target_flow) ;;
       trb <- (if is_none trigger_fulfillment
               then lift (trb_set_fulfillment leaf trb agent_response
                            parameter_map)
               else ret trb) ;;
       ret (PyList [PyTransitionRoute trb])) ;;
  new <- lift (proto_repeated all_transition_routes transition_routes) ;;
  update_proto_obj
    (fun g => TransitionRouteGroup.with_transition_routes
                (TransitionRouteGroup.transition_routes g ++ new) g) ;;;
  get.

End WithLeafBuilders.

(** transition_route_groups.py, lines 235-271; the loop is the one of
    [PageBuilder.remove_transition_route]. *)
Definition remove_transition_route (transition_route intent condition : pyval)
  : Eff builder builder :=
  _check_proto_obj_attr_exist ;;;
  g <- read_proto_obj ;;
  new_routes <- lift (PageBuilder.unmatched_routes
                        (TransitionRouteGroup.transition_routes g) []
                        transition_route intent condition) ;;
  update_proto_obj (TransitionRouteGroup.with_transition_routes new_routes) ;;;
  get.

(** A call of one of the builder's operations, with its arguments;
    [show_transition_route_group] only prints. *)
Inductive call : Type :=
| CreateNewTransitionRouteGroup
    (display_name transition_routes : pyval) (overwrite : bool)
| AddTransitionRoute
    (transition_routes intent condition target_page target_flow
     trigger_fulfillment agent_response parameter_map : pyval)
| RemoveTransitionRoute (transition_route intent condition : pyval).

Definition run (leaf : LeafBuilders) (c : call) : Eff builder builder :=
  match c with
  | CreateNewTransitionRouteGroup dn trs ow =>
      create_new_transition_route_group dn trs ow
  | AddTransitionRoute trs i c tp tf ff ar pm =>
      add_transition_route leaf trs i c tp tf ff ar pm
  | RemoveTransitionRoute tr i c => remove_transition_route tr i c
  end.

End TransitionRouteGroupBuilder.

(** ** PageStats (builders/pages.py, lines 916-1089) *)

(** A Python number: an [int], or a [float] given by the rational it is the
    nearest double to.  [a / b] on two [int]s is Python's true division. *)
Inductive pynum : Type :=
| PyInteger (z : Z)
| PyFloat (q : Q).

Definition true_div (a b : Z) : pynum := PyFloat (Qmake a (Z.to_pos b)).

Module PageStats.

(** The dataclass, with the defaults of its field declarations. *)
Record t : Type := mk {
  page_proto_obj : Page.t;
  has_entry_fulfill : bool;
  parameters_count : Z;
  parameters_with_event_handler_count : Z;
  parameters_with_webhook_fulfill_count : Z;
  parameters_ratio : pynum;
  transition_routes_count : Z;
  routes_with_fulfill_count : Z;
  routes_with_webhook_fulfill_count : Z;
  intent_routes_count : Z;
  cond_routes_count : Z;
  intent_and_cond_routes_count : Z;
  event_handlers_count : Z;
  events_with_fulfill_count : Z;
  events_with_webhook_fulfill_count : Z;
  transition_route_groups_count : Z
}.

(** [PageStats(page)] *)
Definition init (page : Page.t) : t :=
  mk page false 0 0 0 (PyInteger 0) 0 0 0 0 0 0 0 0 0 0.

Definition set_parameters_count (n : Z) (s : t) : t :=
  mk (page_proto_obj s) (has_entry_fulfill s) n
     (parameters_with_event_handler_count s)
     (parameters_with_webhook_fulfill_count s) (parameters_ratio s)
     (transition_routes_count s) (routes_with_fulfill_count s)
     (routes_with_webhook_fulfill_count s) (intent_routes_count s)
     (cond_routes_count s) (intent_and_cond_routes_count s)
     (event_handlers_count s) (events_with_fulfill_count s)
     (events_with_webhook_fulfill_count s) (transition_route_groups_count s).

Definition set_parameters_with_event_handler_count (n : Z) (s : t) : t :=
  mk (page_proto_obj s) (has_entry_fulfill s) (parameters_count s) n
     (parameters_with_webhook_fulfill_count s) (parameters_ratio s)
     (transition_routes_count s) (routes_with_fulfill_count s)
     (routes_with_webhook_fulfill_count s) (intent_routes_count s)
     (cond_routes_count s) (intent_and_cond_routes_count s)
     (event_handlers_count s) (events_with_fulfill_count s)
     (events_with_webhook_fulfill_count s) (transition_route_groups_count s).

Definition set_parameters_with_webhook_fulfill_count (n : Z) (s : t) : t :=
  mk (page_proto_obj s) (has_entry_fulfill s) (parameters_count s)
     (parameters_with_event_handler_count s) n (parameters_ratio s)
     (transition_routes_count s) (routes_with_fulfill_count s)
     (routes_with_webhook_fulfill_count s) (intent_routes_count s)
     (cond_routes_count s) (intent_and_cond_routes_count s)
     (event_handlers_count s) (events_with_fulfill_count s)
     (events_with_webhook_fulfill_count s) (transition_route_groups_count s).

Definition set_parameters_ratio (r : pynum) (s : t) : t :=
  mk (page_proto_obj s) (has_entry_fulfill s) (parameters_count s)
     (parameters_with_event_handler_count s)
     (parameters_with_webhook_fulfill_count s) r
     (transition_routes_count s) (routes_with_fulfill_count s)
     (routes_with_webhook_fulfill_count s) (intent_routes_count s)
     (cond_routes_count s) (intent_and_cond_routes_count s)
     (event_handlers_count s) (events_with_fulfill_count s)
     (events_with_webhook_fulfill_count s) (transition_route_groups_count s).

Definition set_transition_routes_count (n : Z) (s : t) : t :=
  mk (page_proto_obj s) (has_entry_fulfill s) (parameters_count s)
     (parameters_with_event_handler_count s)
     (parameters_with_webhook_fulfill_count s) (parameters_ratio s) n
     (routes_with_fulfill_count s) (routes_with_webhook_fulfill_count s)
     (intent_routes_count s) (cond_routes_count s)
     (intent_and_cond_routes_count s) (event_handlers_count s)
     (events_with_fulfill_count s) (events_with_webhook_fulfill_count s)
     (transition_route_groups_count s).

Definition set_routes_with_fulfill_count (n : Z) (s : t) : t :=
  mk (page_proto_obj s) (has_entry_fulfill s) (parameters_count s)
     (parameters_with_event_handler_count s)
     (parameters_with_webhook_fulfill_count s) (parameters_ratio s)
     (transition_routes_count s) n (routes_with_webhook_fulfill_count s)
     (intent_routes_count s) (cond_routes_count s)
     (intent_and_cond_routes_count s) (event_handlers_count s)
     (events_with_fulfill_count s) (events_with_webhook_fulfill_count s)
     (transition_route_groups_count s).

Definition set_routes_with_webhook_fulfill_count (n : Z) (s : t) : t :=
  mk (page_proto_obj s) (has_entry_fulfill s) (parameters_count s)
     (parameters_with_event_handler_count s)
     (parameters_with_webhook_fulfill_count s) (parameters_ratio s)
     (transition_routes_count s) (routes_with_fulfill_count s) n
     (intent_routes_count s) (cond_routes_count s)
     (intent_and_cond_routes_count s) (event_handlers_count s)
     (events_with_fulfill_count s) (events_with_webhook_fulfill_count s)
     (transition_route_groups_count s).

Definition set_intent_routes_count (n : Z) (s : t) : t :=
  mk (page_proto_obj s) (has_entry_fulfill s) (parameters_count s)
     (parameters_with_event_handler_count s)
     (parameters_with_webhook_fulfill_count s) (parameters_ratio s)
     (transition_routes_count s) (routes_with_fulfill_count s)
     (routes_with_webhook_fulfill_count s) n (cond_routes_count s)
     (intent_and_cond_routes_count s) (event_handlers_count s)
     (events_with_fulfill_count s) (events_with_webhook_fulfill_count s)
     (transition_route_groups_count s).

Definition set_cond_routes_count (n : Z) (s : t) : t :=
  mk (page_proto_obj s) (has_entry_fulfill s) (parameters_count s)
     (parameters_with_event_handler_count s)
     (parameters_with_webhook_fulfill_count s) (parameters_ratio s)
     (transition_routes_count s) (routes_with_fulfill_count s)
     (routes_with_webhook_fulfill_count s) (intent_routes_count s) n
     (intent_and_cond_routes_count s) (event_handlers_count s)
     (events_with_fulfill_count s) (events_with_webhook_fulfill_count s)
     (transition_route_groups_count s).

Definition set_intent_and_cond_routes_count (n : Z) (s : t) : t :=
  mk (page_proto_obj s) (has_entry_fulfill s) (parameters_count s)
     (parameters_with_event_handler_count s)
     (parameters_with_webhook_fulfill_count s) (parameters_ratio s)
     (transition_routes_count s) (routes_with_fulfill_count s)
     (routes_with_webhook_fulfill_count s) (intent_routes_count s)
     (cond_routes_count s) n (event_handlers_count s)
     (events_with_fulfill_count s) (events_with_webhook_fulfill_count s)
     (transition_route_groups_count s).

Definition set_event_handlers_count (n : Z) (s : t) : t :=
  mk (page_proto_obj s) (has_entry_fulfill s) (parameters_count s)
     (parameters_with_event_handler_count s)
     (parameters_with_webhook_fulfill_count s) (parameters_ratio s)
     (transition_routes_count s) (routes_with_fulfill_count s)
     (routes_with_webhook_fulfill_count s) (intent_routes_count s)
     (cond_routes_count s) (intent_and_cond_routes_count s) n
     (events_with_fulfill_count s) (events_with_webhook_fulfill_count s)
     (transition_route_groups_count s).

Definition set_events_with_fulfill_count (n : Z) (s : t) : t :=
  mk (page_proto_obj s) (has_entry_fulfill s) (parameters_count s)
     (parameters_with_event_handler_count s)
     (parameters_with_webhook_fulfill_count s) (parameters_ratio s)
     (transition_routes_count s) (routes_with_fulfill_count s)
     (routes_with_webhook_fulfill_count s) (intent_routes_count s)
     (cond_routes_count s) (intent_and_cond_routes_count s)
     (event_handlers_count s) n (events_with_webhook_fulfill_count s)
     (transition_route_groups_count s).

Definition set_events_with_webhook_fulfill_count (n : Z) (s : t) : t :=
  mk (page_proto_obj s) (has_entry_fulfill s) (parameters_count s)
     (parameters_with_event_handler_count s)
     (parameters_with_webhook_fulfill_count s) (parameters_ratio s)
     (transition_routes_count s) (routes_with_fulfill_count s)
     (routes_with_webhook_fulfill_count s) (intent_routes_count s)
     (cond_routes_count s) (intent_and_cond_routes_count s)
     (event_handlers_count s) (events_with_fulfill_count s) n
     (transition_route_groups_count s).

Section WithLeafBuilders.
Variable leaf : LeafBuilders.

(** The body of the [for param in ...] loop of [calc_parameter_stats]. *)
Definition count_parameter (self : t) (param : FormParameter.t) : t :=
  let fill_behavior := FormParameter.fill_behavior param in
  let self :=
    if fb_has_webhook leaf (FillBehavior.initial_prompt_fulfillment fill_behavior)
    then set_parameters_with_webhook_fulfill_count
           (parameters_with_webhook_fulfill_count self + 1) self
    else self in
  if list_truthy (FillBehavior.reprompt_event_handlers fill_behavior)
  then set_parameters_with_event_handler_count
         (parameters_with_event_handler_count self + 1) self
  else self.

(** pages.py, lines 1020-1035. *)
Definition calc_parameter_stats (self : t) : t :=
  let params := Form.parameters (Page.form (page_proto_obj self)) in
  let self := set_parameters_count (Z.of_nat (List.length params)) self in
  let self := fold_left count_parameter params self in
  if negb (Z.eqb (parameters_count self) 0)
  then set_parameters_ratio
         (true_div (parameters_with_event_handler_count self)
                   (parameters_count self)) self
  else self.

(** The body of the [for tr in ...] loop of [calc_transition_route_stats]. *)
Definition count_transition_route (self : t) (tr : TransitionRoute.t) : t :=
  let self :=
    if Fulfillment.truthy (TransitionRoute.trigger_fulfillment tr) then
      let self := set_routes_with_fulfill_count
                    (routes_with_fulfill_count self + 1) self in
      if fb_has_webhook leaf (TransitionRoute.trigger_fulfillment tr)
      then set_routes_with_webhook_fulfill_count
             (routes_with_webhook_fulfill_count self + 1) self
      else self
    else self in
  let intent := str_truthy (TransitionRoute.intent tr) in
  let condition := str_truthy (TransitionRoute.condition tr) in
  if intent && condition then
    set_intent_and_cond_routes_count (intent_and_cond_routes_count self + 1) self
  else if intent && negb condition then
    set_intent_routes_count (intent_routes_count self + 1) self
  else if negb intent && condition then
    set_cond_routes_count (cond_routes_count self + 1) self
  else self.

(** pages.py, lines 947-963. *)
Definition calc_transition_route_stats (self : t) : t :=
  let routes := Page.transition_routes (page_proto_obj self) in
  let self := set_transition_routes_count (Z.of_nat (List.length routes)) self in
  fold_left count_transition_route routes self.

(** The body of the [for eh in ...] loop of [calc_event_handler_stats]. *)
Definition count_event_handler (self : t) (eh : EventHandler.t) : t :=
  let self :=
    if fb_has_webhook leaf (EventHandler.trigger_fulfillment eh)
    then set_events_with_webhook_fulfill_count
           (events_with_webhook_fulfill_count self + 1) self
    else self in
  if Fulfillment.truthy (EventHandler.trigger_fulfillment eh)
  then set_events_with_fulfill_count (events_with_fulfill_count self + 1) self
  else self.

(** pages.py, lines 992-1000. *)
Definition calc_event_handler_stats (self : t) : t :=
  let handlers := Page.event_handlers (page_proto_obj self) in
  let self := set_event_handlers_count (Z.of_nat (List.length handlers)) self in
  fold_left count_event_handler handlers self.

End WithLeafBuilders.
End PageStats.

(** ** EntityType messages *)
Module Entity.
Record t : Type := mk { value : string; synonyms : list string }.
Definition eq_dec (x y : t) : {x = y} + {x <> y}.
Proof.
  decide equality; [apply list_eq_dec|]; apply string_dec.
Defined.
End Entity.

Module EntityType.
(** [kind] and [auto_expansion_mode] are protobuf enums, kept as their
    numbers; an excluded phrase is kept as its [value]. *)
Record t : Type := mk {
  name : string;
  display_name : string;
  kind : Z;
  auto_expansion_mode : Z;
  entities : list Entity.t;
  excluded_phrases : list string;
  enable_fuzzy_extraction : bool;
  redact : bool
}.
Definition default : t := mk "" "" 0 0 [] [] false false.
Definition truthy (e : t) : bool :=
  str_truthy (name e) || str_truthy (display_name e)
  || negb (Z.eqb (kind e) 0) || negb (Z.eqb (auto_expansion_mode e) 0)
  || list_truthy (entities e) || list_truthy (excluded_phrases e)
  || enable_fuzzy_extraction e || redact e.
Definition with_name (s : string) (e : t) : t :=
  mk s (display_name e) (kind e) (auto_expansion_mode e) (entities e)
     (excluded_phrases e) (enable_fuzzy_extraction e) (redact e).
Definition with_display_name (s : string) (e : t) : t :=
  mk (name e) s (kind e) (auto_expansion_mode e) (entities e)
     (excluded_phrases e) (enable_fuzzy_extraction e) (redact e).
Definition with_kind (k : Z) (e : t) : t :=
  mk (name e) (display_name e) k (auto_expansion_mode e) (entities e)
     (excluded_phrases e) (enable_fuzzy_extraction e) (redact e).
Definition with_auto_expansion_mode (k : Z) (e : t) : t :=
  mk (name e) (display_name e) (kind e) k (entities e)
     (excluded_phrases e) (enable_fuzzy_extraction e) (redact e).
Definition with_entities (l : list Entity.t) (e : t) : t :=
  mk (name e) (display_name e) (kind e) (auto_expansion_mode e) l
     (excluded_phrases e) (enable_fuzzy_extraction e) (redact e).
Definition with_excluded_phrases (l : list string) (e : t) : t :=
  mk (name e) (display_name e) (kind e) (auto_expansion_mode e) (entities e)
     l (enable_fuzzy_extraction e) (redact e).
Definition with_enable_fuzzy_extraction (b : bool) (e : t) : t :=
  mk (name e) (display_name e) (kind e) (auto_expansion_mode e) (entities e)
     (excluded_phrases e) b (redact e).
Definition with_redact (b : bool) (e : t) : t :=
  mk (name e) (display_name e) (kind e) (auto_expansion_mode e) (entities e)
     (excluded_phrases e) (enable_fuzzy_extraction e) b.

(** The values a caller can pass for a field of an EntityType. *)
Inductive attr : Type :=
| ANone
| AStr (s : string)
| ABool (b : bool)
| AEnum (z : Z)
| AEntities (l : list Entity.t)
| APhrases (l : list string).

(** The members of the enums [EntityType.Kind] and
    [EntityType.AutoExpansionMode], by name. *)
Definition kind_number (s : string) : option Z :=
  if String.eqb s "KIND_UNSPECIFIED" then Some 0%Z
  else if String.eqb s "KIND_MAP" then Some 1%Z
  else if String.eqb s "KIND_LIST" then Some 2%Z
  else if String.eqb s "KIND_REGEXP" then Some 3%Z
  else None.

Definition auto_expansion_mode_number (s : string) : option Z :=
  if String.eqb s "AUTO_EXPANSION_MODE_UNSPECIFIED" then Some 0%Z
  else if String.eqb s "AUTO_EXPANSION_MODE_DEFAULT" then Some 1%Z
  else None.

Definition int32 (z : Z) : bool := ((- 2 ^ 31 <=? z) && (z <? 2 ^ 31))%Z.
Definition int64 (z : Z) : bool := ((- 2 ^ 63 <=? z) && (z <? 2 ^ 63))%Z.

(** What a field takes from the value assigned to it.  [None] resets the
    field to its default.  A string field takes a [str].  An enum field
    takes a member or a number in the range of [int32] (any other number
    raises [ValueError]), a [bool] as the number [1] or [0], and a [str]
    that is the name of a member of the enum as that member (a [str] that is
    no member name raises [KeyError]).  A bool field takes a [bool], and a
    number as [number != 0] (a number beyond a C [long] raises
    [OverflowError]).  A repeated field takes a list of messages of its
    element class; the empty list is the same value for both classes.
    Every other value raises [TypeError]. *)
Definition str_value (v : attr) : result string :=
  match v with
  | ANone => Ok ""
  | AStr s => Ok s
  | _ => Raise TypeError
  end.

Definition enum_value (number : string -> option Z) (v : attr) : result Z :=
  match v with
  | ANone => Ok 0%Z
  | AEnum z => if int32 z then Ok z else Raise ValueError
  | ABool b => Ok (if b then 1%Z else 0%Z)
  | AStr s =>
      match number s with Some z => Ok z | None => Raise KeyError end
  | _ => Raise TypeError
  end.

Definition bool_value (v : attr) : result bool :=
  match v with
  | ANone => Ok false
  | ABool b => Ok b
  | AEnum z => if int64 z then Ok (negb (z =? 0)%Z) else Raise OverflowError
  | _ => Raise TypeError
  end.

Definition entities_value (v : attr) : result (list Entity.t) :=
  match v with
  | ANone => Ok []
  | AEntities l => Ok l
  | APhrases [] => Ok []
  | _ => Raise TypeError
  end.

Definition phrases_value (v : attr) : result (list string) :=
  match v with
  | ANone => Ok []
  | APhrases l => Ok l
  | AEntities [] => Ok []
  | _ => Raise TypeError
  end.

(** [setattr(entity_type, key, value)] on a proto-plus message: a key that
    is no field of the message raises [AttributeError]; otherwise the field
    is set to what it takes from the value, or the conversion raises and the
    message is left as it was.  The keys meant are public names: a name with
    a leading underscore is an attribute of the Python object and no field
    of the message, and is answered here like any other name that is no
    field. *)
Definition setattr (e : t) (key : string) (v : attr) : result t :=
  if String.eqb key "name" then
    rbind (str_value v) (fun s => Ok (with_name s e))
  else if String.eqb key "display_name" then
    rbind (str_value v) (fun s => Ok (with_display_name s e))
  else if String.eqb key "kind" then
    rbind (enum_value kind_number v) (fun z => Ok (with_kind z e))
  else if String.eqb key "auto_expansion_mode" then
    rbind (enum_value auto_expansion_mode_number v)
      (fun z => Ok (with_auto_expansion_mode z e))
  else if String.eqb key "entities" then
    rbind (entities_value v) (fun l => Ok (with_entities l e))
  else if String.eqb key "excluded_phrases" then
    rbind (phrases_value v) (fun l => Ok (with_excluded_phrases l e))
  else if String.eqb key "enable_fuzzy_extraction" then
    rbind (bool_value v) (fun b => Ok (with_enable_fuzzy_extraction b e))
  else if String.eqb key "redact" then
    rbind (bool_value v) (fun b => Ok (with_redact b e))
  else Raise AttributeError.
End EntityType.

(** ** pandas, as far as entity_types.py uses it

    A frame is its column labels and its rows; a row maps column labels to
    cells, a label it does not map is a missing cell (NaN). *)
Module pd.

Definition row : Type := list (string * pyval).

Record DataFrame : Type := mkDataFrame {
  columns : list string;
  rows : list row
}.

(** [pd.DataFrame()] *)
Definition empty : DataFrame := mkDataFrame [] [].

(** What the code hands to [pd.concat]: a frame, or a plain [dict]. *)
Inductive obj : Type :=
| Frame (df : DataFrame)
| Dict (d : row).

Definition is_frame (o : obj) : bool :=
  match o with Frame _ => true | Dict _ => false end.

Definition has_column (c : string) (cols : list string) : bool :=
  existsb (String.eqb c) cols.

Definition union_columns (a b : list string) : list string :=
  a ++ filter (fun c => negb (has_column c a)) b.

(** [pd.concat(objs)]: every element has to be a Series or a DataFrame,
    anything else raises [TypeError] ("cannot concatenate object of type
    dict; only Series and DataFrame objs are valid"); an empty list raises
    [ValueError].  The frames are stacked: the columns are united in order
    of appearance and the rows follow each other. *)
Definition concat (objs : list obj) : result DataFrame :=
  match objs with
  | [] => Raise ValueError
  | _ =>
      if forallb is_frame objs then
        Ok (fold_left
              (fun acc o =>
                 match o with
                 | Frame df => mkDataFrame (union_columns (columns acc) (columns df))
                                           (rows acc ++ rows df)
                 | Dict _ => acc
                 end) objs empty)
      else Raise TypeError
  end.

(** [d[key] = value] on a dict. *)
Fixpoint dict_set (d : row) (key : string) (v : pyval) : row :=
  match d with
  | [] => [(key, v)]
  | (k, x) :: d' =>
      if String.eqb k key then (k, v) :: d' else (k, x) :: dict_set d' key v
  end.

Fixpoint cell (r : row) (c : string) : option pyval :=
  match r with
  | [] => None
  | (k, x) :: r' => if String.eqb k c then Some x else cell r' c
  end.

(** Order of two cells of a sort column: strings by code point, a missing
    cell after every present one. *)
Definition cell_compare (a b : option pyval) : comparison :=
  match a, b with
  | Some (PyStr x), Some (PyStr y) => String.compare x y
  | Some _, None => Lt
  | None, Some _ => Gt
  | _, _ => Eq
  end.

(** Lexicographic order of two rows on the sort columns [by]. *)
Fixpoint row_compare (by_ : list string) (r1 r2 : row) : comparison :=
  match by_ with
  | [] => Eq
  | c :: by' =>
      match cell_compare (cell r1 c) (cell r2 c) with
      | Eq => row_compare by' r1 r2
      | o => o
      end
  end.

Definition row_leb (by_ : list string) (r1 r2 : row) : bool :=
  match row_compare by_ r1 r2 with Gt => false | _ => true end.

Fixpoint insert_row (by_ : list string) (r : row) (sorted : list row) : list row :=
  match sorted with
  | [] => [r]
  | r' :: rest =>
      if row_leb by_ r r' then r :: sorted else r' :: insert_row by_ r rest
  end.

(** [df.sort_values(by)]: a label in [by] that is no column raises
    [KeyError]; otherwise the rows come back in ascending order. *)
Definition sort_values (by_ : list string) (df : DataFrame) : result DataFrame :=
  if forallb (fun c => has_column c (columns df)) by_
  then Ok (mkDataFrame (columns df)
             (fold_right (insert_row by_) [] (rows df)))
  else Raise KeyError.

(** [df.astype(type_map)] with every target type [bool]: a key of the map
    that is no column raises [KeyError]. *)
Definition astype_bool (keys : list string) (df : DataFrame) : result DataFrame :=
  if forallb (fun c => has_column c (columns df)) keys
  then Ok (mkDataFrame (columns df)
             (map (map (fun kv : string * pyval =>
                          if has_column (fst kv) keys
                          then (fst kv, PyBool (truthy (snd kv)))
                          else kv)) (rows df)))
  else Raise KeyError.

End pd.

(** ** The EntityTypes remote wrapper (core/entity_types.py) *)
Module EntityTypes.

(** The requests the wrapper sends through [EntityTypesClient]. *)
Inductive request : Type :=
| ListEntityTypesRequest (parent : option string)
| GetEntityTypeRequest (name : option string)
| CreateEntityTypeRequest (parent : option string)
    (entity_type : EntityType.t) (language_code : option string)
| UpdateEntityTypeRequest (entity_type : EntityType.t)
    (update_mask : list string) (language_code : option string)
| DeleteEntityTypeRequest (name : option string).

(** What the outside world sees of a call, in order. *)
Inductive event : Type :=
| NewClient (client_options : string)
| Rpc (r : request).

(** The world a call runs in: [obj] is the pre-built EntityType object the
    caller passed as [obj] ([None] when the argument was left out), which
    the wrapper may mutate in place; [trace] records the clients built and
    the requests sent so far. *)
Record world : Type := mkWorld {
  obj : option EntityType.t;
  trace : list event
}.

(** [bool(obj)] *)
Definition obj_truthy (w : world) : bool :=
  match obj w with None => false | Some o => EntityType.truthy o end.

(** The wrapper object: [self.entity_id], [self.agent_id]. *)
Record self_t : Type := mkSelf {
  entity_id : option string;
  agent_id : option string
}.

(** [bool(s)] for an id argument, a string or [None]. *)
Definition id_truthy (s : option string) : bool :=
  match s with None => false | Some s => str_truthy s end.

(** What the wrapper uses without defining it: [ScrapiBase._set_region]
    (core/scrapi_base.py, not among the embedded sources) and the remote
    service behind the generated client.  Each remote call answers or
    raises. *)
Record Externals : Type := {
  _set_region : option string -> result string;
  remote_list_entity_types : option string -> result (list (list EntityType.t));
  remote_get_entity_type : option string -> result EntityType.t;
  remote_create_entity_type :
    option string -> EntityType.t -> option string -> result EntityType.t;
  remote_update_entity_type :
    EntityType.t -> list string -> option string -> result EntityType.t;
  remote_delete_entity_type : option string -> result unit
}.

Definition emit (e : event) : Eff world unit :=
  fun w => (Ok tt, mkWorld (obj w) (trace w ++ [e])).

(** The local variable [entity_type]: bound to the caller's object
    ([entity_type = obj], an alias) or to an object of the call's own. *)
Inductive var : Type :=
| Alias
| Own (e : EntityType.t).

Definition deref (v : var) : Eff world EntityType.t :=
  match v with
  | Own e => ret e
  | Alias => w <- get ;;
             match obj w with
             | Some o => ret o
             | None => raise AttributeError
             end
  end.

(** [setattr(entity_type, key, value)] through the variable. *)
Definition setattr_var (v : var) (key : string) (value : EntityType.attr)
  : Eff world var :=
  match v with
  | Own e => e' <- lift (EntityType.setattr e key value) ;; ret (Own e')
  | Alias =>
      w <- get ;;
      match obj w with
      | Some o =>
          o' <- lift (EntityType.setattr o key value) ;;
          put (mkWorld (Some o') (trace w)) ;;;
          ret Alias
      | None => raise AttributeError
      end
  end.

(** [for key, value in kwargs.items(): setattr(entity_type, key, value)] *)
Fixpoint set_attrs (v : var) (kwargs : list (string * EntityType.attr))
  : Eff world var :=
  match kwargs with
  | [] => ret v
  | (key, value) :: rest =>
      v <- setattr_var v key value ;;
      set_attrs v rest
  end.

Definition id_attr (s : option string) : EntityType.attr :=
  match s with None => EntityType.ANone | Some s => EntityType.AStr s end.

Section WithExternals.
Variable ext : Externals.
Variable self : self_t.

(** [self._set_region(id)] followed by [EntityTypesClient(credentials=...,
    client_options=...)]. *)
Definition new_client (id : option string) : Eff world unit :=
  client_options <- lift (_set_region ext id) ;;
  emit (NewClient client_options).

(** entity_types.py, lines 214-241. *)
Definition list_entity_types (agent_id_ : option string)
  : Eff world (list EntityType.t) :=
  let agent_id_ := if negb (id_truthy agent_id_) then agent_id self else agent_id_ in
  let request := ListEntityTypesRequest agent_id_ in
  new_client agent_id_ ;;;
  emit (Rpc request) ;;;
  pages <- lift (remote_list_entity_types ext agent_id_) ;;
  ret (fold_left (fun entities page => fold_left (fun es e => es ++ [e]) page entities)
                 pages []).

(** entity_types.py, lines 243-261. *)
Definition get_entity_type (entity_id_ : option string)
  : Eff world EntityType.t :=
  let entity_id_ :=
    if negb (id_truthy entity_id_) then entity_id self else entity_id_ in
  new_client entity_id_ ;;;
  emit (Rpc (GetEntityTypeRequest entity_id_)) ;;;
  lift (remote_get_entity_type ext entity_id_).

(** entity_types.py, lines 263-309. *)
Definition create_entity_type (agent_id_ : option string)
    (language_code : option string) (kwargs : list (string * EntityType.attr))
  : Eff world EntityType.t :=
  let agent_id_ := if negb (id_truthy agent_id_) then agent_id self else agent_id_ in
  (* If entity_type_obj is given set entity_type to it *)
  w <- get ;;
  entity_type <-
    (if obj_truthy w then
       setattr_var Alias "name" (EntityType.AStr "")
     else ret (Own EntityType.default)) ;;
  (* set optional arguments to entity type attributes *)
  entity_type <- set_attrs entity_type kwargs ;;
  new_client agent_id_ ;;;
  e <- deref entity_type ;;
  let language_code_ :=
    if id_truthy language_code then language_code else None in
  emit (Rpc (CreateEntityTypeRequest agent_id_ e language_code_)) ;;;
  lift (remote_create_entity_type ext agent_id_ e language_code_).

(** entity_types.py, lines 311-362. *)
Definition update_entity_type (entity_type_id : option string)
    (language_code : option string) (kwargs : list (string * EntityType.attr))
  : Eff world EntityType.t :=
  w <- get ;;
  bound <-
    (if obj_truthy w then
       entity_type <- setattr_var Alias "name" (id_attr entity_type_id) ;;
       ret (entity_type, entity_type_id)
     else
       let entity_type_id :=
         if negb (id_truthy entity_type_id) then entity_id self
         else entity_type_id in
       fetched <- get_entity_type entity_type_id ;;
       ret (Own fetched, entity_type_id)) ;;
  let entity_type := fst bound in
  let entity_type_id := snd bound in
  (* set entity type attributes to args *)
  entity_type <- set_attrs entity_type kwargs ;;
  let paths := map fst kwargs in
  let mask := paths in
  new_client entity_type_id ;;;
  e <- deref entity_type ;;
  let language_code_ :=
    if id_truthy language_code then language_code else None in
  emit (Rpc (UpdateEntityTypeRequest e mask language_code_)) ;;;
  lift (remote_update_entity_type ext e mask language_code_).

(** entity_types.py, lines 364-383. *)
Definition delete_entity_type (entity_id_ : option string) : Eff world unit :=
  let entity_id_ :=
    if negb (id_truthy entity_id_) then entity_id self else entity_id_ in
  w <- get ;;
  if obj_truthy w then
    o <- deref Alias ;;
    let entity_id_ := Some (EntityType.name o) in
    ret tt
  else
    new_client entity_id_ ;;;
    emit (Rpc (DeleteEntityTypeRequest entity_id_)) ;;;
    lift (remote_delete_entity_type ext entity_id_).

End WithExternals.

(** The inner loop of [entity_type_proto_to_dataframe], [for synonym in
    entity.synonyms]: the dict is handed to [pd.concat] as it is. *)
Fixpoint add_synonyms (synonyms : list string)
    (main_df : pd.DataFrame) (entity_type_dict : pd.row)
  : result (pd.DataFrame * pd.row) :=
  match synonyms with
  | [] => Ok (main_df, entity_type_dict)
  | synonym :: rest =>
      let entity_type_dict :=
        pd.dict_set entity_type_dict "synonyms" (PyStr synonym) in
      rbind (pd.concat [pd.Frame main_df; pd.Dict entity_type_dict])
        (fun main_df => add_synonyms rest main_df entity_type_dict)
  end.

(** The outer loop, [for entity in obj.entities]. *)
Fixpoint add_entities (entities : list Entity.t)
    (main_df : pd.DataFrame) (entity_type_dict : pd.row)
  : result (pd.DataFrame * pd.row) :=
  match entities with
  | [] => Ok (main_df, entity_type_dict)
  | entity :: rest =>
      let entity_type_dict :=
        pd.dict_set entity_type_dict "entity_value"
                    (PyStr (Entity.value entity)) in
      rbind (add_synonyms (Entity.synonyms entity) main_df entity_type_dict)
        (fun st => add_entities rest (fst st) (snd st))
  end.

(** entity_types.py, lines 58-119, the branch [mode == "basic"]. *)
Definition entity_type_proto_to_dataframe_basic (o : EntityType.t)
  : result pd.DataFrame :=
  let main_df := pd.empty in
  let entity_type_dict :=
    pd.dict_set [] "display_name" (PyStr (EntityType.display_name o)) in
  rbind (add_entities (EntityType.entities o) main_df entity_type_dict)
    (fun st => Ok (fst st)).

(** [entity_type_subset and obj.display_name not in entity_type_subset] *)
Definition skipped (entity_type_subset : option (list string))
    (o : EntityType.t) : bool :=
  match entity_type_subset with
  | None => false
  | Some subset =>
      list_truthy subset
      && negb (existsb (String.eqb (EntityType.display_name o)) subset)
  end.

(** The loop of the branch [mode == "basic"] of [entity_types_to_df]. *)
Fixpoint collect_basic (entity_type_subset : option (list string))
    (entity_types : list EntityType.t) (main_df : pd.DataFrame)
  : result pd.DataFrame :=
  match entity_types with
  | [] => Ok main_df
  | o :: rest =>
      if skipped entity_type_subset o
      then collect_basic entity_type_subset rest main_df
      else
        rbind (entity_type_proto_to_dataframe_basic o) (fun single_entity_df =>
        rbind (pd.concat [pd.Frame main_df; pd.Frame single_entity_df])
          (fun main_df => collect_basic entity_type_subset rest main_df))
  end.

(** entity_types.py, lines 121-155: [entity_types_to_df] with
    [mode="basic"]. *)
Definition entity_types_to_df_basic (ext : Externals) (self : self_t)
    (agent_id_ : option string) (entity_type_subset : option (list string))
  : Eff world pd.DataFrame :=
  let agent_id_ := if negb (id_truthy agent_id_) then agent_id self else agent_id_ in
  entity_types <- list_entity_types ext self agent_id_ ;;
  main_df <- lift (collect_basic entity_type_subset entity_types pd.empty) ;;
  lift (pd.sort_values ["display_name"; "entity_value"] main_df).

(** A Python [dict] with string keys: the keys in insertion order; a key set
    again keeps its place and takes the new value. *)
Fixpoint dict_put {V} (d : list (string * V)) (key : string) (v : V)
  : list (string * V) :=
  match d with
  | [] => [(key, v)]
  | (k, x) :: d' =>
      if String.eqb k key then (k, v) :: d' else (k, x) :: dict_put d' key v
  end.

Fixpoint dict_get {V} (d : list (string * V)) (key : string) : option V :=
  match d with
  | [] => None
  | (k, x) :: d' => if String.eqb k key then Some x else dict_get d' key
  end.

(** entity_types.py, lines 186-212. *)
Definition get_entities_map (ext : Externals) (self : self_t)
    (agent_id_ : option string) (reverse : bool)
  : Eff world (list (string * string)) :=
  let agent_id_ := if negb (id_truthy agent_id_) then agent_id self else agent_id_ in
  if reverse then
    entities <- list_entity_types ext self agent_id_ ;;
    ret (fold_left
           (fun entities_dict entity =>
              dict_put entities_dict (EntityType.display_name entity)
                       (EntityType.name entity))
           entities [])
  else
    entities <- list_entity_types ext self agent_id_ ;;
    ret (fold_left
           (fun entities_dict entity =>
              dict_put entities_dict (EntityType.name entity)
                       (EntityType.display_name entity))
           entities []).

(** [obj.kind.name]: the name of the value of the enum [EntityType.Kind]. *)
Definition kind_name (kind : Z) : result string :=
  if Z.eqb kind 0 then Ok "KIND_UNSPECIFIED"
  else if Z.eqb kind 1 then Ok "KIND_MAP"
  else if Z.eqb kind 2 then Ok "KIND_LIST"
  else if Z.eqb kind 3 then Ok "KIND_REGEXP"
  else Raise AttributeError.

(** The loop [for excluded_phrase in obj.excluded_phrases] of the branch
    [mode == "advanced"]. *)
Fixpoint add_excluded_phrases (phrases : list string)
    (excl_phrases_df : pd.DataFrame) (excl_phrases_dict : pd.row)
  : result pd.DataFrame :=
  match phrases with
  | [] => Ok excl_phrases_df
  | excluded_phrase :: rest =>
      let excl_phrases_dict :=
        pd.dict_set excl_phrases_dict "excluded_phrase" (PyStr excluded_phrase) in
      rbind (pd.concat [pd.Frame excl_phrases_df; pd.Dict excl_phrases_dict])
        (fun excl_phrases_df =>
           add_excluded_phrases rest excl_phrases_df excl_phrases_dict)
  end.

(** What [entity_type_proto_to_dataframe] and [entity_types_to_df] return:
    one frame in basic mode, the dict of the two frames ["entity_types"] and
    ["excluded_phrases"] in advanced mode. *)
Inductive frames : Type :=
| BasicFrame (main_df : pd.DataFrame)
| AdvancedFrames (entity_types excluded_phrases : pd.DataFrame).

(** entity_types.py, lines 85-116, the branch [mode == "advanced"]. *)
Definition entity_type_proto_to_dataframe_advanced (o : EntityType.t)
  : result (pd.DataFrame * pd.DataFrame) :=
  let main_df := pd.empty in
  let excl_phrases_df := pd.empty in
  let excl_phrases_dict :=
    [("entity_type_id", PyStr (EntityType.name o));
     ("display_name", PyStr (EntityType.display_name o))] in
  rbind (kind_name (EntityType.kind o)) (fun kind =>
  let entity_type_dict :=
    [("entity_type_id", PyStr (EntityType.name o));
     ("display_name", PyStr (EntityType.display_name o));
     ("kind", PyStr kind);
     ("auto_expansion_mode", PyInt (EntityType.auto_expansion_mode o));
     ("fuzzy_extraction", PyBool (EntityType.enable_fuzzy_extraction o));
     ("redact", PyBool (EntityType.redact o))] in
  rbind (add_entities (EntityType.entities o) main_df entity_type_dict)
    (fun st =>
  rbind (add_excluded_phrases (EntityType.excluded_phrases o) excl_phrases_df
           excl_phrases_dict)
    (fun excl_phrases_df => Ok (fst st, excl_phrases_df)))).

(** entity_types.py, lines 58-119. *)
Definition entity_type_proto_to_dataframe (o : EntityType.t) (mode : string)
  : result frames :=
  if String.eqb mode "basic" then
    rbind (entity_type_proto_to_dataframe_basic o)
      (fun main_df => Ok (BasicFrame main_df))
  else if String.eqb mode "advanced" then
    rbind (entity_type_proto_to_dataframe_advanced o)
      (fun dfs => Ok (AdvancedFrames (fst dfs) (snd dfs)))
  else Raise ValueError.

(** The loop of the branch [mode == "advanced"] of [entity_types_to_df]. *)
Fixpoint collect_advanced (entity_type_subset : option (list string))
    (entity_types : list EntityType.t)
    (main_df excl_phrases_df : pd.DataFrame)
  : result (pd.DataFrame * pd.DataFrame) :=
  match entity_types with
  | [] => Ok (main_df, excl_phrases_df)
  | o :: rest =>
      if skipped entity_type_subset o
      then collect_advanced entity_type_subset rest main_df excl_phrases_df
      else
        rbind (entity_type_proto_to_dataframe_advanced o)
          (fun single_entity_dict =>
        rbind (pd.concat [pd.Frame main_df; pd.Frame (fst single_entity_dict)])
          (fun main_df =>
        rbind (pd.concat [pd.Frame excl_phrases_df;
                          pd.Frame (snd single_entity_dict)])
          (fun excl_phrases_df =>
             collect_advanced entity_type_subset rest main_df
               excl_phrases_df)))
  end.

(** entity_types.py, lines 121-183. *)
Definition entity_types_to_df (ext : Externals) (self : self_t)
    (agent_id_ : option string) (mode : string)
    (entity_type_subset : option (list string))
  : Eff world frames :=
  let agent_id_ := if negb (id_truthy agent_id_) then agent_id self else agent_id_ in
  entity_types <- list_entity_types ext self agent_id_ ;;
  if String.eqb mode "basic" then
    main_df <- lift (collect_basic entity_type_subset entity_types pd.empty) ;;
    main_df <- lift (pd.sort_values ["display_name"; "entity_value"] main_df) ;;
    ret (BasicFrame main_df)
  else if String.eqb mode "advanced" then
    dfs <- lift (collect_advanced entity_type_subset entity_types
                   pd.empty pd.empty) ;;
    main_df <- lift (pd.astype_bool
                       ["auto_expansion_mode"; "fuzzy_extraction"; "redact"]
                       (fst dfs)) ;;
    ret (AdvancedFrames main_df (snd dfs))
  else raise ValueError.

End EntityTypes.

(** ** Concrete collaborators for the examples *)
Module SpecLeaf.

Definition opt_str (v : pyval) : result string :=
  match v with
  | PyNone => Ok ""
  | PyStr s => Ok s
  | _ => Raise ValueError
  end.

Definition texts (message : pyval) : result (list string) :=
  match message with
  | PyNone => Ok []
  | PyStr s => Ok [s]
  | PyList l =>
      match all_strs l with Ok ss => Ok ss | Raise _ => Raise ValueError end
  | _ => Raise ValueError
  end.

Definition presets (parameter_map : pyval) : result (list (string * string)) :=
  match parameter_map with
  | PyNone => Ok []
  | PyDict d => Ok d
  | _ => Raise ValueError
  end.

Definition with_response (f : Fulfillment.t) (message parameter_map : pyval)
  : result Fulfillment.t :=
  rbind (texts message) (fun ms =>
  rbind (presets parameter_map) (fun ps =>
  Ok (Fulfillment.mk (Fulfillment.messages f ++ ms) (Fulfillment.webhook f)
        (Fulfillment.tag f) (Fulfillment.return_partial_responses f)
        (Fulfillment.set_parameter_actions f ++ ps)))).

(** Modelled from the spec: [TransitionRouteBuilder.create_new_proto_obj]
    (builders/routes.py) is not among the embedded sources.  "For all valid
    (intent, condition) pairs except (absent, absent), route construction
    succeeds; for (absent, absent) it fails"; "a route's target is
    page-xor-flow". *)
Definition route (intent condition trigger_fulfillment target_page target_flow : pyval)
  : result TransitionRoute.t :=
  rbind (opt_str intent) (fun i =>
  rbind (opt_str condition) (fun c =>
  rbind (opt_str target_page) (fun tp =>
  rbind (opt_str target_flow) (fun tf =>
  if negb (str_truthy i || str_truthy c) then Raise ValueError
  else if str_truthy tp && str_truthy tf then Raise ValueError
  else
    match trigger_fulfillment with
    | PyNone => Ok (TransitionRoute.mk "" i c Fulfillment.default tp tf)
    | PyFulfillment f => Ok (TransitionRoute.mk "" i c f tp tf)
    | _ => Raise ValueError
    end)))).

(** Modelled from the spec: [TransitionRouteBuilder.set_fulfillment] is not
    among the embedded sources; the trigger fulfillment holds "message
    content, optional webhook reference + tag, parameter presets". *)
Definition route_set_fulfillment (r : TransitionRoute.t)
    (message parameter_map : pyval) : result TransitionRoute.t :=
  rbind (with_response (TransitionRoute.trigger_fulfillment r) message parameter_map)
    (fun f => Ok (TransitionRoute.mk (TransitionRoute.name r)
                    (TransitionRoute.intent r) (TransitionRoute.condition r) f
                    (TransitionRoute.target_page r) (TransitionRoute.target_flow r))).

(** Modelled from the spec: [EventHandlerBuilder.create_new_proto_obj]
    (builders/routes.py) is not among the embedded sources.  "Event
    Handler: event name, same trigger-fulfillment/target shape as
    Transition Route". *)
Definition handler (event trigger_fulfillment target_page target_flow : pyval)
  : result EventHandler.t :=
  match event with
  | PyStr ev =>
      rbind (opt_str target_page) (fun tp =>
      rbind (opt_str target_flow) (fun tf =>
      if negb (str_truthy ev) then Raise ValueError
      else if str_truthy tp && str_truthy tf then Raise ValueError
      else
        match trigger_fulfillment with
        | PyNone => Ok (EventHandler.mk "" ev Fulfillment.default tp tf)
        | PyFulfillment f => Ok (EventHandler.mk "" ev f tp tf)
        | _ => Raise ValueError
        end))
  | _ => Raise ValueError
  end.

(** Modelled from the spec: [EventHandlerBuilder.set_fulfillment] is not
    among the embedded sources. *)
Definition handler_set_fulfillment (e : EventHandler.t)
    (message parameter_map : pyval) : result EventHandler.t :=
  rbind (with_response (EventHandler.trigger_fulfillment e) message parameter_map)
    (fun f => Ok (EventHandler.mk (EventHandler.name e) (EventHandler.event e) f
                    (EventHandler.target_page e) (EventHandler.target_flow e))).

(** Modelled from the spec: [FulfillmentBuilder] (builders/fulfillments.py)
    is not among the embedded sources.  A Fulfillment is "a bundle of
    response messages plus optional webhook invocation and parameter
    presets". *)
Definition fulfillment (webhook tag return_partial_responses : pyval)
  : result Fulfillment.t :=
  rbind (opt_str webhook) (fun wh =>
  rbind (opt_str tag) (fun tg =>
  match return_partial_responses with
  | PyBool b =>
      if str_truthy wh && negb (str_truthy tg) then Raise ValueError
      else Ok (Fulfillment.mk [] wh tg b [])
  | _ => Raise ValueError
  end)).

Definition add_response_message (f : Fulfillment.t)
    (message response_type mode : pyval) : result Fulfillment.t :=
  with_response f message PyNone.

Definition add_parameter_presets (f : Fulfillment.t) (parameter_map : pyval)
  : result Fulfillment.t :=
  with_response f PyNone parameter_map.

Definition has_webhook (f : Fulfillment.t) : bool :=
  str_truthy (Fulfillment.webhook f).

Definition leaf : LeafBuilders :=
  Build_LeafBuilders route route_set_fulfillment handler handler_set_fulfillment
    fulfillment add_response_message add_parameter_presets has_webhook.

End SpecLeaf.

Module Fixtures.
Import EntityTypes.

(** A service that answers: the region is the fourth segment's stand-in
    ["global"], a fetched entity type carries the requested name, a created
    or updated one is echoed back. *)
Definition reachable : Externals :=
  Build_Externals
    (fun id => match id with Some _ => Ok "global" | None => Raise AttributeError end)
    (fun _ => Ok [])
    (fun id => Ok (EntityType.with_name
                     (match id with Some s => s | None => "" end)
                     (EntityType.with_display_name "fetched" EntityType.default)))
    (fun _ e _ => Ok e)
    (fun e _ _ => Ok e)
    (fun _ => Ok tt).

(** The same service with every remote call failing. *)
Definition unreachable : Externals :=
  Build_Externals
    (fun id => match id with Some _ => Ok "global" | None => Raise AttributeError end)
    (fun _ => Raise (RemoteError "unavailable"))
    (fun _ => Raise (RemoteError "unavailable"))
    (fun _ _ _ => Raise (RemoteError "unavailable"))
    (fun _ _ _ => Raise (RemoteError "unavailable"))
    (fun _ => Raise (RemoteError "unavailable")).

(** A service whose listing holds one entity type with one synonym. *)
Definition color : EntityType.t :=
  EntityType.mk "projects/p/locations/global/agents/a/entityTypes/e1" "color"
    1 0 [Entity.mk "red" ["crimson"]] [] false false.

Definition listing (pages : list (list EntityType.t)) : Externals :=
  Build_Externals
    (fun id => match id with Some _ => Ok "global" | None => Raise AttributeError end)
    (fun _ => Ok pages)
    (fun _ => Raise (RemoteError "unavailable"))
    (fun _ _ _ => Raise (RemoteError "unavailable"))
    (fun _ _ _ => Raise (RemoteError "unavailable"))
    (fun _ => Raise (RemoteError "unavailable")).

Definition wrapper : self_t :=
  mkSelf (Some "projects/p/locations/global/agents/a/entityTypes/e0")
         (Some "projects/p/locations/global/agents/a").

Definition prompt : Fulfillment.t :=
  Fulfillment.mk ["What is your email?"] "" "" false [].

Definition buy : TransitionRoute.t :=
  TransitionRoute.mk "" "intents/buy" "" Fulfillment.default "pages/checkout" "".

Definition cancel : TransitionRoute.t :=
  TransitionRoute.mk "" "intents/cancel" "$session.params.done = true"
    Fulfillment.default "" "flows/main".

Definition no_match : EventHandler.t :=
  EventHandler.mk "" "sys.no-match-default" prompt "" "".

Definition no_input : EventHandler.t :=
  EventHandler.mk "" "sys.no-input-default" prompt "" "".

Definition email : FormParameter.t :=
  FormParameter.mk "email" true "sys.email" false
    (FillBehavior.mk prompt []) None false.

Definition phone : FormParameter.t :=
  FormParameter.mk "phone" false "sys.phone-number" false
    (FillBehavior.mk prompt [no_match]) (Some "") false.

Definition address : FormParameter.t :=
  FormParameter.mk "address" true "sys.address" false
    (FillBehavior.mk prompt []) None false.

(** A page with a repeated route, and a group with the same routes. *)
Definition shop : Page.t :=
  Page.mk "" "Shop" Fulfillment.default (Form.mk [email; phone])
    ["groups/common"; "groups/help"] [buy; cancel; buy] [no_match; no_input].

Definition shop_routes : TransitionRouteGroup.t :=
  TransitionRouteGroup.mk "" "Shop routes" [buy; cancel; buy].

End Fixtures.

(** ** Vocabulary of the statements *)

(** A parameter whose fill behavior has a non-empty collection of reprompt
    event handlers. *)
Definition reprompted (param : FormParameter.t) : bool :=
  list_truthy (FillBehavior.reprompt_event_handlers
                 (FormParameter.fill_behavior param)).

Definition count_reprompted (params : list FormParameter.t) : Z :=
  Z.of_nat (List.length (filter reprompted params)).

(** The keyword arguments applied in order to an EntityType:
    [for key, value in kwargs.items(): setattr(e, key, value)]. *)
Fixpoint apply_kwargs (e : EntityType.t) (kwargs : list (string * EntityType.attr))
  : result EntityType.t :=
  match kwargs with
  | [] => Ok e
  | (key, value) :: rest =>
      rbind (EntityType.setattr e key value) (fun e' => apply_kwargs e' rest)
  end.

(** The string a string field holds after [field = id]: [None] resets it. *)
Definition id_str (id : option string) : string :=
  match id with Some s => s | None => "" end.

(** Three shapes of computations: [readonly] never changes the state,
    [total] never raises, [failsafe] leaves the state as it was whenever
    it raises. *)
Definition readonly {S A} (m : Eff S A) : Prop :=
  forall s, snd (m s) = s.

Definition total {S A} (m : Eff S A) : Prop :=
  forall s, exists a s', m s = (Ok a, s').

Definition failsafe {S A} (m : Eff S A) : Prop :=
  forall s e s', m s = (Raise e, s') -> s' = s.

(** A wrapper computation that leaves the caller's object alone, whatever
    its outcome. *)
Definition keeps_obj {A} (m : Eff EntityTypes.world A) : Prop :=
  forall w, EntityTypes.obj (snd (m w)) = EntityTypes.obj w.

(** Seed content as the caller passes it. *)
Definition fulfillment_arg (seed : option Fulfillment.t) : pyval :=
  match seed with None => PyNone | Some f => PyFulfillment f end.

Definition fulfillment_of (seed : option Fulfillment.t) : Fulfillment.t :=
  match seed with None => Fulfillment.default | Some f => f end.

Definition routes_arg (rs : list TransitionRoute.t) : pyval :=
  PyList (map PyTransitionRoute rs).

(** The Page and the TransitionRouteGroup a create operation constructs. *)
Definition fresh_page (display_name : string) (seed : option Fulfillment.t)
  : Page.t :=
  Page.mk "" display_name (fulfillment_of seed) Form.default [] [] [].

Definition fresh_group (display_name : string) (rs : list TransitionRoute.t)
  : TransitionRouteGroup.t :=
  TransitionRouteGroup.mk "" display_name rs.

(** A call that succeeded, stored [x] in [proto_obj] and returned it. *)
Definition returns {P} (x : P) : result (option P) * option P :=
  (Ok (Some x), Some x).

(** Removal criteria as the caller passes them, and what they match. *)
Definition names_arg (names : list string) : pyval := PyList (map PyStr names).

Definition handlers_arg (ehs : list EventHandler.t) : pyval :=
  PyList (map PyEventHandler ehs).

Definition name_in (names : list string) (s : string) : bool :=
  existsb (String.eqb s) names.

Definition handler_among (ehs : list EventHandler.t) (e : EventHandler.t) : bool :=
  existsb (fun e' => if EventHandler.eq_dec e e' then true else false) ehs.

Definition some_specified (target_route intent condition : pyval) : bool :=
  BuildersCommon.specified target_route || BuildersCommon.specified intent
  || BuildersCommon.specified condition.

(** The EntityType reached when the keyword arguments are applied in order
    up to the first one that [setattr] rejects. *)
Fixpoint applied_prefix (e : EntityType.t)
    (kwargs : list (string * EntityType.attr)) : EntityType.t :=
  match kwargs with
  | [] => e
  | (key, value) :: rest =>
      match EntityType.setattr e key value with
      | Ok e' => applied_prefix e' rest
      | Raise _ => e
      end
  end.

(** The number of requests among some events. *)
Definition rpc_count (evs : list EntityTypes.event) : nat :=
  List.length (filter (fun ev => match ev with
                                 | EntityTypes.Rpc _ => true
                                 | EntityTypes.NewClient _ => false
                                 end) evs).

(** The id a wrapper call works with: the argument, or the wrapper's own
    when the argument is [None] or empty. *)
Definition or_default (id fallback : option string) : option string :=
  if negb (EntityTypes.id_truthy id) then fallback else id.

(** The language code a request carries: none when the argument is [None]
    or empty. *)
Definition sent_language_code (language_code : option string) : option string :=
  if EntityTypes.id_truthy language_code then language_code else None.

(** The last element of a list that satisfies a test. *)
Definition find_last {A} (f : A -> bool) (l : list A) : option A :=
  find f (rev l).

(** Counting the routes of a page by what guards them. *)
Definition has_intent (tr : TransitionRoute.t) : bool :=
  str_truthy (TransitionRoute.intent tr).

Definition has_condition (tr : TransitionRoute.t) : bool :=
  str_truthy (TransitionRoute.condition tr).

Definition count_if {A} (f : A -> bool) (l : list A) : Z :=
  Z.of_nat (List.length (filter f l)).

(** [n] calls of [calc_parameter_stats] on the same PageStats object. *)
Fixpoint calc_parameter_stats_times (leaf : LeafBuilders) (n : nat)
    (s : PageStats.t) : PageStats.t :=
  match n with
  | O => s
  | S n' => PageStats.calc_parameter_stats leaf
              (calc_parameter_stats_times leaf n' s)
  end.

(** The builder holds an object whose display name is not empty. *)
Definition page_named (self : PageBuilder.builder) : Prop :=
  exists p, self = Some p /\ Page.display_name p <> "".

(** A wrapper computation that adds at most [n] requests to the trace and
    takes nothing away from it. *)
Definition emits_at_most {A} (n : nat) (m : Eff EntityTypes.world A) : Prop :=
  forall w, exists evs,
    EntityTypes.trace (snd (m w)) = EntityTypes.trace w ++ evs
    /\ (rpc_count evs <= n)%nat.

(** Some entity of the entity type has a synonym. *)
Definition has_synonym (o : EntityType.t) : bool :=
  existsb (fun entity => list_truthy (Entity.synonyms entity))
          (EntityType.entities o).

(** Routes, event handlers and parameters by what they carry. *)
Definition intent_only (tr : TransitionRoute.t) : bool :=
  has_intent tr && negb (has_condition tr).

Definition condition_only (tr : TransitionRoute.t) : bool :=
  negb (has_intent tr) && has_condition tr.

Definition intent_and_condition (tr : TransitionRoute.t) : bool :=
  has_intent tr && has_condition tr.

Definition unguarded (tr : TransitionRoute.t) : bool :=
  negb (has_intent tr) && negb (has_condition tr).

Definition route_fulfilled (tr : TransitionRoute.t) : bool :=
  Fulfillment.truthy (TransitionRoute.trigger_fulfillment tr).

Definition route_webhooked (leaf : LeafBuilders) (tr : TransitionRoute.t) : bool :=
  route_fulfilled tr
  && fb_has_webhook leaf (TransitionRoute.trigger_fulfillment tr).

Definition handler_fulfilled (eh : EventHandler.t) : bool :=
  Fulfillment.truthy (EventHandler.trigger_fulfillment eh).

Definition handler_webhooked (leaf : LeafBuilders) (eh : EventHandler.t) : bool :=
  fb_has_webhook leaf (EventHandler.trigger_fulfillment eh).

Definition parameter_webhooked (leaf : LeafBuilders) (param : FormParameter.t)
  : bool :=
  fb_has_webhook leaf
    (FillBehavior.initial_prompt_fulfillment (FormParameter.fill_behavior param)).

(** A computation that keeps a property of the state, whatever its
    outcome. *)
Definition preserves {S A} (I : S -> Prop) (m : Eff S A) : Prop :=
  forall s, I s -> I (snd (m s)).

(** The builder holds a group whose display name is not empty. *)
Definition group_named (self : TransitionRouteGroupBuilder.builder) : Prop :=
  exists g, self = Some g /\ TransitionRouteGroup.display_name g <> "".

(** A sequence of calls on one TransitionRouteGroupBuilder, as
    [PageBuilder.run_all]. *)
Fixpoint group_run_all (leaf : LeafBuilders)
    (cs : list TransitionRouteGroupBuilder.call)
    (self : TransitionRouteGroupBuilder.builder)
  : TransitionRouteGroupBuilder.builder :=
  match cs with
  | [] => self
  | c :: cs' =>
      group_run_all leaf cs' (snd (TransitionRouteGroupBuilder.run leaf c self))
  end.

(** The page with the one field blanked that a call works on; a create call
    works on all of them. *)
Definition blank (c : PageBuilder.call) (p : Page.t) : Page.t :=
  match c with
  | PageBuilder.CreateNewPage _ _ _ => Page.default
  | PageBuilder.SetEntryFulfillment _ _ _ _ _ _ _ =>
      Page.with_entry_fulfillment Fulfillment.default p
  | PageBuilder.AddParameter _ _ _ _ _ _ _ _
  | PageBuilder.RemoveParameter _ => Page.with_parameters [] p
  | PageBuilder.AddTransitionRoute _ _ _ _ _ _ _ _
  | PageBuilder.RemoveTransitionRoute _ _ _ => Page.with_transition_routes [] p
  | PageBuilder.AddEventHandler _ _ _ _ _ _ _
  | PageBuilder.RemoveEventHandler _ _ => Page.with_event_handlers [] p
  | PageBuilder.AddTransitionRouteGroup _
  | PageBuilder.RemoveTransitionRouteGroup _ =>
      Page.with_transition_route_groups [] p
  end.

(** A computation on a PageBuilder that, when it succeeds on a held page,
    leaves a page that agrees with it under [fr]. *)
Definition frames {A} (fr : Page.t -> Page.t) (m : Eff PageBuilder.builder A)
  : Prop :=
  forall p a s', m (Some p) = (Ok a, s') ->
                 exists p', s' = Some p' /\ fr p' = fr p.

(** The entity types [entity_types_to_df] converts: those the subset filter
    does not skip. *)
Definition kept (entity_type_subset : option (list string))
    (entity_types : list EntityType.t) : list EntityType.t :=
  filter (fun o => negb (EntityTypes.skipped entity_type_subset o))
         entity_types.

(** The kind of the entity type is a member of [EntityType.Kind]. *)
Definition kind_named (o : EntityType.t) : bool :=
  match EntityTypes.kind_name (EntityType.kind o) with
  | Ok _ => true
  | Raise _ => false
  end.

(** The exception in which the basic, and the advanced, conversion of some
    entity types ends.  Basic: [TypeError] when one of them has a synonym,
    [KeyError] otherwise.  Advanced: the entity types are converted in
    order, and the first one whose kind is no member of the enum gives
    [AttributeError], the first one with a synonym or an excluded phrase
    [TypeError]; when there is none of either, [KeyError]. *)
Definition basic_exception (entity_types : list EntityType.t) : exn :=
  if existsb has_synonym entity_types then TypeError else KeyError.

Fixpoint advanced_exception (entity_types : list EntityType.t) : exn :=
  match entity_types with
  | [] => KeyError
  | o :: rest =>
      if negb (kind_named o) then AttributeError
      else if has_synonym o || list_truthy (EntityType.excluded_phrases o)
           then TypeError
           else advanced_exception rest
  end.

(** The arguments of a create call pass its type checks: the display name
    is a non-empty string, and the seed content is falsy or of the declared
    class (for a group: a TransitionRoute, or a list of TransitionRoutes). *)
Definition page_create_args_ok (display_name entry_fulfillment : pyval) : bool :=
  PageBuilder.nonempty_str display_name
  && (negb (truthy entry_fulfillment)
      || isinstance entry_fulfillment TFulfillment).

Definition group_create_args_ok (display_name transition_routes : pyval) : bool :=
  TransitionRouteGroupBuilder.nonempty_str display_name
  && (negb (truthy transition_routes)
      || isinstance transition_routes TTransitionRoute
      || (isinstance transition_routes TList
          && TransitionRouteGroupBuilder.all_routes transition_routes)).

(** What a create call takes from such arguments: the display name, and the
    seed content, which is dropped when it is falsy. *)
Definition str_of (v : pyval) : string :=
  match v with PyStr s => s | _ => "" end.

Definition seed_fulfillment (v : pyval) : option Fulfillment.t :=
  if truthy v
  then match v with PyFulfillment f => Some f | _ => None end
  else None.

Definition seed_routes (v : pyval) : list TransitionRoute.t :=
  if truthy v
  then flat_map (fun x => match x with PyTransitionRoute r => [r] | _ => [] end)
                (listify v)
  else [].


(** * Theorems *)

Ltac eff_unfold :=
  cbv beta iota delta
    [bind ret raise get put lift when
     BuildersCommon._check_proto_obj_attr_exist
     BuildersCommon._add_proto_attrs_to_builder_obj
     BuildersCommon._is_type_or_list_of_types
     BuildersCommon.update_proto_obj
     BuildersCommon.read_proto_obj].

(** ** PageStats *)

Lemma count_parameter_fold (leaf : LeafBuilders) :
  forall params s,
    let s' := fold_left (PageStats.count_parameter leaf) params s in
    PageStats.parameters_count s' = PageStats.parameters_count s
    /\ PageStats.parameters_ratio s' = PageStats.parameters_ratio s
    /\ PageStats.page_proto_obj s' = PageStats.page_proto_obj s
    /\ PageStats.parameters_with_event_handler_count s'
       = (PageStats.parameters_with_event_handler_count s
          + count_reprompted params)%Z.
Proof.
  induction params as [|param params IH]; intros s; cbn zeta.
  - cbn. repeat split. unfold count_reprompted. cbn. lia.
  - cbn [fold_left].
    destruct (IH (PageStats.count_parameter leaf s param))
      as (Hc & Hr & Hp & He).
    rewrite Hc, Hr, Hp, He. clear IH Hc Hr Hp He.
    unfold PageStats.count_parameter, count_reprompted.
    cbn [filter]. fold (reprompted param).
    destruct (fb_has_webhook leaf _), (reprompted param);
      cbn; repeat split; lia.
Qed.

Lemma parameters_ratio_formula (leaf : LeafBuilders) (page : Page.t) :
  let params := Form.parameters (Page.form page) in
  let s := PageStats.calc_parameter_stats leaf (PageStats.init page) in
  PageStats.parameters_count s = Z.of_nat (List.length params)
  /\ PageStats.parameters_ratio s =
       match params with
       | [] => PyInteger 0
       | _ :: _ => true_div (count_reprompted params)
                            (Z.of_nat (List.length params))
       end.
Proof.
  cbn zeta. unfold PageStats.calc_parameter_stats.
  cbn [PageStats.init PageStats.page_proto_obj].
  set (params := Form.parameters (Page.form page)).
  set (s0 := PageStats.set_parameters_count _ _).
  destruct (count_parameter_fold leaf params s0) as (Hc & Hr & _ & He).
  cbn zeta in Hc, Hr, He.
  set (s1 := fold_left (PageStats.count_parameter leaf) params s0) in *.
  assert (Hc0 : PageStats.parameters_count s0 = Z.of_nat (List.length params))
    by reflexivity.
  assert (He0 : PageStats.parameters_with_event_handler_count s0 = 0%Z)
    by reflexivity.
  assert (Hr0 : PageStats.parameters_ratio s0 = PyInteger 0) by reflexivity.
  rewrite Hc0 in Hc. rewrite He0 in He. rewrite Hr0 in Hr.
  destruct params as [|p ps] eqn:E.
  - rewrite Hc. cbn. split; [reflexivity | exact Hr].
  - assert (Hnz : (Z.of_nat (List.length (p :: ps)) =? 0)%Z = false).
    { apply Z.eqb_neq. cbn [List.length]. lia. }
    rewrite Hc, Hnz. cbn [negb].
    destruct s1; cbn in *. subst. split; reflexivity.
Qed.

Lemma true_div_quotient (a b : Z) :
  (0 < b)%Z ->
  exists q, true_div a b = PyFloat q /\ (q == inject_Z a / inject_Z b)%Q.
Proof.
  intros Hb. exists (Qmake a (Z.to_pos b)). split; [reflexivity|].
  rewrite Qmake_Qdiv. rewrite Z2Pos.id by exact Hb. reflexivity.
Qed.

(** C4.  For every Page, [calc_parameter_stats] on a fresh [PageStats]
    sets the parameter count to the number of form parameters and the
    ratio to the integer [0] when there is none, and otherwise to a float:
    the quotient, as a rational number, of the number of parameters with a
    non-empty collection of reprompt event handlers by the parameter count.
    The page built by [create_new_page] with display name "Collect Email"
    followed by [add_parameter] of the required parameter "email" of entity
    type "sys.email", with no reprompt handlers, has parameter count [1]
    and ratio [0.0]. *)
Theorem parameter_ratio (leaf : LeafBuilders) :
  (forall page : Page.t,
     let params := Form.parameters (Page.form page) in
     let s := PageStats.calc_parameter_stats leaf (PageStats.init page) in
     PageStats.parameters_count s = Z.of_nat (List.length params)
     /\ match params with
        | [] => PageStats.parameters_ratio s = PyInteger 0
        | _ :: _ =>
            exists q,
              PageStats.parameters_ratio s = PyFloat q
              /\ (q == inject_Z (count_reprompted params)
                       / inject_Z (Z.of_nat (List.length params)))%Q
        end)
  /\ (exists page : Page.t,
        PageBuilder.run_all leaf
          [PageBuilder.CreateNewPage (PyStr "Collect Email") PyNone false;
           PageBuilder.AddParameter (PyStr "email") (PyStr "sys.email")
             (PyFulfillment Fixtures.prompt) (PyBool true) PyNone
             (PyBool false) (PyBool false) PyNone]
          None = Some page
        /\ PageStats.parameters_count
             (PageStats.calc_parameter_stats leaf (PageStats.init page)) = 1%Z
        /\ PageStats.parameters_ratio
             (PageStats.calc_parameter_stats leaf (PageStats.init page))
           = PyFloat (0 # 1)).
Proof.
  split.
  - intros page. cbv zeta.
    destruct (parameters_ratio_formula leaf page) as (Hc & Hr).
    cbv zeta in Hc, Hr. split; [exact Hc|]. rewrite Hr.
    destruct (Form.parameters (Page.form page)) as [|p ps]; [reflexivity|].
    apply true_div_quotient. cbn [List.length]. lia.
  - eexists. split; [reflexivity|].
    match goal with
    | |- context [PageStats.init ?p] =>
        destruct (parameters_ratio_formula leaf p) as (Hc & Hr)
    end.
    cbv zeta in Hc, Hr. rewrite Hc, Hr. split; reflexivity.
Qed.

(** ** entity_types_to_df *)

Lemma concat_frame_dict (df : pd.DataFrame) (d : pd.row) :
  pd.concat [pd.Frame df; pd.Dict d] = Raise TypeError.
Proof. reflexivity. Qed.

Lemma concat_empty_frames :
  pd.concat [pd.Frame pd.empty; pd.Frame pd.empty] = Ok pd.empty.
Proof. reflexivity. Qed.

Lemma sort_values_empty :
  pd.sort_values ["display_name"; "entity_value"] pd.empty = Raise KeyError.
Proof. reflexivity. Qed.

Lemma add_synonyms_cases (synonyms : list string) df d :
  EntityTypes.add_synonyms synonyms df d =
    match synonyms with
    | [] => Ok (df, d)
    | _ :: _ => Raise TypeError
    end.
Proof. destruct synonyms; reflexivity. Qed.

Lemma add_entities_cases :
  forall entities df d,
    (exists d', EntityTypes.add_entities entities df d = Ok (df, d'))
    \/ EntityTypes.add_entities entities df d = Raise TypeError.
Proof.
  induction entities as [|entity rest IH]; intros df d.
  - left. exists d. reflexivity.
  - cbn [EntityTypes.add_entities]. rewrite add_synonyms_cases.
    destruct (Entity.synonyms entity).
    + cbn [rbind fst snd]. apply IH.
    + right. reflexivity.
Qed.

Lemma entity_type_proto_to_dataframe_basic_cases (o : EntityType.t) :
  EntityTypes.entity_type_proto_to_dataframe_basic o = Ok pd.empty
  \/ EntityTypes.entity_type_proto_to_dataframe_basic o = Raise TypeError.
Proof.
  unfold EntityTypes.entity_type_proto_to_dataframe_basic.
  destruct (add_entities_cases (EntityType.entities o) pd.empty
              (pd.dict_set [] "display_name"
                 (PyStr (EntityType.display_name o)))) as [[d' H] | H];
    rewrite H; [left | right]; reflexivity.
Qed.

Lemma collect_basic_cases (subset : option (list string)) :
  forall entity_types,
    EntityTypes.collect_basic subset entity_types pd.empty = Ok pd.empty
    \/ EntityTypes.collect_basic subset entity_types pd.empty = Raise TypeError.
Proof.
  induction entity_types as [|o rest IH].
  - left. reflexivity.
  - cbn [EntityTypes.collect_basic].
    destruct (EntityTypes.skipped subset o); [exact IH|].
    destruct (entity_type_proto_to_dataframe_basic_cases o) as [H | H];
      rewrite H; cbn [rbind].
    + rewrite concat_empty_frames. cbn [rbind]. exact IH.
    + right. reflexivity.
Qed.

(** C8.  [entity_types_to_df] with [mode="basic"] returns no table.  On
    an agent whose listing holds the entity type "color" with the entity
    "red" and its synonym "crimson", [entity_type_proto_to_dataframe] hands
    a dict to [pd.concat], which raises [TypeError]; and on every listing,
    every subset filter and every state of the service the call ends in an
    exception: [TypeError] from [pd.concat] as soon as an entity type that
    is not filtered out has a synonym, [KeyError] from [sort_values] on the
    column-less empty frame otherwise, or the failure of the listing. *)
Theorem entity_types_to_df_basic_raises :
  (forall w,
     fst (EntityTypes.entity_types_to_df_basic
            (Fixtures.listing [[Fixtures.color]]) Fixtures.wrapper None None w)
     = Raise TypeError)
  /\ (forall ext self agent_id subset w,
        exists e,
          fst (EntityTypes.entity_types_to_df_basic ext self agent_id subset w)
          = Raise e).
Proof.
  split.
  - intros w. reflexivity.
  - intros ext self agent_id subset w.
    unfold EntityTypes.entity_types_to_df_basic.
    unfold bind at 1.
    destruct (EntityTypes.list_entity_types _ _ _ w) as [[ets | e] w'].
    + unfold bind, lift.
      destruct (collect_basic_cases subset ets) as [H | H]; rewrite H.
      * rewrite sort_values_empty. exists KeyError. reflexivity.
      * exists TypeError. reflexivity.
    + exists e. reflexivity.
Qed.

(** ** The EntityTypes wrapper *)

Lemma obj_truthy_some (w : EntityTypes.world) :
  EntityTypes.obj_truthy w = true ->
  exists o, EntityTypes.obj w = Some o /\ EntityType.truthy o = true.
Proof.
  unfold EntityTypes.obj_truthy. destruct (EntityTypes.obj w) as [o|].
  - intros H. exists o. split; [reflexivity | exact H].
  - discriminate.
Qed.

Lemma set_attrs_own :
  forall kwargs e w,
    EntityTypes.set_attrs (EntityTypes.Own e) kwargs w =
      (match apply_kwargs e kwargs with
       | Ok e' => Ok (EntityTypes.Own e')
       | Raise x => Raise x
       end, w).
Proof.
  induction kwargs as [|[key value] rest IH]; intros e w.
  - reflexivity.
  - cbn [EntityTypes.set_attrs apply_kwargs].
    unfold bind, EntityTypes.setattr_var, lift, ret.
    destruct (EntityType.setattr e key value) as [e'|x]; cbn [rbind].
    + apply IH.
    + reflexivity.
Qed.

Lemma setattr_var_alias (o : EntityType.t) tr key value :
  EntityTypes.setattr_var EntityTypes.Alias key value
    (EntityTypes.mkWorld (Some o) tr) =
    match EntityType.setattr o key value with
    | Ok o' => (Ok EntityTypes.Alias, EntityTypes.mkWorld (Some o') tr)
    | Raise x => (Raise x, EntityTypes.mkWorld (Some o) tr)
    end.
Proof.
  unfold EntityTypes.setattr_var, bind, get, put, lift, ret.
  cbn [EntityTypes.obj EntityTypes.trace].
  destruct (EntityType.setattr o key value); reflexivity.
Qed.

Lemma set_attrs_alias :
  forall kwargs o tr,
    exists o2,
      EntityTypes.set_attrs EntityTypes.Alias kwargs
        (EntityTypes.mkWorld (Some o) tr) =
        (match apply_kwargs o kwargs with
         | Ok _ => Ok EntityTypes.Alias
         | Raise x => Raise x
         end, EntityTypes.mkWorld (Some o2) tr)
      /\ (forall o', apply_kwargs o kwargs = Ok o' -> o2 = o').
Proof.
  induction kwargs as [|[key value] rest IH]; intros o tr.
  - exists o. split; [reflexivity|]. cbn. congruence.
  - cbn [EntityTypes.set_attrs apply_kwargs].
    unfold bind at 1. rewrite setattr_var_alias.
    destruct (EntityType.setattr o key value) as [o1|x]; cbn [rbind].
    + destruct (IH o1 tr) as (o2 & Hrun & Hok).
      exists o2. split; [exact Hrun | exact Hok].
    + exists o. split; [reflexivity | discriminate].
Qed.

Lemma setattr_keeps_name (e e' : EntityType.t) key value :
  EntityType.setattr e key value = Ok e' ->
  key <> "name" ->
  EntityType.name e' = EntityType.name e.
Proof.
  unfold EntityType.setattr. intros H Hkey.
  destruct (String.eqb key "name") eqn:E.
  { apply String.eqb_eq in E. contradiction. }
  repeat match type of H with
         | (if ?c then _ else _) = _ => destruct c
         end;
    try discriminate H;
    match type of H with
    | rbind ?r _ = _ => destruct r; cbn [rbind] in H
    end;
    inversion H; reflexivity.
Qed.

Lemma apply_kwargs_keeps_name :
  forall kwargs e e',
    apply_kwargs e kwargs = Ok e' ->
    ~ In "name" (map fst kwargs) ->
    EntityType.name e' = EntityType.name e.
Proof.
  induction kwargs as [|[key value] rest IH]; intros e e' H Hnot.
  - cbn in H. congruence.
  - cbn [apply_kwargs] in H. cbn [map fst In] in Hnot.
    destruct (EntityType.setattr e key value) as [e1|x] eqn:E;
      cbn [rbind] in H; [|discriminate].
    rewrite (IH e1 e' H) by tauto.
    eapply setattr_keeps_name; [exact E|]. intros ->. tauto.
Qed.

Lemma setattr_name (o : EntityType.t) (id : option string) :
  EntityType.setattr o "name" (EntityTypes.id_attr id)
  = Ok (EntityType.with_name (id_str id) o).
Proof. destruct id; reflexivity. Qed.

Lemma delete_entity_type_truthy_obj
    (ext : EntityTypes.Externals) (self : EntityTypes.self_t)
    (entity_id : option string) (w : EntityTypes.world) :
  EntityTypes.obj_truthy w = true ->
  EntityTypes.delete_entity_type ext self entity_id w = (Ok tt, w).
Proof.
  intros H. unfold EntityTypes.delete_entity_type, bind, get.
  rewrite H. unfold EntityTypes.deref, bind, get, ret.
  destruct (obj_truthy_some w H) as (o & Ho & _). rewrite Ho. reflexivity.
Qed.

(** C10, as amended.  When the [obj] argument of [delete_entity_type] is
    truthy, i.e. a pre-built object with at least one field set, the call
    returns [None] and changes nothing: no client is built, no request is
    sent, and the object is left as it was. *)
Theorem delete_entity_type_with_obj
    (ext : EntityTypes.Externals) (self : EntityTypes.self_t)
    (entity_id : option string) (w : EntityTypes.world) :
  EntityTypes.obj_truthy w = true ->
  EntityTypes.delete_entity_type ext self entity_id w = (Ok tt, w).
Proof. apply delete_entity_type_truthy_obj. Qed.

Lemma delete_entity_type_with_obj_witness :
  EntityTypes.delete_entity_type Fixtures.reachable Fixtures.wrapper None
    (EntityTypes.mkWorld (Some Fixtures.color) [])
  = (Ok tt, EntityTypes.mkWorld (Some Fixtures.color) []).
Proof.
  apply (delete_entity_type_with_obj Fixtures.reachable Fixtures.wrapper None
           (EntityTypes.mkWorld (Some Fixtures.color) [])).
  reflexivity.
Defined.

(** When [obj] is absent or is an object with no field set, the delete
    request goes out as soon as the region of the id resolves. *)
Lemma delete_entity_type_without_obj
    (ext : EntityTypes.Externals) (self : EntityTypes.self_t)
    (entity_id : option string) (w : EntityTypes.world) (opts : string) :
  let id := if negb (EntityTypes.id_truthy entity_id)
            then EntityTypes.entity_id self else entity_id in
  EntityTypes.obj_truthy w = false ->
  EntityTypes._set_region ext id = Ok opts ->
  EntityTypes.delete_entity_type ext self entity_id w =
    (EntityTypes.remote_delete_entity_type ext id,
     EntityTypes.mkWorld (EntityTypes.obj w)
       ((EntityTypes.trace w ++ [EntityTypes.NewClient opts])
        ++ [EntityTypes.Rpc (EntityTypes.DeleteEntityTypeRequest id)])).
Proof.
  cbn zeta. intros H Hr.
  unfold EntityTypes.delete_entity_type, bind, get. rewrite H.
  unfold EntityTypes.new_client, bind, lift. rewrite Hr.
  unfold EntityTypes.emit. cbn. reflexivity.
Qed.

(** C10, counterexample.  An [EntityType()] with no field set is supplied
    as [obj]; it is falsy, so the [else] branch runs and the delete request
    for the given id is sent. *)
Lemma delete_entity_type_empty_obj_sends_request :
  let w := EntityTypes.mkWorld (Some EntityType.default) [] in
  let id := Some "projects/p/locations/global/agents/a/entityTypes/e1" in
  EntityTypes.obj w = Some EntityType.default
  /\ EntityTypes.delete_entity_type Fixtures.reachable Fixtures.wrapper id w
     = (Ok tt,
        EntityTypes.mkWorld (Some EntityType.default)
          [EntityTypes.NewClient "global";
           EntityTypes.Rpc (EntityTypes.DeleteEntityTypeRequest id)]).
Proof. split; reflexivity. Qed.

Lemma new_client_run (ext : EntityTypes.Externals) id (w : EntityTypes.world) :
  EntityTypes.new_client ext id w =
    match EntityTypes._set_region ext id with
    | Ok opts =>
        (Ok tt, EntityTypes.mkWorld (EntityTypes.obj w)
                  (EntityTypes.trace w ++ [EntityTypes.NewClient opts]))
    | Raise x => (Raise x, w)
    end.
Proof.
  unfold EntityTypes.new_client, bind, lift, EntityTypes.emit.
  destruct (EntityTypes._set_region ext id); reflexivity.
Qed.

Lemma get_entity_type_run (ext : EntityTypes.Externals) self id
    (w : EntityTypes.world) :
  let id' := if negb (EntityTypes.id_truthy id)
             then EntityTypes.entity_id self else id in
  EntityTypes.get_entity_type ext self id w =
    match EntityTypes._set_region ext id' with
    | Ok opts =>
        (EntityTypes.remote_get_entity_type ext id',
         EntityTypes.mkWorld (EntityTypes.obj w)
           ((EntityTypes.trace w ++ [EntityTypes.NewClient opts])
            ++ [EntityTypes.Rpc (EntityTypes.GetEntityTypeRequest id')]))
    | Raise x => (Raise x, w)
    end.
Proof.
  cbn zeta. unfold EntityTypes.get_entity_type.
  unfold bind at 1. rewrite new_client_run.
  destruct (EntityTypes._set_region ext _); [|reflexivity].
  unfold bind, EntityTypes.emit, lift. cbn. reflexivity.
Qed.

Lemma update_entity_type_with_obj_run
    (ext : EntityTypes.Externals) (self : EntityTypes.self_t)
    (entity_type_id language_code : option string)
    (kwargs : list (string * EntityType.attr)) (w : EntityTypes.world)
    (o e : EntityType.t) (opts : string) :
  let lc := if EntityTypes.id_truthy language_code
            then language_code else None in
  EntityTypes.obj w = Some o ->
  EntityType.truthy o = true ->
  apply_kwargs (EntityType.with_name (id_str entity_type_id) o) kwargs = Ok e ->
  EntityTypes._set_region ext entity_type_id = Ok opts ->
  EntityTypes.update_entity_type ext self entity_type_id language_code kwargs w
  = (EntityTypes.remote_update_entity_type ext e (map fst kwargs) lc,
     EntityTypes.mkWorld (Some e)
       (EntityTypes.trace w
        ++ [EntityTypes.NewClient opts;
            EntityTypes.Rpc
              (EntityTypes.UpdateEntityTypeRequest e (map fst kwargs) lc)])).
Proof.
  cbv zeta. destruct w as [ob tr]. cbn [EntityTypes.obj EntityTypes.trace].
  intros -> Hto Hk Hr.
  unfold EntityTypes.update_entity_type.
  unfold bind at 1, get.
  unfold EntityTypes.obj_truthy. cbn [EntityTypes.obj]. rewrite Hto.
  unfold bind at 1. unfold bind at 1.
  rewrite setattr_var_alias, setattr_name. unfold ret at 1.
  cbn [fst snd].
  unfold bind at 1.
  destruct (set_attrs_alias kwargs
              (EntityType.with_name (id_str entity_type_id) o) tr)
    as (o2 & Hrun & Hok).
  rewrite Hrun, Hk. specialize (Hok e Hk). subst o2.
  unfold bind at 1. rewrite new_client_run, Hr.
  unfold EntityTypes.deref, EntityTypes.emit; unfold bind, get, ret, lift.
  cbn [EntityTypes.obj EntityTypes.trace snd fst].
  rewrite <- app_assoc. reflexivity.
Qed.

(** C9, as amended.  The events a call of [update_entity_type] adds to the
    trace contain an update request only with the field mask equal to the
    caller's keyword-argument names, in order; and when the [obj] argument
    is a pre-built object with at least one field set, the entity type of
    that request is this object after [name] was assigned the target id and
    the keyword arguments were then applied to it, so that its name is the
    target id unless [name] is itself one of the keyword arguments.  In
    that case the request is indeed sent, as soon as the keyword arguments
    are fields of an EntityType and the region of the id resolves, and the
    outcome of the call is the outcome of the remote update. *)
Theorem update_entity_type_request
    (ext : EntityTypes.Externals) (self : EntityTypes.self_t)
    (entity_type_id language_code : option string)
    (kwargs : list (string * EntityType.attr)) (w : EntityTypes.world) :
  (exists evs,
     EntityTypes.trace
       (snd (EntityTypes.update_entity_type ext self entity_type_id
               language_code kwargs w))
     = EntityTypes.trace w ++ evs
     /\ forall e mask lc,
          In (EntityTypes.Rpc (EntityTypes.UpdateEntityTypeRequest e mask lc))
             evs ->
          mask = map fst kwargs
          /\ forall o,
               EntityTypes.obj w = Some o ->
               EntityType.truthy o = true ->
               apply_kwargs (EntityType.with_name (id_str entity_type_id) o)
                 kwargs = Ok e
               /\ (~ In "name" (map fst kwargs) ->
                   EntityType.name e = id_str entity_type_id))
  /\ (forall o e opts,
        EntityTypes.obj w = Some o ->
        EntityType.truthy o = true ->
        apply_kwargs (EntityType.with_name (id_str entity_type_id) o) kwargs
        = Ok e ->
        EntityTypes._set_region ext entity_type_id = Ok opts ->
        let lc := if EntityTypes.id_truthy language_code
                  then language_code else None in
        EntityTypes.update_entity_type ext self entity_type_id language_code
          kwargs w
        = (EntityTypes.remote_update_entity_type ext e (map fst kwargs) lc,
           EntityTypes.mkWorld (Some e)
             (EntityTypes.trace w
              ++ [EntityTypes.NewClient opts;
                  EntityTypes.Rpc
                    (EntityTypes.UpdateEntityTypeRequest e (map fst kwargs)
                       lc)]))).
Proof.
  split.
  2:{ intros o e opts Ho Hto Hk Hr.
      exact (update_entity_type_with_obj_run ext self entity_type_id
               language_code kwargs w Ho Hto Hk Hr). }
  destruct w as [ob tr].
  unfold EntityTypes.update_entity_type.
  unfold bind at 1, get.
  destruct (EntityTypes.obj_truthy (EntityTypes.mkWorld ob tr)) eqn:Ht.
  - destruct (obj_truthy_some _ Ht) as (o & Ho & Hto).
    cbn [EntityTypes.obj] in Ho. subst ob.
    unfold bind at 1. unfold bind at 1.
    rewrite setattr_var_alias, setattr_name. unfold ret at 1.
    cbn [fst snd].
    unfold bind at 1.
    destruct (set_attrs_alias kwargs
                (EntityType.with_name (id_str entity_type_id) o) tr)
      as (o2 & Hrun & Hok).
    rewrite Hrun.
    destruct (apply_kwargs (EntityType.with_name (id_str entity_type_id) o)
                kwargs) as [e'|x] eqn:Ek.
    2:{ exists []. cbn. rewrite app_nil_r. split; [reflexivity|].
        intros ? ? ? []. }
    specialize (Hok e' eq_refl). subst o2.
    unfold bind at 1. rewrite new_client_run.
    destruct (EntityTypes._set_region ext entity_type_id) as [opts|x].
    2:{ exists []. cbn. rewrite app_nil_r. split; [reflexivity|].
        intros ? ? ? []. }
    unfold EntityTypes.deref, EntityTypes.emit; unfold bind, get, ret, lift.
    cbn [EntityTypes.obj EntityTypes.trace snd fst].
    eexists [_; _]. split.
    { rewrite <- app_assoc. reflexivity. }
    intros e mask lc [Hin | [Hin | []]]; [discriminate|].
    inversion Hin; subst. split; [reflexivity|].
    intros o0 Ho0 _. inversion Ho0; subst o0.
    split; [exact Ek|].
    intros Hn. rewrite (apply_kwargs_keeps_name _ _ Ek Hn). reflexivity.
  - unfold bind at 1. unfold bind at 1.
    rewrite get_entity_type_run. cbn zeta.
    set (id' := if negb (EntityTypes.id_truthy entity_type_id)
                then EntityTypes.entity_id self else entity_type_id).
    assert (Hid : (if negb (EntityTypes.id_truthy id')
                   then EntityTypes.entity_id self else id') = id').
    { subst id'. destruct (EntityTypes.id_truthy entity_type_id) eqn:E1;
        cbn [negb]; [rewrite E1; reflexivity|].
      destruct (EntityTypes.id_truthy (EntityTypes.entity_id self));
        reflexivity. }
    rewrite Hid.
    destruct (EntityTypes._set_region ext id') as [opts|x] eqn:Er.
    2:{ exists []. cbn. rewrite app_nil_r. split; [reflexivity|].
        intros ? ? ? []. }
    destruct (EntityTypes.remote_get_entity_type ext id') as [fetched|x].
    2:{ eexists [_; _]. cbn [snd EntityTypes.trace]. split.
        { rewrite <- app_assoc. reflexivity. }
        intros e mask lc [Hin | [Hin | []]]; discriminate. }
    unfold ret at 1. cbn [fst snd].
    unfold bind at 1. rewrite set_attrs_own.
    destruct (apply_kwargs fetched kwargs) as [e'|x].
    2:{ eexists [_; _]. cbn [snd EntityTypes.trace]. split.
        { rewrite <- app_assoc. reflexivity. }
        intros e mask lc [Hin | [Hin | []]]; discriminate. }
    unfold bind at 1. rewrite new_client_run. rewrite Er.
    unfold EntityTypes.deref, EntityTypes.emit; unfold bind, get, ret, lift.
    cbn [EntityTypes.obj EntityTypes.trace snd fst].
    eexists [_; _; _; _]. split.
    { rewrite <- !app_assoc. reflexivity. }
    intros e mask lc [Hin | [Hin | [Hin | [Hin | []]]]]; try discriminate.
    inversion Hin; subst. split; [reflexivity|].
    intros o0 Ho0 Hto. exfalso.
    unfold EntityTypes.obj_truthy in Ht. cbn in Ht, Ho0. subst ob.
    congruence.
Qed.

(** C9, counterexample.  First call: a pre-built object is supplied
    together with the keyword argument [name="other"]; the request that is
    sent carries the name "other", not the target id.  Second call: the
    supplied object is an [EntityType()] with no field set; it is falsy, the
    entity type is fetched from the service instead, and the supplied
    object's name is still empty after the request was sent. *)
Lemma update_entity_type_name_not_forced :
  let id := Some "projects/p/locations/global/agents/a/entityTypes/e9" in
  EntityTypes.trace
    (snd (EntityTypes.update_entity_type Fixtures.reachable Fixtures.wrapper
            id None [("name", EntityType.AStr "other")]
            (EntityTypes.mkWorld (Some Fixtures.color) [])))
  = [EntityTypes.NewClient "global";
     EntityTypes.Rpc
       (EntityTypes.UpdateEntityTypeRequest
          (EntityType.with_name "other" Fixtures.color) ["name"] None)]
  /\ snd (EntityTypes.update_entity_type Fixtures.reachable Fixtures.wrapper
            id None [] (EntityTypes.mkWorld (Some EntityType.default) []))
     = EntityTypes.mkWorld (Some EntityType.default)
         [EntityTypes.NewClient "global";
          EntityTypes.Rpc (EntityTypes.GetEntityTypeRequest id);
          EntityTypes.NewClient "global";
          EntityTypes.Rpc
            (EntityTypes.UpdateEntityTypeRequest
               (EntityType.mk
                  "projects/p/locations/global/agents/a/entityTypes/e9"
                  "fetched" 0 0 [] [] false false) [] None)].
Proof. split; reflexivity. Qed.

Lemma update_entity_type_request_witness :
  let id := "projects/p/locations/global/agents/a/entityTypes/e9" in
  let sent :=
    EntityType.with_redact true (EntityType.with_name id Fixtures.color) in
  EntityTypes.update_entity_type Fixtures.reachable Fixtures.wrapper
    (Some id) (Some "en") [("redact", EntityType.ABool true)]
    (EntityTypes.mkWorld (Some Fixtures.color) [])
  = (Ok sent,
     EntityTypes.mkWorld (Some sent)
       [EntityTypes.NewClient "global";
        EntityTypes.Rpc
          (EntityTypes.UpdateEntityTypeRequest sent ["redact"] (Some "en"))]).
Proof.
  cbv zeta.
  exact (proj2 (update_entity_type_request Fixtures.reachable Fixtures.wrapper
                  (Some "projects/p/locations/global/agents/a/entityTypes/e9")
                  (Some "en") [("redact", EntityType.ABool true)]
                  (EntityTypes.mkWorld (Some Fixtures.color) []))
               Fixtures.color _ "global" eq_refl eq_refl eq_refl eq_refl).
Defined.

(** ** Failing calls *)

Section Shapes.
Context {S : Type}.

Lemma readonly_ret {A} (a : A) : readonly (@ret S A a).
Proof. intros s. reflexivity. Qed.

Lemma readonly_raise {A} (e : exn) : readonly (@raise S A e).
Proof. intros s. reflexivity. Qed.

Lemma readonly_get : readonly (@get S).
Proof. intros s. reflexivity. Qed.

Lemma readonly_lift {A} (r : result A) : readonly (@lift S A r).
Proof. intros s. reflexivity. Qed.

Lemma readonly_when (b : bool) (e : exn) : readonly (@when S b (raise e)).
Proof. intros s. destruct b; reflexivity. Qed.

Lemma readonly_bind {A B} (m : Eff S A) (k : A -> Eff S B) :
  readonly m -> (forall a, readonly (k a)) -> readonly (bind m k).
Proof.
  intros Hm Hk s. unfold bind. specialize (Hm s).
  destruct (m s) as [[a|e] s1]; cbn in Hm; subst s1.
  - apply Hk.
  - reflexivity.
Qed.

Lemma readonly_failsafe {A} (m : Eff S A) : readonly m -> failsafe m.
Proof. intros Hm s e s' H. specialize (Hm s). rewrite H in Hm. exact Hm. Qed.

Lemma failsafe_put (s0 : S) : failsafe (put s0).
Proof. intros s e s' H. discriminate. Qed.

Lemma failsafe_readonly_bind {A B} (m : Eff S A) (k : A -> Eff S B) :
  readonly m -> (forall a, failsafe (k a)) -> failsafe (bind m k).
Proof.
  intros Hm Hk s e s' H. unfold bind in H. specialize (Hm s).
  destruct (m s) as [[a|e1] s1]; cbn in Hm; subst s1.
  - exact (Hk a s e s' H).
  - congruence.
Qed.

Lemma failsafe_total_bind {A B} (m : Eff S A) (k : A -> Eff S B) :
  failsafe m -> (forall a, total (k a)) -> failsafe (bind m k).
Proof.
  intros Hm Hk s e s' H. unfold bind in H.
  destruct (m s) as [[a|e1] s1] eqn:E.
  - destruct (Hk a s1) as (b & s2 & Hb). rewrite Hb in H. discriminate.
  - inversion H; subst. exact (Hm s e s' E).
Qed.

Lemma total_ret {A} (a : A) : total (@ret S A a).
Proof. intros s. exists a, s. reflexivity. Qed.

Lemma total_get : total (@get S).
Proof. intros s. exists s, s. reflexivity. Qed.

Lemma total_bind {A B} (m : Eff S A) (k : A -> Eff S B) :
  total m -> (forall a, total (k a)) -> total (bind m k).
Proof.
  intros Hm Hk s. destruct (Hm s) as (a & s1 & Ha).
  destruct (Hk a s1) as (b & s2 & Hb).
  exists b, s2. unfold bind. rewrite Ha. exact Hb.
Qed.

End Shapes.

Lemma readonly_check {P} :
  readonly (@BuildersCommon._check_proto_obj_attr_exist P).
Proof. intros [p|]; reflexivity. Qed.

Lemma readonly_read {P} : readonly (@BuildersCommon.read_proto_obj P).
Proof. intros [p|]; reflexivity. Qed.

Lemma readonly_is_type {S} (v : pyval) (ty : pytype) :
  readonly (@BuildersCommon._is_type_or_list_of_types S v ty).
Proof. apply readonly_when. Qed.

Lemma total_add_attrs {P} :
  total (@BuildersCommon._add_proto_attrs_to_builder_obj P).
Proof. apply total_ret. Qed.

Lemma failsafe_update {P} (f : P -> P) :
  failsafe (BuildersCommon.update_proto_obj f).
Proof.
  intros [p|] e s' H; cbv in H; [discriminate | congruence].
Qed.

Ltac solve_readonly :=
  repeat first
    [ apply readonly_bind; [|intros]
    | apply readonly_ret | apply readonly_raise | apply readonly_get
    | apply readonly_lift | apply readonly_when | apply readonly_check
    | apply readonly_read | apply readonly_is_type
    | match goal with
      | |- readonly (if ?c then _ else _) => destruct c
      | |- readonly (match ?x with _ => _ end) => destruct x
      end ].

Ltac solve_total :=
  repeat first
    [ apply total_bind; [|intros]
    | apply total_ret | apply total_get | apply total_add_attrs ].

Ltac solve_failsafe :=
  cbv zeta;
  first
    [ apply failsafe_readonly_bind; [solve [solve_readonly] | intros; solve_failsafe]
    | apply failsafe_total_bind; [solve_failsafe | intros; solve [solve_total]]
    | apply failsafe_update
    | apply failsafe_put
    | solve [apply readonly_failsafe; solve_readonly]
    | match goal with
      | |- failsafe (if ?c then _ else _) => destruct c; solve_failsafe
      end ].

Lemma page_call_failsafe (leaf : LeafBuilders) (c : PageBuilder.call) :
  failsafe (PageBuilder.run leaf c).
Proof.
  destruct c; cbn [PageBuilder.run];
    unfold PageBuilder.create_new_page, PageBuilder._create_new_proto_obj,
      PageBuilder.set_entry_fulfillment, PageBuilder.add_parameter,
      PageBuilder.add_transition_route, PageBuilder.add_event_handler,
      PageBuilder.add_transition_route_group, PageBuilder.remove_parameter,
      PageBuilder.remove_transition_route, PageBuilder.remove_event_handler,
      PageBuilder.remove_transition_route_group;
    solve_failsafe.
Qed.

Lemma group_call_failsafe (leaf : LeafBuilders)
    (c : TransitionRouteGroupBuilder.call) :
  failsafe (TransitionRouteGroupBuilder.run leaf c).
Proof.
  destruct c; cbn [TransitionRouteGroupBuilder.run];
    unfold TransitionRouteGroupBuilder.create_new_transition_route_group,
      TransitionRouteGroupBuilder._create_new_proto_obj,
      TransitionRouteGroupBuilder.add_transition_route,
      TransitionRouteGroupBuilder.remove_transition_route;
    solve_failsafe.
Qed.

Lemma keeps_obj_ret {A} (a : A) : keeps_obj (ret a).
Proof. intros w. reflexivity. Qed.

Lemma keeps_obj_lift {A} (r : result A) : keeps_obj (lift r).
Proof. intros w. reflexivity. Qed.

Lemma keeps_obj_emit (e : EntityTypes.event) : keeps_obj (EntityTypes.emit e).
Proof. intros w. reflexivity. Qed.

Lemma keeps_obj_bind {A B} (m : Eff EntityTypes.world A)
    (k : A -> Eff EntityTypes.world B) :
  keeps_obj m -> (forall a, keeps_obj (k a)) -> keeps_obj (bind m k).
Proof.
  intros Hm Hk w. unfold bind. specialize (Hm w).
  destruct (m w) as [[a|e] w1]; cbn [snd] in *.
  - rewrite Hk. exact Hm.
  - exact Hm.
Qed.

Lemma keeps_obj_new_client ext id : keeps_obj (EntityTypes.new_client ext id).
Proof.
  intros w. rewrite new_client_run.
  destruct (EntityTypes._set_region ext id); reflexivity.
Qed.

Lemma keeps_obj_deref v : keeps_obj (EntityTypes.deref v).
Proof.
  intros w. destruct v; [|reflexivity].
  destruct w as [[o|] tr]; reflexivity.
Qed.

Lemma keeps_obj_set_attrs_own e kwargs :
  keeps_obj (EntityTypes.set_attrs (EntityTypes.Own e) kwargs).
Proof. intros w. rewrite set_attrs_own. reflexivity. Qed.

Lemma keeps_obj_list ext self id : keeps_obj (EntityTypes.list_entity_types ext self id).
Proof.
  unfold EntityTypes.list_entity_types. cbv zeta.
  repeat first [ apply keeps_obj_bind; [|intros]
               | apply keeps_obj_new_client | apply keeps_obj_emit
               | apply keeps_obj_lift | apply keeps_obj_ret ].
Qed.

Lemma keeps_obj_get ext self id : keeps_obj (EntityTypes.get_entity_type ext self id).
Proof.
  unfold EntityTypes.get_entity_type. cbv zeta.
  repeat first [ apply keeps_obj_bind; [|intros]
               | apply keeps_obj_new_client | apply keeps_obj_emit
               | apply keeps_obj_lift ].
Qed.

Lemma keeps_obj_delete ext self id :
  keeps_obj (EntityTypes.delete_entity_type ext self id).
Proof.
  intros w. destruct (EntityTypes.obj_truthy w) eqn:Ht.
  - rewrite (delete_entity_type_truthy_obj ext self id w Ht). reflexivity.
  - unfold EntityTypes.delete_entity_type, bind at 1, get. rewrite Ht.
    cbv zeta.
    match goal with
    | |- EntityTypes.obj (snd (?m w)) = _ => assert (H : keeps_obj m)
    end.
    { repeat first [ apply keeps_obj_bind; [|intros]
                   | apply keeps_obj_new_client | apply keeps_obj_emit
                   | apply keeps_obj_lift ]. }
    apply H.
Qed.

Lemma keeps_obj_send ext id (v : EntityTypes.var)
    (k : EntityType.t -> EntityTypes.request)
    (remote : EntityType.t -> result EntityType.t) :
  keeps_obj (EntityTypes.new_client ext id ;;;
             e <- EntityTypes.deref v ;;
             EntityTypes.emit (EntityTypes.Rpc (k e)) ;;;
             lift (remote e)).
Proof.
  repeat first [ apply keeps_obj_bind; [|intros]
               | apply keeps_obj_new_client | apply keeps_obj_emit
               | apply keeps_obj_lift | apply keeps_obj_deref ].
Qed.

Lemma create_entity_type_without_obj ext self id lc kwargs w :
  EntityTypes.obj_truthy w = false ->
  EntityTypes.obj (snd (EntityTypes.create_entity_type ext self id lc kwargs w))
  = EntityTypes.obj w.
Proof.
  intros Ht. unfold EntityTypes.create_entity_type. cbv zeta.
  unfold bind at 1, get. rewrite Ht.
  unfold bind at 1, ret at 1.
  unfold bind at 1. rewrite set_attrs_own.
  destruct (apply_kwargs EntityType.default kwargs) as [e|x]; [|reflexivity].
  apply (keeps_obj_send ext _ (EntityTypes.Own e)
           (fun e => EntityTypes.CreateEntityTypeRequest _ e _)
           (fun e => EntityTypes.remote_create_entity_type ext _ e _)).
Qed.

Lemma update_entity_type_without_obj ext self id lc kwargs w :
  EntityTypes.obj_truthy w = false ->
  EntityTypes.obj (snd (EntityTypes.update_entity_type ext self id lc kwargs w))
  = EntityTypes.obj w.
Proof.
  intros Ht. unfold EntityTypes.update_entity_type.
  unfold bind at 1, get. rewrite Ht.
  unfold bind at 1. unfold bind at 1.
  pose proof (keeps_obj_get ext self
                (if negb (EntityTypes.id_truthy id)
                 then EntityTypes.entity_id self else id) w) as Hg.
  destruct (EntityTypes.get_entity_type ext self _ w) as [[fetched|x] w1];
    cbn [snd] in Hg; [|exact Hg].
  unfold ret at 1. cbn [fst snd]. rewrite <- Hg.
  unfold bind at 1. rewrite set_attrs_own.
  destruct (apply_kwargs fetched kwargs) as [e|x]; [|reflexivity].
  apply (keeps_obj_send ext _ (EntityTypes.Own e)
           (fun e => EntityTypes.UpdateEntityTypeRequest e _ _)
           (fun e => EntityTypes.remote_update_entity_type ext e _ _)).
Qed.

(** C2, as amended.  Every call of a PageBuilder or
    TransitionRouteGroupBuilder operation that raises leaves [proto_obj]
    exactly as it was: validation precedes mutation.  Of the remote
    wrappers, [list_entity_types], [get_entity_type] and
    [delete_entity_type] never modify the caller's object, whatever the
    outcome, and [create_entity_type] and [update_entity_type] leave it
    alone when no object, or an object with no field set, was supplied. *)
Theorem failing_calls_leave_state
    (leaf : LeafBuilders) (ext : EntityTypes.Externals)
    (self : EntityTypes.self_t) :
  (forall c s e s', PageBuilder.run leaf c s = (Raise e, s') -> s' = s)
  /\ (forall c s e s',
        TransitionRouteGroupBuilder.run leaf c s = (Raise e, s') -> s' = s)
  /\ (forall id w,
        EntityTypes.obj (snd (EntityTypes.list_entity_types ext self id w))
        = EntityTypes.obj w)
  /\ (forall id w,
        EntityTypes.obj (snd (EntityTypes.get_entity_type ext self id w))
        = EntityTypes.obj w)
  /\ (forall id w,
        EntityTypes.obj (snd (EntityTypes.delete_entity_type ext self id w))
        = EntityTypes.obj w)
  /\ (forall id lc kwargs w,
        EntityTypes.obj_truthy w = false ->
        EntityTypes.obj
          (snd (EntityTypes.create_entity_type ext self id lc kwargs w))
        = EntityTypes.obj w
        /\ EntityTypes.obj
             (snd (EntityTypes.update_entity_type ext self id lc kwargs w))
           = EntityTypes.obj w).
Proof.
  repeat split.
  - intros c. apply page_call_failsafe.
  - intros c. apply group_call_failsafe.
  - intros id. apply keeps_obj_list.
  - intros id. apply keeps_obj_get.
  - intros id. apply keeps_obj_delete.
  - apply create_entity_type_without_obj; assumption.
  - apply update_entity_type_without_obj; assumption.
Qed.

(** C2, counterexample.  A pre-built object named ".../entityTypes/e1" is
    handed to [create_entity_type] while the service is failing: the call
    raises the remote error, and the caller's object has lost its name. *)
Lemma create_entity_type_failure_mutates_obj :
  let w := EntityTypes.mkWorld (Some Fixtures.color) [] in
  let out := EntityTypes.create_entity_type Fixtures.unreachable
               Fixtures.wrapper None None [] w in
  fst out = Raise (RemoteError "unavailable")
  /\ EntityTypes.obj (snd out) = Some (EntityType.with_name "" Fixtures.color)
  /\ EntityTypes.obj (snd out) <> EntityTypes.obj w.
Proof. repeat split. cbn. discriminate. Qed.

(** ** The create operations *)

Lemma str_truthy_nonempty (s : string) : s <> "" -> str_truthy s = true.
Proof. destruct s; [congruence | reflexivity]. Qed.

Lemma fulfillment_falsy (f : Fulfillment.t) :
  Fulfillment.truthy f = false -> f = Fulfillment.default.
Proof.
  destruct f as [ms wh tg rp ps]. unfold Fulfillment.truthy. cbn.
  destruct ms, wh, tg, rp, ps; cbn; intros H; try discriminate. reflexivity.
Qed.

Lemma all_transition_routes_map (rs : list TransitionRoute.t) :
  all_transition_routes (map PyTransitionRoute rs) = Ok rs.
Proof.
  induction rs as [|r rs IH]; [reflexivity|].
  cbn [map all_transition_routes]. rewrite IH. reflexivity.
Qed.

Lemma all_routes_map (rs : list TransitionRoute.t) :
  forallb (fun tr => isinstance tr TTransitionRoute) (map PyTransitionRoute rs)
  = true.
Proof. induction rs as [|r rs IH]; [reflexivity | exact IH]. Qed.

Lemma create_new_page_refused (p : Page.t) (display_name entry_fulfillment : pyval) :
  Page.truthy p = true ->
  exists e,
    PageBuilder.create_new_page display_name entry_fulfillment false (Some p)
    = (Raise e, Some p).
Proof.
  intros Hp.
  unfold PageBuilder.create_new_page, PageBuilder._create_new_proto_obj.
  unfold bind at 1, when at 1.
  destruct (negb (PageBuilder.nonempty_str display_name)).
  { exists ValueError. reflexivity. }
  unfold ret at 1. unfold bind at 1, when at 1.
  destruct (truthy entry_fulfillment
            && negb (isinstance entry_fulfillment TFulfillment)).
  { exists ValueError. reflexivity. }
  unfold ret at 1. unfold bind at 1, get at 1. unfold bind at 1, when at 1.
  cbn [PageBuilder.proto_obj_truthy]. rewrite Hp. cbn [andb negb].
  exists UserWarning. reflexivity.
Qed.

Lemma create_new_page_user_warning (p : Page.t) (name : string)
    (seed : option Fulfillment.t) :
  Page.truthy p = true -> name <> "" ->
  PageBuilder.create_new_page (PyStr name) (fulfillment_arg seed) false (Some p)
  = (Raise UserWarning, Some p).
Proof.
  intros Hp Hn.
  unfold PageBuilder.create_new_page, PageBuilder._create_new_proto_obj.
  unfold PageBuilder.nonempty_str. cbn [truthy isinstance].
  rewrite (str_truthy_nonempty Hn).
  assert (Hs : truthy (fulfillment_arg seed)
               && negb (isinstance (fulfillment_arg seed) TFulfillment) = false).
  { destruct seed; cbn; [apply andb_false_r | reflexivity]. }
  rewrite Hs. cbn [andb negb when].
  unfold bind, ret, get, when. cbn [PageBuilder.proto_obj_truthy].
  rewrite Hp. reflexivity.
Qed.

Lemma create_new_page_overwrite (self : PageBuilder.builder) (name : string)
    (seed : option Fulfillment.t) :
  name <> "" ->
  PageBuilder.create_new_page (PyStr name) (fulfillment_arg seed) true self
  = (Ok (Some (fresh_page name seed)), Some (fresh_page name seed)).
Proof.
  intros Hn.
  unfold PageBuilder.create_new_page, PageBuilder._create_new_proto_obj.
  unfold PageBuilder.nonempty_str. cbn [truthy isinstance].
  rewrite (str_truthy_nonempty Hn).
  assert (Hs : truthy (fulfillment_arg seed)
               && negb (isinstance (fulfillment_arg seed) TFulfillment) = false).
  { destruct seed; cbn; [apply andb_false_r | reflexivity]. }
  rewrite Hs. cbn [andb negb when orb].
  unfold bind, ret, get, when, put, lift,
    BuildersCommon._add_proto_attrs_to_builder_obj.
  rewrite andb_false_r.
  destruct seed as [f|]; cbn [fulfillment_arg truthy negb].
  - destruct (Fulfillment.truthy f) eqn:Hf; cbn [negb].
    + reflexivity.
    + rewrite (fulfillment_falsy f Hf). reflexivity.
  - reflexivity.
Qed.

Lemma create_group_refused (g : TransitionRouteGroup.t)
    (display_name transition_routes : pyval) :
  TransitionRouteGroup.truthy g = true ->
  exists e,
    TransitionRouteGroupBuilder.create_new_transition_route_group
      display_name transition_routes false (Some g)
    = (Raise e, Some g).
Proof.
  intros Hg.
  unfold TransitionRouteGroupBuilder.create_new_transition_route_group,
    TransitionRouteGroupBuilder._create_new_proto_obj.
  unfold bind at 1, when at 1.
  destruct (negb (TransitionRouteGroupBuilder.nonempty_str display_name)).
  { exists ValueError. reflexivity. }
  unfold ret at 1. unfold bind at 1, when at 1.
  match goal with |- context [if ?c then raise ValueError else _] => destruct c end.
  { exists ValueError. reflexivity. }
  unfold ret at 1. unfold bind at 1, get at 1. unfold bind at 1, when at 1.
  cbn [TransitionRouteGroupBuilder.proto_obj_truthy]. rewrite Hg.
  cbn [andb negb]. exists UserWarning. reflexivity.
Qed.

Lemma create_group_run (self : TransitionRouteGroupBuilder.builder)
    (name : string) (seed : pyval) (rs : list TransitionRoute.t)
    (overwrite : bool) :
  name <> "" ->
  (seed = PyNone /\ rs = []
   \/ seed = routes_arg rs
   \/ exists r, seed = PyTransitionRoute r /\ rs = [r]
                /\ TransitionRoute.truthy r = true) ->
  TransitionRouteGroupBuilder.create_new_transition_route_group
    (PyStr name) seed overwrite self
  = if TransitionRouteGroupBuilder.proto_obj_truthy self && negb overwrite
    then (Raise UserWarning, self)
    else (Ok (Some (fresh_group name rs)), Some (fresh_group name rs)).
Proof.
  intros Hn Hseed.
  unfold TransitionRouteGroupBuilder.create_new_transition_route_group,
    TransitionRouteGroupBuilder._create_new_proto_obj.
  unfold TransitionRouteGroupBuilder.nonempty_str. cbn [truthy isinstance].
  rewrite (str_truthy_nonempty Hn). cbn [andb negb when].
  unfold TransitionRouteGroup_init, fresh_group.
  destruct Hseed as [[-> ->] | [-> | (r & -> & -> & Hr)]].
  - eff_unfold. cbn -[TransitionRouteGroupBuilder.proto_obj_truthy].
    destruct (TransitionRouteGroupBuilder.proto_obj_truthy self) eqn:Hs,
      overwrite;
      cbn -[TransitionRouteGroupBuilder.proto_obj_truthy]; rewrite ?Hs;
      reflexivity.
  - unfold routes_arg, TransitionRouteGroupBuilder.all_routes.
    pose proof (all_transition_routes_map rs) as Hall.
    pose proof (all_routes_map rs) as Hfa.
    destruct rs as [|r rs'].
    + eff_unfold. cbn -[TransitionRouteGroupBuilder.proto_obj_truthy].
      destruct (TransitionRouteGroupBuilder.proto_obj_truthy self) eqn:Hs,
        overwrite;
        cbn -[TransitionRouteGroupBuilder.proto_obj_truthy]; rewrite ?Hs;
        reflexivity.
    + cbn [map] in *. set (tl := map PyTransitionRoute rs') in *.
      cbn [isinstance listify orb andb truthy list_truthy negb].
      rewrite Hfa. cbn [negb]. eff_unfold.
      cbn -[TransitionRouteGroupBuilder.proto_obj_truthy
            all_transition_routes].
      destruct (TransitionRouteGroupBuilder.proto_obj_truthy self) eqn:Hs,
        overwrite;
        cbn -[TransitionRouteGroupBuilder.proto_obj_truthy
              all_transition_routes];
        rewrite ?Hs;
        cbn -[TransitionRouteGroupBuilder.proto_obj_truthy
              all_transition_routes];
        rewrite ?Hall; reflexivity.
  - cbn [truthy isinstance orb negb andb]. rewrite Hr. cbn [andb negb].
    eff_unfold. cbn -[TransitionRouteGroupBuilder.proto_obj_truthy].
    destruct (TransitionRouteGroupBuilder.proto_obj_truthy self) eqn:Hs,
      overwrite;
      cbn -[TransitionRouteGroupBuilder.proto_obj_truthy]; rewrite ?Hs;
      reflexivity.
Qed.

Lemma create_new_page_exact (display_name entry_fulfillment : pyval)
    (overwrite : bool) (self : PageBuilder.builder) :
  PageBuilder.create_new_page display_name entry_fulfillment overwrite self
  = if negb (page_create_args_ok display_name entry_fulfillment)
    then (Raise ValueError, self)
    else if PageBuilder.proto_obj_truthy self && negb overwrite
         then (Raise UserWarning, self)
         else returns (fresh_page (str_of display_name)
                         (seed_fulfillment entry_fulfillment)).
Proof.
  unfold page_create_args_ok, PageBuilder.create_new_page,
    PageBuilder._create_new_proto_obj.
  destruct (PageBuilder.nonempty_str display_name) eqn:Hdn;
    cbn [negb andb]; [|reflexivity].
  unfold PageBuilder.nonempty_str in Hdn. apply andb_prop in Hdn.
  destruct Hdn as [Hdn Hstr].
  destruct display_name as [| | |name| | | | |]; try discriminate Hstr.
  unfold seed_fulfillment.
  destruct (truthy entry_fulfillment) eqn:Ht; cbn [negb orb andb].
  - destruct (isinstance entry_fulfillment TFulfillment) eqn:Hi;
      cbn [negb]; [|reflexivity].
    destruct entry_fulfillment as [| | | |f| | | |]; try discriminate Hi.
    eff_unfold. cbn -[PageBuilder.proto_obj_truthy].
    destruct (PageBuilder.proto_obj_truthy self) eqn:Hs, overwrite;
      cbn -[PageBuilder.proto_obj_truthy]; rewrite ?Hs; reflexivity.
  - eff_unfold. cbn -[PageBuilder.proto_obj_truthy].
    destruct (PageBuilder.proto_obj_truthy self) eqn:Hs, overwrite;
      cbn -[PageBuilder.proto_obj_truthy]; rewrite ?Hs; reflexivity.
Qed.

Lemma routes_of_map (rs : list TransitionRoute.t) :
  flat_map (fun x => match x with PyTransitionRoute r => [r] | _ => [] end)
           (map PyTransitionRoute rs) = rs.
Proof.
  induction rs as [|r rs IH]; [reflexivity|].
  cbn [map flat_map app]. rewrite IH. reflexivity.
Qed.

Lemma forallb_routes_items (l : list pyval) :
  forallb (fun tr => isinstance tr TTransitionRoute) l = true ->
  exists rs, l = map PyTransitionRoute rs.
Proof.
  induction l as [|v l IH]; intros H.
  - exists []. reflexivity.
  - cbn [forallb] in H. apply andb_prop in H. destruct H as [Hv Hl].
    destruct (IH Hl) as (rs & ->).
    destruct v; try discriminate Hv.
    exists (r :: rs). reflexivity.
Qed.

Lemma create_group_exact (display_name transition_routes : pyval)
    (overwrite : bool) (self : TransitionRouteGroupBuilder.builder) :
  TransitionRouteGroupBuilder.create_new_transition_route_group
    display_name transition_routes overwrite self
  = if negb (group_create_args_ok display_name transition_routes)
    then (Raise ValueError, self)
    else if TransitionRouteGroupBuilder.proto_obj_truthy self && negb overwrite
         then (Raise UserWarning, self)
         else returns (fresh_group (str_of display_name)
                         (seed_routes transition_routes)).
Proof.
  unfold group_create_args_ok,
    TransitionRouteGroupBuilder.create_new_transition_route_group,
    TransitionRouteGroupBuilder._create_new_proto_obj.
  destruct (TransitionRouteGroupBuilder.nonempty_str display_name) eqn:Hdn;
    cbn [negb andb]; [|reflexivity].
  unfold TransitionRouteGroupBuilder.nonempty_str in Hdn.
  apply andb_prop in Hdn. destruct Hdn as [Hdn Hstr].
  destruct display_name as [| | |name| | | | |]; try discriminate Hstr.
  unfold seed_routes.
  destruct (truthy transition_routes) eqn:Ht; cbn [negb orb andb].
  - destruct (isinstance transition_routes TTransitionRoute
              || isinstance transition_routes TList
                 && TransitionRouteGroupBuilder.all_routes transition_routes)
      eqn:Hty; cbn [negb]; [|reflexivity].
    apply orb_prop in Hty. destruct Hty as [Hsingle | Hlist].
    + destruct transition_routes as [| | | | |r| | |]; try discriminate Hsingle.
      eff_unfold. cbn -[TransitionRouteGroupBuilder.proto_obj_truthy].
      destruct (TransitionRouteGroupBuilder.proto_obj_truthy self) eqn:Hs,
        overwrite;
        cbn -[TransitionRouteGroupBuilder.proto_obj_truthy]; rewrite ?Hs;
        reflexivity.
    + apply andb_prop in Hlist. destruct Hlist as [Hl Hall].
      destruct transition_routes as [| | | | | | |l|]; try discriminate Hl.
      unfold TransitionRouteGroupBuilder.all_routes in Hall.
      cbn [listify] in Hall |- *.
      destruct (forallb_routes_items l Hall) as (rs & ->).
      rewrite routes_of_map.
      pose proof (all_transition_routes_map rs) as Hmap.
      unfold TransitionRouteGroup_init, fresh_group. eff_unfold.
      cbn -[TransitionRouteGroupBuilder.proto_obj_truthy
            all_transition_routes].
      destruct (TransitionRouteGroupBuilder.proto_obj_truthy self) eqn:Hs,
        overwrite;
        cbn -[TransitionRouteGroupBuilder.proto_obj_truthy
              all_transition_routes];
        rewrite ?Hs;
        cbn -[TransitionRouteGroupBuilder.proto_obj_truthy
              all_transition_routes];
        rewrite ?Hmap; reflexivity.
  - eff_unfold. cbn -[TransitionRouteGroupBuilder.proto_obj_truthy].
    destruct (TransitionRouteGroupBuilder.proto_obj_truthy self) eqn:Hs,
      overwrite;
      cbn -[TransitionRouteGroupBuilder.proto_obj_truthy]; rewrite ?Hs;
      reflexivity.
Qed.

(** C1, as amended.  Let a PageBuilder hold a Page and a
    TransitionRouteGroupBuilder hold a TransitionRouteGroup, each with at
    least one field set.  Every call of the create operation with
    [overwrite=False] raises and leaves the held object unchanged; the
    exception is the state-precondition one ([UserWarning]) when the
    arguments pass the type checks (a non-empty string display name; seed
    content that is falsy or of the declared class: [None], a
    Fulfillment, and for a group a TransitionRoute or a list of
    TransitionRoutes), and the argument-shape one ([ValueError]) otherwise.
    With [overwrite=True] and arguments that pass the type checks the call
    succeeds and the held object becomes the freshly constructed one: the
    given display name, the seed content (an entry fulfillment; no route,
    the given list of routes, or the given single route when it has a field
    set), and defaults everywhere else. *)
Theorem create_on_held_object
    (p : Page.t) (g : TransitionRouteGroup.t) (name : string)
    (seed : option Fulfillment.t) (rs : list TransitionRoute.t) :
  Page.truthy p = true ->
  TransitionRouteGroup.truthy g = true ->
  name <> "" ->
  (forall dn ef,
     PageBuilder.create_new_page dn ef false (Some p)
     = (Raise (if page_create_args_ok dn ef then UserWarning else ValueError),
        Some p))
  /\ PageBuilder.create_new_page (PyStr name) (fulfillment_arg seed) false
       (Some p)
     = (Raise UserWarning, Some p)
  /\ PageBuilder.create_new_page (PyStr name) (fulfillment_arg seed) true
       (Some p)
     = (Ok (Some (fresh_page name seed)), Some (fresh_page name seed))
  /\ (forall dn trs,
        TransitionRouteGroupBuilder.create_new_transition_route_group
          dn trs false (Some g)
        = (Raise (if group_create_args_ok dn trs
                  then UserWarning else ValueError),
           Some g))
  /\ TransitionRouteGroupBuilder.create_new_transition_route_group
       (PyStr name) (routes_arg rs) false (Some g)
     = (Raise UserWarning, Some g)
  /\ TransitionRouteGroupBuilder.create_new_transition_route_group
       (PyStr name) (routes_arg rs) true (Some g)
     = (Ok (Some (fresh_group name rs)), Some (fresh_group name rs))
  /\ TransitionRouteGroupBuilder.create_new_transition_route_group
       (PyStr name) PyNone true (Some g)
     = (Ok (Some (fresh_group name [])), Some (fresh_group name []))
  /\ (forall r,
        TransitionRoute.truthy r = true ->
        TransitionRouteGroupBuilder.create_new_transition_route_group
          (PyStr name) (PyTransitionRoute r) true (Some g)
        = (Ok (Some (fresh_group name [r])), Some (fresh_group name [r])))
  /\ TransitionRouteGroupBuilder.create_new_transition_route_group
       (PyStr name) PyNone false (Some g)
     = (Raise UserWarning, Some g)
  /\ (forall r,
        TransitionRouteGroupBuilder.create_new_transition_route_group
          (PyStr name) (PyTransitionRoute r) false (Some g)
        = (Raise UserWarning, Some g))
  /\ (forall dn ef,
        page_create_args_ok dn ef = true ->
        PageBuilder.create_new_page dn ef true (Some p)
        = returns (fresh_page (str_of dn) (seed_fulfillment ef)))
  /\ (forall dn trs,
        group_create_args_ok dn trs = true ->
        TransitionRouteGroupBuilder.create_new_transition_route_group
          dn trs true (Some g)
        = returns (fresh_group (str_of dn) (seed_routes trs))).
Proof.
  intros Hp Hg Hn.
  assert (Hrefuse :
    TransitionRouteGroupBuilder.proto_obj_truthy (Some g) && negb false = true).
  { cbn. rewrite Hg. reflexivity. }
  assert (Hover :
    TransitionRouteGroupBuilder.proto_obj_truthy (Some g) && negb true = false).
  { apply andb_false_r. }
  assert (Hprefuse : PageBuilder.proto_obj_truthy (Some p) && negb false = true).
  { cbn. rewrite Hp. reflexivity. }
  assert (Hgname : TransitionRouteGroupBuilder.nonempty_str (PyStr name) = true).
  { unfold TransitionRouteGroupBuilder.nonempty_str. cbn [truthy isinstance].
    rewrite (str_truthy_nonempty Hn). reflexivity. }
  split.
  { intros dn ef. rewrite create_new_page_exact, Hprefuse.
    destruct (page_create_args_ok dn ef); reflexivity. }
  split; [apply create_new_page_user_warning; assumption|].
  split; [apply create_new_page_overwrite; exact Hn|].
  split.
  { intros dn trs. rewrite create_group_exact, Hrefuse.
    destruct (group_create_args_ok dn trs); reflexivity. }
  split.
  { rewrite (@create_group_run (Some g) name (routes_arg rs) rs false Hn)
      by (right; left; reflexivity).
    rewrite Hrefuse. reflexivity. }
  split.
  { rewrite (@create_group_run (Some g) name (routes_arg rs) rs true Hn)
      by (right; left; reflexivity).
    rewrite Hover. reflexivity. }
  split.
  { rewrite (@create_group_run (Some g) name PyNone [] true Hn)
      by (left; split; reflexivity).
    rewrite Hover. reflexivity. }
  split.
  { intros r Hr.
    rewrite (@create_group_run (Some g) name (PyTransitionRoute r) [r] true Hn)
      by (right; right; exists r; repeat split; assumption).
    rewrite Hover. reflexivity. }
  split.
  { rewrite create_group_exact, Hrefuse. unfold group_create_args_ok.
    rewrite Hgname. reflexivity. }
  split.
  { intros r. rewrite create_group_exact, Hrefuse.
    unfold group_create_args_ok.
    rewrite Hgname. cbn [isinstance orb andb negb].
    rewrite orb_true_r. reflexivity. }
  split.
  { intros dn ef Hok. rewrite create_new_page_exact, Hok.
    cbn [negb]. rewrite andb_false_r. reflexivity. }
  intros dn trs Hok. rewrite create_group_exact, Hok.
  cbn [negb]. rewrite andb_false_r. reflexivity.
Qed.

Lemma create_on_held_object_witness :
  PageBuilder.create_new_page (PyStr "Checkout")
    (fulfillment_arg (Some Fixtures.prompt)) false
    (Some (fresh_page "Start" None))
  = (Raise UserWarning, Some (fresh_page "Start" None))
  /\ PageBuilder.create_new_page (PyStr "Checkout")
       (fulfillment_arg (Some Fixtures.prompt)) true
       (Some (fresh_page "Start" None))
     = (Ok (Some (fresh_page "Checkout" (Some Fixtures.prompt))),
        Some (fresh_page "Checkout" (Some Fixtures.prompt)))
  /\ PageBuilder.create_new_page (PyInt 3) PyNone false
       (Some (fresh_page "Start" None))
     = (Raise ValueError, Some (fresh_page "Start" None))
  /\ TransitionRouteGroupBuilder.create_new_transition_route_group
       (PyStr "Fallbacks") (PyTransitionRoute TransitionRoute.default) true
       (Some (fresh_group "Routes" []))
     = returns (fresh_group "Fallbacks" []).
Proof.
  pose proof (@create_on_held_object
                (fresh_page "Start" None) (fresh_group "Routes" [])
                "Checkout" (Some Fixtures.prompt) []
                eq_refl eq_refl
                ltac:(discriminate)) as H.
  split; [exact (proj1 (proj2 H))|].
  split; [exact (proj1 (proj2 (proj2 H)))|].
  split; [exact (proj1 H (PyInt 3) PyNone)|].
  exact (proj2 (proj2 (proj2 (proj2 (proj2 (proj2 (proj2 (proj2 (proj2
           (proj2 (proj2 H))))))))))
           (PyStr "Fallbacks") (PyTransitionRoute TransitionRoute.default)
           eq_refl).
Defined.

(** C1, counterexample.  First call: the builder holds the page "Start"
    and [create_new_page] is called with [overwrite=False] and an empty
    display name; the exception is the argument-shape one ([ValueError]),
    not the state-precondition one.  Second call: the builder holds a
    [Page()] with no field set, which is falsy; [create_new_page] with
    [overwrite=False] succeeds and replaces it. *)
Lemma create_new_page_without_overwrite :
  PageBuilder.create_new_page (PyStr "") PyNone false
    (Some (fresh_page "Start" None))
  = (Raise ValueError, Some (fresh_page "Start" None))
  /\ PageBuilder.create_new_page (PyStr "Next") PyNone false
       (Some Page.default)
     = (Ok (Some (fresh_page "Next" None)), Some (fresh_page "Next" None)).
Proof. split; reflexivity. Qed.

(** ** The remove operations *)

Lemma str_in_names (s : string) (names : list string) :
  BuildersCommon.str_in s (map PyStr names) = name_in names s.
Proof.
  unfold BuildersCommon.str_in, name_in.
  induction names as [|n names IH]; [reflexivity|].
  cbn [map existsb BuildersCommon.str_equals]. rewrite IH. reflexivity.
Qed.

Lemma handler_in_handlers (e : EventHandler.t) (ehs : list EventHandler.t) :
  BuildersCommon.handler_in e (map PyEventHandler ehs) = handler_among ehs e.
Proof.
  unfold BuildersCommon.handler_in, handler_among.
  induction ehs as [|e' ehs IH]; [reflexivity|].
  cbn [map existsb]. rewrite IH. reflexivity.
Qed.

Lemma names_arg_is_strs (names : list string) :
  BuildersCommon.is_type_or_list_of_types (names_arg names) TStr = true.
Proof.
  unfold BuildersCommon.is_type_or_list_of_types, names_arg.
  cbn [isinstance orb].
  induction names as [|n names IH]; [reflexivity | exact IH].
Qed.

Lemma handlers_arg_is_handlers (ehs : list EventHandler.t) :
  BuildersCommon.is_type_or_list_of_types (handlers_arg ehs) TEventHandler
  = true.
Proof.
  unfold BuildersCommon.is_type_or_list_of_types, handlers_arg.
  cbn [isinstance orb].
  induction ehs as [|e ehs IH]; [reflexivity | exact IH].
Qed.

Lemma filter_ext_bool {A} (f g : A -> bool) (l : list A) :
  (forall a, f a = g a) -> filter f l = filter g l.
Proof.
  intros H. induction l as [|a l IH]; [reflexivity|].
  cbn [filter]. rewrite H, IH. reflexivity.
Qed.

Lemma unmatched_routes_filter (t i c : pyval) :
  some_specified t i c = true ->
  forall routes new_routes,
    PageBuilder.unmatched_routes routes new_routes t i c
    = Ok (new_routes
          ++ filter (fun tr => negb (BuildersCommon.criteria_hold tr t i c))
               routes).
Proof.
  intros Hs. induction routes as [|tr rest IH]; intros new_routes.
  - cbn. rewrite app_nil_r. reflexivity.
  - cbn [PageBuilder.unmatched_routes filter].
    unfold BuildersCommon._match_transition_route.
    unfold some_specified in Hs. rewrite Hs. cbn [negb rbind].
    destruct (BuildersCommon.criteria_hold tr t i c); cbn [negb].
    + apply IH.
    + rewrite IH, <- app_assoc. reflexivity.
Qed.

Lemma unmatched_routes_no_criteria (tr : TransitionRoute.t) rest new_routes :
  PageBuilder.unmatched_routes (tr :: rest) new_routes PyNone PyNone PyNone
  = Raise ValueError.
Proof. reflexivity. Qed.

Lemma page_with_own_routes (p : Page.t) :
  Page.with_transition_routes (Page.transition_routes p) p = p.
Proof. destruct p; reflexivity. Qed.

Lemma group_with_own_routes (g : TransitionRouteGroup.t) :
  TransitionRouteGroup.with_transition_routes
    (TransitionRouteGroup.transition_routes g) g = g.
Proof. destruct g; reflexivity. Qed.

Lemma page_remove_route_run (p : Page.t) (t i c : pyval) :
  PageBuilder.remove_transition_route t i c (Some p) =
    match PageBuilder.unmatched_routes (Page.transition_routes p) [] t i c with
    | Ok new_routes => returns (Page.with_transition_routes new_routes p)
    | Raise e => (Raise e, Some p)
    end.
Proof.
  unfold PageBuilder.remove_transition_route. eff_unfold.
  destruct (PageBuilder.unmatched_routes _ _ _ _ _); reflexivity.
Qed.

Lemma group_remove_route_run (g : TransitionRouteGroup.t) (t i c : pyval) :
  TransitionRouteGroupBuilder.remove_transition_route t i c (Some g) =
    match PageBuilder.unmatched_routes
            (TransitionRouteGroup.transition_routes g) [] t i c with
    | Ok new_routes =>
        returns (TransitionRouteGroup.with_transition_routes new_routes g)
    | Raise e => (Raise e, Some g)
    end.
Proof.
  unfold TransitionRouteGroupBuilder.remove_transition_route. eff_unfold.
  destruct (PageBuilder.unmatched_routes _ _ _ _ _); reflexivity.
Qed.

(** C6, at the failing input.  On a Page, or a TransitionRouteGroup, that
    holds no transition route, [remove_transition_route] called with no
    criterion at all does not fail: the loop that would reach the check of
    the criteria has nothing to iterate over, and the call returns the held
    object. *)
Theorem remove_transition_route_without_criteria_on_empty
    (p : Page.t) (g : TransitionRouteGroup.t) :
  Page.transition_routes p = [] ->
  TransitionRouteGroup.transition_routes g = [] ->
  PageBuilder.remove_transition_route PyNone PyNone PyNone (Some p)
  = returns p
  /\ TransitionRouteGroupBuilder.remove_transition_route PyNone PyNone PyNone
       (Some g)
     = returns g.
Proof.
  intros Hp Hg. rewrite page_remove_route_run, group_remove_route_run.
  rewrite Hp, Hg. cbn [PageBuilder.unmatched_routes].
  rewrite <- Hp at 1. rewrite <- Hg at 1.
  rewrite page_with_own_routes, group_with_own_routes. split; reflexivity.
Qed.

Lemma remove_transition_route_without_criteria_on_empty_witness :
  PageBuilder.remove_transition_route PyNone PyNone PyNone
    (Some (fresh_page "Start" None))
  = returns (fresh_page "Start" None)
  /\ TransitionRouteGroupBuilder.remove_transition_route PyNone PyNone PyNone
       (Some (fresh_group "Routes" []))
     = returns (fresh_group "Routes" []).
Proof.
  apply (@remove_transition_route_without_criteria_on_empty
           (fresh_page "Start" None) (fresh_group "Routes" []));
    reflexivity.
Defined.

(** Where C6 holds: with no criterion at all, [remove_parameter] and
    [remove_event_handler] raise whatever is held, and
    [remove_transition_route] raises as soon as one route is held; nothing
    is removed. *)
Lemma remove_without_criteria_raises (p : Page.t) (g : TransitionRouteGroup.t) :
  PageBuilder.remove_parameter PyNone (Some p) = (Raise ValueError, Some p)
  /\ PageBuilder.remove_event_handler PyNone PyNone (Some p)
     = (Raise UserWarning, Some p)
  /\ (Page.transition_routes p <> [] ->
      PageBuilder.remove_transition_route PyNone PyNone PyNone (Some p)
      = (Raise ValueError, Some p))
  /\ (TransitionRouteGroup.transition_routes g <> [] ->
      TransitionRouteGroupBuilder.remove_transition_route PyNone PyNone PyNone
        (Some g)
      = (Raise ValueError, Some g)).
Proof.
  repeat split.
  - intros H. rewrite page_remove_route_run.
    destruct (Page.transition_routes p); [congruence | reflexivity].
  - intros H. rewrite group_remove_route_run.
    destruct (TransitionRouteGroup.transition_routes g);
      [congruence | reflexivity].
Qed.

Lemma names_arg_truthy (names : list string) :
  names <> [] -> truthy (names_arg names) = true.
Proof. destruct names; [congruence | reflexivity]. Qed.

Lemma handlers_arg_truthy (ehs : list EventHandler.t) :
  ehs <> [] -> truthy (handlers_arg ehs) = true.
Proof. destruct ehs; [congruence | reflexivity]. Qed.

Lemma remove_parameter_names (p : Page.t) (names : list string) :
  names <> [] ->
  PageBuilder.remove_parameter (names_arg names) (Some p)
  = returns (Page.with_parameters
               (filter (fun prm =>
                          negb (name_in names (FormParameter.display_name prm)))
                       (Form.parameters (Page.form p))) p).
Proof.
  intros Hn. unfold PageBuilder.remove_parameter.
  pose proof (names_arg_truthy Hn) as Ht.
  pose proof (names_arg_is_strs names) as Hty.
  eff_unfold. rewrite Ht, Hty. cbn [negb isinstance names_arg listify].
  unfold returns. erewrite filter_ext_bool;
    [reflexivity | intros prm; cbv beta; rewrite str_in_names; reflexivity].
Qed.

Lemma remove_parameter_name (p : Page.t) (name : string) :
  name <> "" ->
  PageBuilder.remove_parameter (PyStr name) (Some p)
  = returns (Page.with_parameters
               (filter (fun prm =>
                          negb (name_in [name] (FormParameter.display_name prm)))
                       (Form.parameters (Page.form p))) p).
Proof.
  intros Hn. unfold PageBuilder.remove_parameter.
  eff_unfold. cbn [truthy]. rewrite (str_truthy_nonempty Hn).
  reflexivity.
Qed.

Lemma remove_group_names (p : Page.t) (names : list string) :
  PageBuilder.remove_transition_route_group (names_arg names) (Some p)
  = returns (Page.with_transition_route_groups
               (filter (fun trg => negb (name_in names trg))
                       (Page.transition_route_groups p)) p).
Proof.
  unfold PageBuilder.remove_transition_route_group.
  pose proof (names_arg_is_strs names) as Hty.
  eff_unfold. rewrite Hty. cbn [negb isinstance names_arg listify].
  unfold returns. erewrite filter_ext_bool;
    [reflexivity | intros trg; cbv beta; rewrite str_in_names; reflexivity].
Qed.

Lemma remove_group_name (p : Page.t) (name : string) :
  PageBuilder.remove_transition_route_group (PyStr name) (Some p)
  = returns (Page.with_transition_route_groups
               (filter (fun trg => negb (name_in [name] trg))
                       (Page.transition_route_groups p)) p).
Proof. reflexivity. Qed.

Lemma remove_handlers_given (p : Page.t) (ehs : list EventHandler.t) :
  ehs <> [] ->
  PageBuilder.remove_event_handler (handlers_arg ehs) PyNone (Some p)
  = returns (Page.with_event_handlers
               (filter (fun eh => negb (handler_among ehs eh))
                       (Page.event_handlers p)) p).
Proof.
  intros Hn. unfold PageBuilder.remove_event_handler,
    BuildersCommon._find_unmatched_event_handlers.
  pose proof (handlers_arg_truthy Hn) as Ht.
  pose proof (handlers_arg_is_handlers ehs) as Hty.
  eff_unfold. rewrite Ht, Hty. cbn [negb andb truthy handlers_arg listify].
  unfold returns. erewrite filter_ext_bool;
    [reflexivity | intros eh; cbv beta; rewrite handler_in_handlers; reflexivity].
Qed.

Lemma remove_handler_given (p : Page.t) (eh : EventHandler.t) :
  EventHandler.truthy eh = true ->
  PageBuilder.remove_event_handler (PyEventHandler eh) PyNone (Some p)
  = returns (Page.with_event_handlers
               (filter (fun e => negb (handler_among [eh] e))
                       (Page.event_handlers p)) p).
Proof.
  intros Ht. unfold PageBuilder.remove_event_handler,
    BuildersCommon._find_unmatched_event_handlers.
  eff_unfold. cbn [truthy]. rewrite Ht. reflexivity.
Qed.

Lemma remove_handlers_named (p : Page.t) (names : list string) :
  names <> [] ->
  PageBuilder.remove_event_handler PyNone (names_arg names) (Some p)
  = returns (Page.with_event_handlers
               (filter (fun eh => negb (name_in names (EventHandler.event eh)))
                       (Page.event_handlers p)) p).
Proof.
  intros Hn. unfold PageBuilder.remove_event_handler,
    BuildersCommon._find_unmatched_event_handlers_by_name.
  pose proof (names_arg_truthy Hn) as Ht.
  pose proof (names_arg_is_strs names) as Hty.
  eff_unfold. cbn [truthy andb] in *. rewrite Ht, Hty.
  cbn [negb names_arg listify].
  unfold returns. erewrite filter_ext_bool;
    [reflexivity | intros eh; cbv beta; rewrite str_in_names; reflexivity].
Qed.

Lemma remove_handler_named (p : Page.t) (name : string) :
  name <> "" ->
  PageBuilder.remove_event_handler PyNone (PyStr name) (Some p)
  = returns (Page.with_event_handlers
               (filter (fun eh => negb (name_in [name] (EventHandler.event eh)))
                       (Page.event_handlers p)) p).
Proof.
  intros Hn. unfold PageBuilder.remove_event_handler,
    BuildersCommon._find_unmatched_event_handlers_by_name.
  eff_unfold. cbn [truthy andb]. rewrite (str_truthy_nonempty Hn).
  reflexivity.
Qed.

(** C7, as amended.  Given criteria of one kind that are not empty (a
    non-empty name or list of names, a non-empty list of handlers or a
    handler with a field set, at least one specified route criterion), a
    remove operation stores and returns the held object with the collection
    replaced by its elements that do not match, in their original order:
    every match is dropped, wherever it stands.
    [remove_parameter] matches on the display name being one of the given
    names, [remove_transition_route_group] on the id being one of the given
    ids, [remove_event_handler] on the handler being equal to one of the
    given handlers or on its event being one of the given names, and
    [remove_transition_route] on every specified criterion (the route
    object, the intent, the condition) being equal. *)
Theorem remove_removes_all_matches
    (p : Page.t) (g : TransitionRouteGroup.t)
    (names : list string) (name : string)
    (ehs : list EventHandler.t) (eh : EventHandler.t) (t i c : pyval) :
  names <> [] -> name <> "" -> ehs <> [] -> EventHandler.truthy eh = true ->
  some_specified t i c = true ->
  PageBuilder.remove_parameter (names_arg names) (Some p)
  = returns (Page.with_parameters
               (filter (fun prm =>
                          negb (name_in names (FormParameter.display_name prm)))
                       (Form.parameters (Page.form p))) p)
  /\ PageBuilder.remove_parameter (PyStr name) (Some p)
     = returns (Page.with_parameters
                  (filter (fun prm =>
                             negb (name_in [name]
                                     (FormParameter.display_name prm)))
                          (Form.parameters (Page.form p))) p)
  /\ PageBuilder.remove_transition_route t i c (Some p)
     = returns (Page.with_transition_routes
                  (filter (fun tr =>
                             negb (BuildersCommon.criteria_hold tr t i c))
                          (Page.transition_routes p)) p)
  /\ PageBuilder.remove_event_handler (handlers_arg ehs) PyNone (Some p)
     = returns (Page.with_event_handlers
                  (filter (fun e => negb (handler_among ehs e))
                          (Page.event_handlers p)) p)
  /\ PageBuilder.remove_event_handler (PyEventHandler eh) PyNone (Some p)
     = returns (Page.with_event_handlers
                  (filter (fun e => negb (handler_among [eh] e))
                          (Page.event_handlers p)) p)
  /\ PageBuilder.remove_event_handler PyNone (names_arg names) (Some p)
     = returns (Page.with_event_handlers
                  (filter (fun e => negb (name_in names (EventHandler.event e)))
                          (Page.event_handlers p)) p)
  /\ PageBuilder.remove_event_handler PyNone (PyStr name) (Some p)
     = returns (Page.with_event_handlers
                  (filter (fun e => negb (name_in [name] (EventHandler.event e)))
                          (Page.event_handlers p)) p)
  /\ PageBuilder.remove_transition_route_group (names_arg names) (Some p)
     = returns (Page.with_transition_route_groups
                  (filter (fun trg => negb (name_in names trg))
                          (Page.transition_route_groups p)) p)
  /\ PageBuilder.remove_transition_route_group (PyStr name) (Some p)
     = returns (Page.with_transition_route_groups
                  (filter (fun trg => negb (name_in [name] trg))
                          (Page.transition_route_groups p)) p)
  /\ TransitionRouteGroupBuilder.remove_transition_route t i c (Some g)
     = returns (TransitionRouteGroup.with_transition_routes
                  (filter (fun tr =>
                             negb (BuildersCommon.criteria_hold tr t i c))
                          (TransitionRouteGroup.transition_routes g)) g).
Proof.
  intros Hnames Hname Hehs Heh Hspec.
  split. { apply remove_parameter_names. exact Hnames. }
  split. { apply remove_parameter_name. exact Hname. }
  split. { rewrite page_remove_route_run, (unmatched_routes_filter _ _ _ Hspec).
           reflexivity. }
  split. { apply remove_handlers_given. exact Hehs. }
  split. { apply remove_handler_given. exact Heh. }
  split. { apply remove_handlers_named. exact Hnames. }
  split. { apply remove_handler_named. exact Hname. }
  split. { apply remove_group_names. }
  split. { apply remove_group_name. }
  rewrite group_remove_route_run, (unmatched_routes_filter _ _ _ Hspec).
  reflexivity.
Qed.

Lemma remove_removes_all_matches_witness :
  PageBuilder.remove_transition_route PyNone (PyStr "intents/buy") PyNone
    (Some Fixtures.shop)
  = returns (Page.with_transition_routes [Fixtures.cancel] Fixtures.shop)
  /\ PageBuilder.remove_parameter (names_arg ["phone"; "address"])
       (Some Fixtures.shop)
     = returns (Page.with_parameters [Fixtures.email] Fixtures.shop)
  /\ PageBuilder.remove_event_handler (PyEventHandler Fixtures.no_match) PyNone
       (Some Fixtures.shop)
     = returns (Page.with_event_handlers [Fixtures.no_input] Fixtures.shop).
Proof.
  pose proof (@remove_removes_all_matches Fixtures.shop Fixtures.shop_routes
                ["phone"; "address"] "phone" [Fixtures.no_match]
                Fixtures.no_match PyNone (PyStr "intents/buy") PyNone
                ltac:(discriminate) ltac:(discriminate) ltac:(discriminate)
                eq_refl eq_refl) as H.
  split; [exact (proj1 (proj2 (proj2 H)))|].
  split; [exact (proj1 H)|].
  exact (proj1 (proj2 (proj2 (proj2 (proj2 H))))).
Defined.

(** C7, counterexample.  First call: [remove_event_handler] is given both
    a handler and an event name, each of which matches the held handler
    "sys.no-match-default"; it raises and the handler stays.  Second call:
    the page holds an [EventHandler()] with no field set, appended by
    [add_event_handler], and [remove_event_handler] is given this very
    handler; the argument is falsy, the call raises and the handler
    stays. *)
Lemma remove_event_handler_keeps_matches :
  let blank := Page.with_event_handlers
                 [Fixtures.no_match; EventHandler.default] Fixtures.shop in
  In Fixtures.no_match (Page.event_handlers Fixtures.shop)
  /\ PageBuilder.remove_event_handler (PyEventHandler Fixtures.no_match)
       (PyStr "sys.no-match-default") (Some Fixtures.shop)
     = (Raise UserWarning, Some Fixtures.shop)
  /\ PageBuilder.add_event_handler SpecLeaf.leaf
       (PyEventHandler EventHandler.default) PyNone PyNone PyNone PyNone
       PyNone PyNone
       (Some (Page.with_event_handlers [Fixtures.no_match] Fixtures.shop))
     = returns blank
  /\ PageBuilder.remove_event_handler (PyEventHandler EventHandler.default)
       PyNone (Some blank)
     = (Raise UserWarning, Some blank).
Proof. cbv zeta. split; [left; reflexivity|]. repeat split. Qed.

(** ** Adding and removing a transition route *)

Lemma filter_app_appended {A} (f : A -> bool) (l new : list A) :
  (forall y, In y l -> f y = true) -> (forall y, In y new -> f y = false) ->
  filter f (l ++ new) = l.
Proof.
  intros Hl Hnew. rewrite filter_app.
  assert (E1 : filter f l = l).
  { clear Hnew. induction l as [|a l IH]; [reflexivity|].
    cbn [filter]. rewrite (Hl a (or_introl eq_refl)).
    f_equal. apply IH. intros y Hy. apply Hl. right. exact Hy. }
  assert (E2 : filter f new = []).
  { clear Hl. induction new as [|a new IH]; [reflexivity|].
    cbn [filter]. rewrite (Hnew a (or_introl eq_refl)).
    apply IH. intros y Hy. apply Hnew. right. exact Hy. }
  rewrite E1, E2. apply app_nil_r.
Qed.

Lemma bind_check_some {P A} (k : unit -> Eff (option P) A) (p : P) :
  bind BuildersCommon._check_proto_obj_attr_exist k (Some p) = k tt (Some p).
Proof. reflexivity. Qed.

Lemma page_add_route_ok (leaf : LeafBuilders)
    (a1 a2 a3 a4 a5 a6 a7 a8 : pyval) (p p' : Page.t) :
  PageBuilder.add_transition_route leaf a1 a2 a3 a4 a5 a6 a7 a8 (Some p)
  = returns p' ->
  exists new,
    p' = Page.with_transition_routes (Page.transition_routes p ++ new) p.
Proof.
  unfold PageBuilder.add_transition_route.
  rewrite bind_check_some. unfold bind at 1.
  match goal with
  | |- (let (r, s') := ?blk (Some p) in _) = _ -> _ =>
      assert (Hro : readonly blk) by solve_readonly;
      specialize (Hro (Some p));
      destruct (blk (Some p)) as [[v|e] s1]
  end; cbn [snd] in Hro; subst s1; [|discriminate].
  unfold bind at 1, lift at 1.
  destruct (proto_repeated all_transition_routes v) as [new|e]; [|discriminate].
  eff_unfold. unfold returns. intros H. inversion H. exists new. reflexivity.
Qed.

Lemma group_add_route_ok (leaf : LeafBuilders)
    (a1 a2 a3 a4 a5 a6 a7 a8 : pyval) (g g' : TransitionRouteGroup.t) :
  TransitionRouteGroupBuilder.add_transition_route leaf a1 a2 a3 a4 a5 a6 a7 a8
    (Some g)
  = returns g' ->
  exists new,
    g' = TransitionRouteGroup.with_transition_routes
           (TransitionRouteGroup.transition_routes g ++ new) g.
Proof.
  unfold TransitionRouteGroupBuilder.add_transition_route.
  rewrite bind_check_some. unfold bind at 1.
  match goal with
  | |- (let (r, s') := ?blk (Some g) in _) = _ -> _ =>
      assert (Hro : readonly blk) by solve_readonly;
      specialize (Hro (Some g));
      destruct (blk (Some g)) as [[v|e] s1]
  end; cbn [snd] in Hro; subst s1; [|discriminate].
  unfold bind at 1, lift at 1.
  destruct (proto_repeated all_transition_routes v) as [new|e]; [|discriminate].
  eff_unfold. unfold returns. intros H. inversion H. exists new. reflexivity.
Qed.

Lemma page_add_then_remove
    (leaf : LeafBuilders) (p p' : Page.t) (new : list TransitionRoute.t)
    (a1 a2 a3 a4 a5 a6 a7 a8 t i c : pyval) :
  some_specified t i c = true ->
  (forall x, In x new -> BuildersCommon.criteria_hold x t i c = true) ->
  (forall x, In x (Page.transition_routes p) ->
             BuildersCommon.criteria_hold x t i c = false) ->
  PageBuilder.add_transition_route leaf a1 a2 a3 a4 a5 a6 a7 a8 (Some p)
  = returns p' ->
  Page.transition_routes p' = Page.transition_routes p ++ new ->
  PageBuilder.remove_transition_route t i c (Some p') = returns p.
Proof.
  intros Hspec Hnew Hp Hadd Hrp.
  destruct (page_add_route_ok _ _ _ _ _ _ _ _ _ _ Hadd) as (new' & ->).
  rewrite page_remove_route_run, (unmatched_routes_filter _ _ _ Hspec).
  cbn [app]. rewrite Hrp.
  rewrite filter_app_appended.
  - destruct p. reflexivity.
  - intros y Hy. rewrite (Hp y Hy). reflexivity.
  - intros y Hy. rewrite (Hnew y Hy). reflexivity.
Qed.

Lemma group_add_then_remove
    (leaf : LeafBuilders) (g g' : TransitionRouteGroup.t)
    (new : list TransitionRoute.t) (a1 a2 a3 a4 a5 a6 a7 a8 t i c : pyval) :
  some_specified t i c = true ->
  (forall x, In x new -> BuildersCommon.criteria_hold x t i c = true) ->
  (forall x, In x (TransitionRouteGroup.transition_routes g) ->
             BuildersCommon.criteria_hold x t i c = false) ->
  TransitionRouteGroupBuilder.add_transition_route leaf a1 a2 a3 a4 a5 a6 a7 a8
    (Some g) = returns g' ->
  TransitionRouteGroup.transition_routes g'
  = TransitionRouteGroup.transition_routes g ++ new ->
  TransitionRouteGroupBuilder.remove_transition_route t i c (Some g')
  = returns g.
Proof.
  intros Hspec Hnew Hg Hadd Hrg.
  destruct (group_add_route_ok _ _ _ _ _ _ _ _ _ _ Hadd) as (new' & ->).
  rewrite group_remove_route_run, (unmatched_routes_filter _ _ _ Hspec).
  cbn [app]. rewrite Hrg.
  rewrite filter_app_appended.
  - destruct g. reflexivity.
  - intros y Hy. rewrite (Hg y Hy). reflexivity.
  - intros y Hy. rewrite (Hnew y Hy). reflexivity.
Qed.

(** C3, as amended.  Let [add_transition_route] succeed on the held Page
    (or TransitionRouteGroup) and append the routes [new]: the one route
    passed or built from the field arguments, or the routes of the list
    passed.  Then [remove_transition_route], called with criteria of which
    at least one is specified, which all hold of every appended route and
    do not all hold of any route held before the add, succeeds and leaves
    the held object exactly as it was before the add. *)
Theorem add_then_remove_transition_route
    (leaf : LeafBuilders) (new : list TransitionRoute.t)
    (transition_routes intent condition target_page target_flow
     trigger_fulfillment agent_response parameter_map : pyval)
    (t i c : pyval) :
  some_specified t i c = true ->
  (forall x, In x new -> BuildersCommon.criteria_hold x t i c = true) ->
  (forall p p' : Page.t,
     (forall x, In x (Page.transition_routes p) ->
                BuildersCommon.criteria_hold x t i c = false) ->
     PageBuilder.add_transition_route leaf transition_routes intent condition
       target_page target_flow trigger_fulfillment agent_response
       parameter_map (Some p) = returns p' ->
     Page.transition_routes p' = Page.transition_routes p ++ new ->
     PageBuilder.remove_transition_route t i c (Some p') = returns p)
  /\ (forall g g' : TransitionRouteGroup.t,
        (forall x, In x (TransitionRouteGroup.transition_routes g) ->
                   BuildersCommon.criteria_hold x t i c = false) ->
        TransitionRouteGroupBuilder.add_transition_route leaf
          transition_routes intent condition target_page target_flow
          trigger_fulfillment agent_response parameter_map (Some g)
        = returns g' ->
        TransitionRouteGroup.transition_routes g'
        = TransitionRouteGroup.transition_routes g ++ new ->
        TransitionRouteGroupBuilder.remove_transition_route t i c (Some g')
        = returns g).
Proof.
  intros Hspec Hnew. split.
  - intros p p' Hp Hadd Hrp.
    eapply page_add_then_remove; eassumption.
  - intros g g' Hg Hadd Hrg.
    eapply group_add_then_remove; eassumption.
Qed.

Lemma add_then_remove_transition_route_witness :
  let p := Page.with_transition_routes [Fixtures.cancel] Fixtures.shop in
  let g := TransitionRouteGroup.with_transition_routes [Fixtures.cancel]
             Fixtures.shop_routes in
  PageBuilder.remove_transition_route PyNone (PyStr "intents/buy") PyNone
    (Some (Page.with_transition_routes [Fixtures.cancel; Fixtures.buy] p))
  = returns p
  /\ TransitionRouteGroupBuilder.remove_transition_route
       PyNone (PyStr "intents/buy") PyNone
       (Some (TransitionRouteGroup.with_transition_routes
                [Fixtures.cancel; Fixtures.buy] g))
     = returns g.
Proof.
  cbv zeta.
  assert (Hnew : forall x, In x [Fixtures.buy] ->
            BuildersCommon.criteria_hold x PyNone (PyStr "intents/buy") PyNone
            = true).
  { intros x [<- | []]. reflexivity. }
  pose proof (@add_then_remove_transition_route SpecLeaf.leaf [Fixtures.buy]
                PyNone (PyStr "intents/buy") PyNone (PyStr "pages/checkout")
                PyNone PyNone PyNone PyNone
                PyNone (PyStr "intents/buy") PyNone eq_refl Hnew)
    as [Hpage Hgroup].
  split.
  - apply (Hpage (Page.with_transition_routes [Fixtures.cancel] Fixtures.shop)).
    + intros x [<- | []]. reflexivity.
    + reflexivity.
    + reflexivity.
  - apply (Hgroup (TransitionRouteGroup.with_transition_routes
                     [Fixtures.cancel] Fixtures.shop_routes)).
    + intros x [<- | []]. reflexivity.
    + reflexivity.
    + reflexivity.
Defined.

(** C3, counterexample.  One call of [add_transition_route] appends the
    routes "buy" and "cancel", passed as a list, to a page that holds no
    route.  The criterion [intent="intents/buy"] holds of the appended route
    "buy" and of no route held before, yet [remove_transition_route] with
    it leaves "cancel" behind: the collection is not the empty one it was
    before the add. *)
Lemma add_two_routes_then_remove_one :
  let p := Page.with_transition_routes [] Fixtures.shop in
  let added := Page.with_transition_routes [Fixtures.buy; Fixtures.cancel] p in
  PageBuilder.add_transition_route SpecLeaf.leaf
    (PyList [PyTransitionRoute Fixtures.buy; PyTransitionRoute Fixtures.cancel])
    PyNone PyNone PyNone PyNone PyNone PyNone PyNone (Some p)
  = returns added
  /\ BuildersCommon.criteria_hold Fixtures.buy
       PyNone (PyStr "intents/buy") PyNone = true
  /\ PageBuilder.remove_transition_route PyNone (PyStr "intents/buy") PyNone
       (Some added)
     = returns (Page.with_transition_routes [Fixtures.cancel] p)
  /\ Page.transition_routes (Page.with_transition_routes [Fixtures.cancel] p)
     <> Page.transition_routes p.
Proof. repeat split. cbn. discriminate. Qed.

(** ** Parameter display names *)

Lemma NoDup_app_last {A} (l : list A) (x : A) :
  NoDup (l ++ [x]) <-> NoDup l /\ ~ In x l.
Proof.
  induction l as [|a l IH]; cbn [app].
  - split.
    + intros _. split; [constructor | intros []].
    + intros _. constructor; [intros [] | constructor].
  - split.
    + intros H. inversion H as [|? ? Hnin Hnd]; subst.
      apply IH in Hnd. destruct Hnd as [Hnd Hx].
      split.
      * constructor; [|exact Hnd].
        intros Hin. apply Hnin. apply in_or_app. left. exact Hin.
      * intros [-> | Hin]; [|exact (Hx Hin)].
        apply Hnin. apply in_or_app. right. left. reflexivity.
    + intros [H Hx]. inversion H as [|? ? Hnin Hnd]; subst.
      constructor.
      * intros Hin. apply in_app_or in Hin. destruct Hin as [Hin | [-> | []]].
        -- exact (Hnin Hin).
        -- apply Hx. left. reflexivity.
      * apply IH. split; [exact Hnd|].
        intros Hin. apply Hx. right. exact Hin.
Qed.

Lemma FormParameter_init_name
    (dn rq et il rd dv : pyval) (param : FormParameter.t) :
  FormParameter_init dn rq et il rd dv = Ok param ->
  PageBuilder.nonempty_str dn = true ->
  dn = PyStr (FormParameter.display_name param).
Proof.
  unfold FormParameter_init, PageBuilder.nonempty_str.
  destruct dn; cbn; try discriminate.
  destruct (proto_bool rq); cbn; [|discriminate].
  destruct (proto_str et); cbn; [|discriminate].
  destruct (proto_bool il); cbn; [|discriminate].
  destruct (proto_bool rd); cbn; [|discriminate].
  destruct (proto_value dv); cbn; [|discriminate].
  intros H _. inversion H. reflexivity.
Qed.

Lemma add_parameter_ok
    (display_name entity_type initial_prompt_fulfillment required
     default_value is_list redact reprompt_event_handlers : pyval)
    (p : Page.t) (out s' : PageBuilder.builder) :
  PageBuilder.add_parameter display_name entity_type
    initial_prompt_fulfillment required default_value is_list redact
    reprompt_event_handlers (Some p) = (Ok out, s') ->
  exists param,
    display_name = PyStr (FormParameter.display_name param)
    /\ out = s'
    /\ s' = Some (Page.with_parameters
                    (Form.parameters (Page.form p) ++ [param]) p).
Proof.
  unfold PageBuilder.add_parameter. rewrite bind_check_some.
  unfold bind at 1, when at 1.
  destruct (PageBuilder.nonempty_str display_name) eqn:Hdn; cbn [negb];
    [|discriminate].
  unfold ret at 1.
  do 3 (unfold bind at 1, when at 1;
        match goal with
        | |- (let (r, s0) := (if ?c then _ else _) _ in _) = _ -> _ =>
            destruct c; [discriminate|]
        end; unfold ret at 1).
  unfold bind at 1.
  match goal with
  | |- (let (r, s0) := ?blk (Some p) in _) = _ -> _ =>
      let Hro := fresh "Hro" in
      assert (Hro : readonly blk) by solve_readonly;
      specialize (Hro (Some p));
      destruct (blk (Some p)) as [[reh|e] s1]; cbn [snd] in Hro; subst s1;
      [|discriminate]
  end.
  unfold bind at 1.
  match goal with
  | |- (let (r, s0) := ?blk (Some p) in _) = _ -> _ =>
      let Hro := fresh "Hro" in
      let E := fresh "E" in
      assert (Hro : readonly blk) by solve_readonly;
      specialize (Hro (Some p));
      destruct (blk (Some p)) as [[param|e] s1] eqn:E; cbn [snd] in Hro;
      subst s1; [|discriminate]
  end.
  assert (Hname : display_name = PyStr (FormParameter.display_name param)).
  { destruct (truthy required).
    - unfold lift in E. inversion E as [E1].
      exact (FormParameter_init_name _ _ _ _ _ _ E1 Hdn).
    - unfold bind, when, lift in E.
      destruct (negb (isinstance default_value TStr)); [discriminate|].
      unfold ret in E. inversion E as [E1].
      exact (FormParameter_init_name _ _ _ _ _ _ E1 Hdn). }
  unfold bind at 1, lift at 1.
  destruct (FillBehavior_init initial_prompt_fulfillment reh) as [fb|e];
    [|discriminate].
  eff_unfold. intros H. inversion H.
  exists (FormParameter.with_fill_behavior fb param).
  split; [exact Hname|]. split; reflexivity.
Qed.

(** C5, as amended.  A call of [add_parameter] that succeeds appends
    exactly one parameter, carrying the given display name, after the
    parameters already in the form and changes nothing else.  The builder
    makes no check against the names already present: the names of the form
    are pairwise distinct after the call exactly when they were before it
    and the given name was not among them. *)
Theorem add_parameter_display_names
    (display_name entity_type initial_prompt_fulfillment required
     default_value is_list redact reprompt_event_handlers : pyval)
    (p : Page.t) (out s' : PageBuilder.builder) :
  PageBuilder.add_parameter display_name entity_type
    initial_prompt_fulfillment required default_value is_list redact
    reprompt_event_handlers (Some p) = (Ok out, s') ->
  exists name p',
    display_name = PyStr name
    /\ out = Some p' /\ s' = Some p'
    /\ PageBuilder.parameter_names p' = PageBuilder.parameter_names p ++ [name]
    /\ Page.with_parameters (Form.parameters (Page.form p)) p' = p
    /\ (NoDup (PageBuilder.parameter_names p')
        <-> NoDup (PageBuilder.parameter_names p)
            /\ ~ In name (PageBuilder.parameter_names p)).
Proof.
  intros H. destruct (add_parameter_ok _ _ _ _ _ _ _ _ _ H)
    as (param & Hname & Hout & Hs).
  exists (FormParameter.display_name param).
  eexists. split; [exact Hname|]. split; [rewrite Hout; exact Hs|].
  split; [exact Hs|].
  assert (Hnames :
    PageBuilder.parameter_names
      (Page.with_parameters (Form.parameters (Page.form p) ++ [param]) p)
    = PageBuilder.parameter_names p ++ [FormParameter.display_name param]).
  { unfold PageBuilder.parameter_names. cbn. apply map_app. }
  split; [exact Hnames|].
  split; [destruct p as [? ? ? [?] ? ? ?]; reflexivity|].
  rewrite Hnames. apply NoDup_app_last.
Qed.

Lemma add_parameter_display_names_witness :
  let added :=
    Page.with_parameters [Fixtures.email; Fixtures.phone; Fixtures.address]
      Fixtures.shop in
  PageBuilder.add_parameter (PyStr "address") (PyStr "sys.address")
    (PyFulfillment Fixtures.prompt) (PyBool true) PyNone (PyBool false)
    (PyBool false) PyNone (Some Fixtures.shop) = returns added
  /\ exists name p',
       PyStr "address" = PyStr name
       /\ Some added = Some p' /\ Some added = Some p'
       /\ PageBuilder.parameter_names p'
          = PageBuilder.parameter_names Fixtures.shop ++ [name]
       /\ Page.with_parameters (Form.parameters (Page.form Fixtures.shop)) p'
          = Fixtures.shop
       /\ (NoDup (PageBuilder.parameter_names p')
           <-> NoDup (PageBuilder.parameter_names Fixtures.shop)
               /\ ~ In name (PageBuilder.parameter_names Fixtures.shop)).
Proof.
  split; [reflexivity|].
  exact (@add_parameter_display_names
           (PyStr "address") (PyStr "sys.address")
           (PyFulfillment Fixtures.prompt) (PyBool true) PyNone
           (PyBool false) (PyBool false) PyNone Fixtures.shop
           _ _ eq_refl).
Defined.

(** C5, counterexample.  On a fresh builder, [create_new_page] followed by
    two calls of [add_parameter] with the display name "email" all succeed,
    and the form of the page then holds two parameters named "email". *)
Lemma add_parameter_twice_same_name :
  exists page,
    PageBuilder.run_all SpecLeaf.leaf
      [PageBuilder.CreateNewPage (PyStr "Collect Email") PyNone false;
       PageBuilder.AddParameter (PyStr "email") (PyStr "sys.email")
         (PyFulfillment Fixtures.prompt) (PyBool true) PyNone
         (PyBool false) (PyBool false) PyNone;
       PageBuilder.AddParameter (PyStr "email") (PyStr "sys.email")
         (PyFulfillment Fixtures.prompt) (PyBool true) PyNone
         (PyBool false) (PyBool false) PyNone]
      None = Some page
    /\ PageBuilder.parameter_names page = ["email"; "email"]
    /\ ~ NoDup (PageBuilder.parameter_names page).
Proof.
  eexists. split; [reflexivity|]. split; [reflexivity|].
  cbn. intros H. inversion H as [|? ? Hnin _]. apply Hnin. left. reflexivity.
Qed.

Lemma failing_calls_leave_state_witness :
  let call := PageBuilder.RemoveParameter (PyList [PyStr "email"; PyInt 3]) in
  let out := PageBuilder.run SpecLeaf.leaf call (Some Fixtures.shop) in
  out = (Raise ValueError, snd out) /\ snd out = Some Fixtures.shop.
Proof.
  cbv zeta. split; [reflexivity|].
  apply (proj1 (failing_calls_leave_state SpecLeaf.leaf Fixtures.unreachable
                  Fixtures.wrapper))
    with (c := PageBuilder.RemoveParameter (PyList [PyStr "email"; PyInt 3]))
         (e := ValueError).
  reflexivity.
Defined.

(** * Further properties of the embedded code *)

(** ** list_entity_types, get_entity_type *)

Lemma flatten_pages {A} (pages : list (list A)) :
  forall acc,
    fold_left (fun entities page => fold_left (fun es e => es ++ [e]) page entities)
              pages acc
    = acc ++ List.concat pages.
Proof.
  assert (Hin : forall (page : list A) acc,
            fold_left (fun es e => es ++ [e]) page acc = acc ++ page).
  { induction page as [|e page IH]; intros acc; cbn [fold_left].
    - rewrite app_nil_r. reflexivity.
    - rewrite IH, <- app_assoc. reflexivity. }
  induction pages as [|page pages IH]; intros acc; cbn [fold_left List.concat].
  - rewrite app_nil_r. reflexivity.
  - rewrite IH, Hin, <- app_assoc. reflexivity.
Qed.

Lemma list_entity_types_run (ext : EntityTypes.Externals)
    (self : EntityTypes.self_t) (id : option string) (w : EntityTypes.world) :
  let id' := or_default id (EntityTypes.agent_id self) in
  EntityTypes.list_entity_types ext self id w =
    match EntityTypes._set_region ext id' with
    | Ok opts =>
        (match EntityTypes.remote_list_entity_types ext id' with
         | Ok pages => Ok (List.concat pages)
         | Raise x => Raise x
         end,
         EntityTypes.mkWorld (EntityTypes.obj w)
           (EntityTypes.trace w
            ++ [EntityTypes.NewClient opts;
                EntityTypes.Rpc (EntityTypes.ListEntityTypesRequest id')]))
    | Raise x => (Raise x, w)
    end.
Proof.
  cbv zeta. unfold EntityTypes.list_entity_types, or_default.
  unfold bind at 1. rewrite new_client_run.
  destruct (EntityTypes._set_region ext _); [|reflexivity].
  unfold bind, EntityTypes.emit, lift, ret.
  cbn [EntityTypes.obj EntityTypes.trace]. rewrite <- app_assoc.
  destruct (EntityTypes.remote_list_entity_types ext _); [|reflexivity].
  rewrite flatten_pages. reflexivity.
Qed.

(** X1.  When the region of the agent id resolves and the service answers
    the listing, [list_entity_types] returns the entity types of all pages,
    page after page and in the order of each page, after building one client
    and sending one request whose parent is the given agent id, or the
    wrapper's own when none is given. *)
Theorem list_entity_types_flattens_pages
    (ext : EntityTypes.Externals) (self : EntityTypes.self_t)
    (agent_id : option string) (w : EntityTypes.world)
    (opts : string) (pages : list (list EntityType.t)) :
  let parent := or_default agent_id (EntityTypes.agent_id self) in
  EntityTypes._set_region ext parent = Ok opts ->
  EntityTypes.remote_list_entity_types ext parent = Ok pages ->
  EntityTypes.list_entity_types ext self agent_id w
  = (Ok (List.concat pages),
     EntityTypes.mkWorld (EntityTypes.obj w)
       (EntityTypes.trace w
        ++ [EntityTypes.NewClient opts;
            EntityTypes.Rpc (EntityTypes.ListEntityTypesRequest parent)])).
Proof.
  cbv zeta. intros Hr Hl.
  pose proof (list_entity_types_run ext self agent_id w) as H.
  cbv zeta in H. rewrite Hr, Hl in H. exact H.
Qed.

Lemma list_entity_types_flattens_pages_witness :
  EntityTypes.list_entity_types
    (Fixtures.listing [[Fixtures.color]; []; [EntityType.default; Fixtures.color]])
    Fixtures.wrapper None (EntityTypes.mkWorld None [])
  = (Ok [Fixtures.color; EntityType.default; Fixtures.color],
     EntityTypes.mkWorld None
       [EntityTypes.NewClient "global";
        EntityTypes.Rpc (EntityTypes.ListEntityTypesRequest
                           (Some "projects/p/locations/global/agents/a"))]).
Proof.
  exact (@list_entity_types_flattens_pages
           (Fixtures.listing
              [[Fixtures.color]; []; [EntityType.default; Fixtures.color]])
           Fixtures.wrapper None (EntityTypes.mkWorld None []) "global"
           [[Fixtures.color]; []; [EntityType.default; Fixtures.color]]
           eq_refl eq_refl).
Defined.

(** X2.  When the region of the id does not resolve, [list_entity_types],
    [get_entity_type] and, for an absent or empty [obj],
    [delete_entity_type] raise that error and do nothing else: no client is
    built, no request is sent, the caller's object is untouched. *)
Theorem unresolved_region_sends_nothing
    (ext : EntityTypes.Externals) (self : EntityTypes.self_t)
    (id : option string) (w : EntityTypes.world) (x : exn) :
  (EntityTypes._set_region ext (or_default id (EntityTypes.agent_id self))
   = Raise x ->
   EntityTypes.list_entity_types ext self id w = (Raise x, w))
  /\ (EntityTypes._set_region ext (or_default id (EntityTypes.entity_id self))
      = Raise x ->
      EntityTypes.get_entity_type ext self id w = (Raise x, w)
      /\ (EntityTypes.obj_truthy w = false ->
          EntityTypes.delete_entity_type ext self id w = (Raise x, w))).
Proof.
  split.
  - intros Hr. pose proof (list_entity_types_run ext self id w) as H.
    cbv zeta in H. rewrite Hr in H. exact H.
  - intros Hr. split.
    + pose proof (get_entity_type_run ext self id w) as H.
      cbv zeta in H. unfold or_default in Hr. rewrite Hr in H. exact H.
    + intros Ht. unfold EntityTypes.delete_entity_type, bind at 1, get.
      rewrite Ht. unfold bind at 1. rewrite new_client_run.
      unfold or_default in Hr. rewrite Hr. reflexivity.
Qed.

Lemma unresolved_region_sends_nothing_witness :
  let self := EntityTypes.mkSelf None None in
  let w := EntityTypes.mkWorld None [] in
  EntityTypes.list_entity_types Fixtures.reachable self None w
  = (Raise AttributeError, w)
  /\ EntityTypes.get_entity_type Fixtures.reachable self (Some "") w
     = (Raise AttributeError, w)
  /\ EntityTypes.delete_entity_type Fixtures.reachable self None w
     = (Raise AttributeError, w).
Proof.
  cbv zeta.
  pose proof (@unresolved_region_sends_nothing Fixtures.reachable
                (EntityTypes.mkSelf None None) None
                (EntityTypes.mkWorld None []) AttributeError) as [Hl [Hg Hd]].
  { reflexivity. }
  split; [exact (Hl eq_refl)|]. split; [|exact (Hd eq_refl)].
  exact (proj1 (proj2 (@unresolved_region_sends_nothing Fixtures.reachable
                         (EntityTypes.mkSelf None None) (Some "")
                         (EntityTypes.mkWorld None []) AttributeError)
                 eq_refl)).
Defined.

(** ** create_entity_type, update_entity_type *)

Lemma apply_kwargs_prefix :
  forall kwargs e e',
    apply_kwargs e kwargs = Ok e' -> applied_prefix e kwargs = e'.
Proof.
  induction kwargs as [|[key value] rest IH]; intros e e' H; cbn in *.
  - congruence.
  - destruct (EntityType.setattr e key value) as [e1|x]; cbn in H;
      [apply IH; exact H | discriminate].
Qed.

Lemma set_attrs_alias_run :
  forall kwargs o tr,
    EntityTypes.set_attrs EntityTypes.Alias kwargs
      (EntityTypes.mkWorld (Some o) tr) =
      (match apply_kwargs o kwargs with
       | Ok _ => Ok EntityTypes.Alias
       | Raise x => Raise x
       end, EntityTypes.mkWorld (Some (applied_prefix o kwargs)) tr).
Proof.
  induction kwargs as [|[key value] rest IH]; intros o tr.
  - reflexivity.
  - cbn [EntityTypes.set_attrs apply_kwargs applied_prefix].
    unfold bind at 1. rewrite setattr_var_alias.
    destruct (EntityType.setattr o key value) as [o1|x]; cbn [rbind].
    + apply IH.
    + reflexivity.
Qed.

Lemma send_run (ext : EntityTypes.Externals) (id : option string)
    (v : EntityTypes.var) (e : EntityType.t)
    (k : EntityType.t -> EntityTypes.request)
    (remote : EntityType.t -> result EntityType.t) (w : EntityTypes.world) :
  EntityTypes.deref v w = (Ok e, w) ->
  (EntityTypes.new_client ext id ;;;
   e <- EntityTypes.deref v ;;
   EntityTypes.emit (EntityTypes.Rpc (k e)) ;;;
   lift (remote e)) w =
    match EntityTypes._set_region ext id with
    | Ok opts =>
        (remote e,
         EntityTypes.mkWorld (EntityTypes.obj w)
           (EntityTypes.trace w
            ++ [EntityTypes.NewClient opts; EntityTypes.Rpc (k e)]))
    | Raise x => (Raise x, w)
    end.
Proof.
  intros Hd. unfold bind at 1. rewrite new_client_run.
  destruct (EntityTypes._set_region ext id) as [opts|x]; [|reflexivity].
  unfold bind at 1.
  assert (Hd' : EntityTypes.deref v
                  (EntityTypes.mkWorld (EntityTypes.obj w)
                     (EntityTypes.trace w ++ [EntityTypes.NewClient opts]))
                = (Ok e, EntityTypes.mkWorld (EntityTypes.obj w)
                           (EntityTypes.trace w ++ [EntityTypes.NewClient opts]))).
  { destruct v as [|e0].
    - destruct w as [[o|] tr]; cbv in Hd; [|discriminate].
      inversion Hd; subst. reflexivity.
    - cbv in Hd. inversion Hd; subst. reflexivity. }
  rewrite Hd'. unfold bind, EntityTypes.emit, lift.
  cbn [EntityTypes.obj EntityTypes.trace]. rewrite <- app_assoc. reflexivity.
Qed.

Lemma create_entity_type_with_obj_run
    (ext : EntityTypes.Externals) (self : EntityTypes.self_t)
    (agent_id language_code : option string)
    (kwargs : list (string * EntityType.attr)) (w : EntityTypes.world)
    (o : EntityType.t) :
  let parent := or_default agent_id (EntityTypes.agent_id self) in
  let lc := sent_language_code language_code in
  EntityTypes.obj w = Some o ->
  EntityType.truthy o = true ->
  EntityTypes.create_entity_type ext self agent_id language_code kwargs w =
    match apply_kwargs (EntityType.with_name "" o) kwargs with
    | Raise x =>
        (Raise x,
         EntityTypes.mkWorld
           (Some (applied_prefix (EntityType.with_name "" o) kwargs))
           (EntityTypes.trace w))
    | Ok e =>
        match EntityTypes._set_region ext parent with
        | Raise x => (Raise x, EntityTypes.mkWorld (Some e) (EntityTypes.trace w))
        | Ok opts =>
            (EntityTypes.remote_create_entity_type ext parent e lc,
             EntityTypes.mkWorld (Some e)
               (EntityTypes.trace w
                ++ [EntityTypes.NewClient opts;
                    EntityTypes.Rpc
                      (EntityTypes.CreateEntityTypeRequest parent e lc)]))
        end
    end.
Proof.
  cbv zeta. destruct w as [ob tr]. cbn [EntityTypes.obj EntityTypes.trace].
  intros -> Hto.
  unfold EntityTypes.create_entity_type.
  unfold bind at 1, get. unfold EntityTypes.obj_truthy.
  cbn [EntityTypes.obj]. rewrite Hto.
  unfold bind at 1. rewrite setattr_var_alias.
  cbn [EntityType.setattr EntityType.str_value rbind String.eqb Ascii.eqb Bool.eqb].
  unfold bind at 1. rewrite set_attrs_alias_run.
  destruct (apply_kwargs (EntityType.with_name "" o) kwargs) as [e|x] eqn:Ek;
    [|reflexivity].
  rewrite (apply_kwargs_prefix _ _ Ek).
  rewrite (@send_run ext _ EntityTypes.Alias e
             (fun e => EntityTypes.CreateEntityTypeRequest _ e _)
             (fun e => EntityTypes.remote_create_entity_type ext _ e _)
             (EntityTypes.mkWorld (Some e) tr) eq_refl).
  reflexivity.
Qed.

Lemma create_entity_type_without_obj_run
    (ext : EntityTypes.Externals) (self : EntityTypes.self_t)
    (agent_id language_code : option string)
    (kwargs : list (string * EntityType.attr)) (w : EntityTypes.world) :
  let parent := or_default agent_id (EntityTypes.agent_id self) in
  let lc := sent_language_code language_code in
  EntityTypes.obj_truthy w = false ->
  EntityTypes.create_entity_type ext self agent_id language_code kwargs w =
    match apply_kwargs EntityType.default kwargs with
    | Raise x => (Raise x, w)
    | Ok e =>
        match EntityTypes._set_region ext parent with
        | Raise x => (Raise x, w)
        | Ok opts =>
            (EntityTypes.remote_create_entity_type ext parent e lc,
             EntityTypes.mkWorld (EntityTypes.obj w)
               (EntityTypes.trace w
                ++ [EntityTypes.NewClient opts;
                    EntityTypes.Rpc
                      (EntityTypes.CreateEntityTypeRequest parent e lc)]))
        end
    end.
Proof.
  cbv zeta. intros Ht.
  unfold EntityTypes.create_entity_type.
  unfold bind at 1, get. rewrite Ht.
  unfold bind at 1, ret at 1.
  unfold bind at 1. rewrite set_attrs_own.
  destruct (apply_kwargs EntityType.default kwargs) as [e|x]; [|reflexivity].
  rewrite (@send_run ext _ (EntityTypes.Own e) e
             (fun e => EntityTypes.CreateEntityTypeRequest _ e _)
             (fun e => EntityTypes.remote_create_entity_type ext _ e _)
             w eq_refl).
  reflexivity.
Qed.


Lemma or_default_idempotent (id fallback : option string) :
  or_default (or_default id fallback) fallback = or_default id fallback.
Proof.
  unfold or_default.
  destruct (EntityTypes.id_truthy id) eqn:E1; cbn [negb];
    [rewrite E1; reflexivity|].
  destruct (EntityTypes.id_truthy fallback); reflexivity.
Qed.

Lemma update_entity_type_without_obj_full
    (ext : EntityTypes.Externals) (self : EntityTypes.self_t)
    (entity_type_id language_code : option string)
    (kwargs : list (string * EntityType.attr)) (w : EntityTypes.world) :
  let id := or_default entity_type_id (EntityTypes.entity_id self) in
  let lc := sent_language_code language_code in
  EntityTypes.obj_truthy w = false ->
  EntityTypes.update_entity_type ext self entity_type_id language_code kwargs w
  = match EntityTypes._set_region ext id with
    | Raise x => (Raise x, w)
    | Ok opts =>
        let fetching :=
          EntityTypes.mkWorld (EntityTypes.obj w)
            (EntityTypes.trace w
             ++ [EntityTypes.NewClient opts;
                 EntityTypes.Rpc (EntityTypes.GetEntityTypeRequest id)]) in
        match EntityTypes.remote_get_entity_type ext id with
        | Raise x => (Raise x, fetching)
        | Ok fetched =>
            match apply_kwargs fetched kwargs with
            | Raise x => (Raise x, fetching)
            | Ok e =>
                (EntityTypes.remote_update_entity_type ext e (map fst kwargs) lc,
                 EntityTypes.mkWorld (EntityTypes.obj w)
                   (EntityTypes.trace fetching
                    ++ [EntityTypes.NewClient opts;
                        EntityTypes.Rpc
                          (EntityTypes.UpdateEntityTypeRequest e
                             (map fst kwargs) lc)]))
            end
        end
    end.
Proof.
  cbv zeta. intros Ht.
  unfold EntityTypes.update_entity_type.
  unfold bind at 1, get. rewrite Ht.
  unfold bind at 1. unfold bind at 1.
  rewrite get_entity_type_run. cbv zeta.
  fold (or_default entity_type_id (EntityTypes.entity_id self)).
  fold (or_default (or_default entity_type_id (EntityTypes.entity_id self))
          (EntityTypes.entity_id self)).
  rewrite or_default_idempotent.
  set (id := or_default entity_type_id (EntityTypes.entity_id self)).
  destruct (EntityTypes._set_region ext id) as [opts|x] eqn:Er; [|reflexivity].
  rewrite <- app_assoc. cbn [app].
  destruct (EntityTypes.remote_get_entity_type ext id) as [fetched|x];
    [|reflexivity].
  unfold ret at 1. cbn [fst snd].
  unfold bind at 1. rewrite set_attrs_own.
  destruct (apply_kwargs fetched kwargs) as [e|x]; [|reflexivity].
  rewrite (@send_run ext id (EntityTypes.Own e) e
             (fun e => EntityTypes.UpdateEntityTypeRequest e _ _)
             (fun e => EntityTypes.remote_update_entity_type ext e _ _)
             _ eq_refl).
  rewrite Er. reflexivity.
Qed.

(** X3.  [create_entity_type] sends the entity type without a name: when
    the region of the agent id resolves and the keyword arguments are
    accepted, the request carries, for a pre-built object with a field set,
    that object with its name emptied and the keyword arguments then
    applied (the caller's object is left in that state), and otherwise a
    new EntityType with the keyword arguments applied.  The parent is the
    given agent id or the wrapper's own, the language code is sent only
    when not empty, and the outcome is the outcome of the remote call. *)
Theorem create_entity_type_sends_unnamed
    (ext : EntityTypes.Externals) (self : EntityTypes.self_t)
    (agent_id language_code : option string)
    (kwargs : list (string * EntityType.attr)) (w : EntityTypes.world)
    (opts : string) (e : EntityType.t) :
  let parent := or_default agent_id (EntityTypes.agent_id self) in
  let lc := sent_language_code language_code in
  let sent obj' :=
    (EntityTypes.remote_create_entity_type ext parent e lc,
     EntityTypes.mkWorld obj'
       (EntityTypes.trace w
        ++ [EntityTypes.NewClient opts;
            EntityTypes.Rpc (EntityTypes.CreateEntityTypeRequest parent e lc)])) in
  EntityTypes._set_region ext parent = Ok opts ->
  (forall o,
     EntityTypes.obj w = Some o -> EntityType.truthy o = true ->
     apply_kwargs (EntityType.with_name "" o) kwargs = Ok e ->
     EntityTypes.create_entity_type ext self agent_id language_code kwargs w
     = sent (Some e)
     /\ (~ In "name" (map fst kwargs) -> EntityType.name e = ""))
  /\ (EntityTypes.obj_truthy w = false ->
      apply_kwargs EntityType.default kwargs = Ok e ->
      EntityTypes.create_entity_type ext self agent_id language_code kwargs w
      = sent (EntityTypes.obj w)
      /\ (~ In "name" (map fst kwargs) -> EntityType.name e = "")).
Proof.
  cbv zeta. intros Hr. split.
  - intros o Ho Hto Hk. split.
    + pose proof (create_entity_type_with_obj_run ext self agent_id
                    language_code kwargs w Ho Hto) as H.
      cbv zeta in H. rewrite Hk, Hr in H. exact H.
    + intros Hn. rewrite (apply_kwargs_keeps_name _ _ Hk Hn). reflexivity.
  - intros Ht Hk. split.
    + pose proof (create_entity_type_without_obj_run ext self agent_id
                    language_code kwargs w Ht) as H.
      cbv zeta in H. rewrite Hk, Hr in H. exact H.
    + intros Hn. rewrite (apply_kwargs_keeps_name _ _ Hk Hn). reflexivity.
Qed.

Lemma create_entity_type_sends_unnamed_witness :
  let sent := EntityType.with_redact true
                (EntityType.with_name "" Fixtures.color) in
  EntityTypes.create_entity_type Fixtures.reachable Fixtures.wrapper
    None (Some "") [("redact", EntityType.ABool true)]
    (EntityTypes.mkWorld (Some Fixtures.color) [])
  = (Ok sent,
     EntityTypes.mkWorld (Some sent)
       [EntityTypes.NewClient "global";
        EntityTypes.Rpc
          (EntityTypes.CreateEntityTypeRequest
             (Some "projects/p/locations/global/agents/a") sent None)])
  /\ EntityType.name sent = "".
Proof.
  cbv zeta.
  destruct (proj1 (@create_entity_type_sends_unnamed Fixtures.reachable
                     Fixtures.wrapper None (Some "")
                     [("redact", EntityType.ABool true)]
                     (EntityTypes.mkWorld (Some Fixtures.color) []) "global"
                     (EntityType.with_redact true
                        (EntityType.with_name "" Fixtures.color))
                     eq_refl)
              Fixtures.color eq_refl eq_refl eq_refl) as [Hrun Hname].
  split; [exact Hrun|]. apply Hname. cbn. intros [H|[]]. discriminate.
Defined.



(** X5.  Without a pre-built object (none, or one with no field set),
    [update_entity_type] first fetches the entity type with
    [get_entity_type], for the given id or the wrapper's own, applies the
    keyword arguments to the fetched object and sends it with the mask of
    the keyword names; the caller's object is not touched.  When the fetch
    fails the call raises that error and no update request is sent. *)
Theorem update_entity_type_fetches_without_obj
    (ext : EntityTypes.Externals) (self : EntityTypes.self_t)
    (entity_type_id language_code : option string)
    (kwargs : list (string * EntityType.attr)) (w : EntityTypes.world)
    (opts : string) :
  let id := or_default entity_type_id (EntityTypes.entity_id self) in
  let lc := sent_language_code language_code in
  let fetching :=
    EntityTypes.trace w
    ++ [EntityTypes.NewClient opts;
        EntityTypes.Rpc (EntityTypes.GetEntityTypeRequest id)] in
  EntityTypes.obj_truthy w = false ->
  EntityTypes._set_region ext id = Ok opts ->
  (forall fetched e,
     EntityTypes.remote_get_entity_type ext id = Ok fetched ->
     apply_kwargs fetched kwargs = Ok e ->
     EntityTypes.update_entity_type ext self entity_type_id language_code
       kwargs w
     = (EntityTypes.remote_update_entity_type ext e (map fst kwargs) lc,
        EntityTypes.mkWorld (EntityTypes.obj w)
          (fetching
           ++ [EntityTypes.NewClient opts;
               EntityTypes.Rpc
                 (EntityTypes.UpdateEntityTypeRequest e (map fst kwargs) lc)])))
  /\ (forall x,
        EntityTypes.remote_get_entity_type ext id = Raise x ->
        EntityTypes.update_entity_type ext self entity_type_id language_code
          kwargs w
        = (Raise x, EntityTypes.mkWorld (EntityTypes.obj w) fetching)).
Proof.
  cbv zeta. intros Ht Hr.
  pose proof (update_entity_type_without_obj_full ext self entity_type_id
                language_code kwargs w Ht) as H.
  cbv zeta in H. rewrite Hr in H. split.
  - intros fetched e Hg Hk. rewrite Hg, Hk in H. exact H.
  - intros x Hg. rewrite Hg in H. exact H.
Qed.

Lemma update_entity_type_fetches_without_obj_witness :
  let id := Some "projects/p/locations/global/agents/a/entityTypes/e0" in
  let sent :=
    EntityType.mk "projects/p/locations/global/agents/a/entityTypes/e0"
      "renamed" 0 0 [] [] false false in
  EntityTypes.update_entity_type Fixtures.reachable Fixtures.wrapper None None
    [("display_name", EntityType.AStr "renamed")]
    (EntityTypes.mkWorld None [])
  = (Ok sent,
     EntityTypes.mkWorld None
       [EntityTypes.NewClient "global";
        EntityTypes.Rpc (EntityTypes.GetEntityTypeRequest id);
        EntityTypes.NewClient "global";
        EntityTypes.Rpc
          (EntityTypes.UpdateEntityTypeRequest sent ["display_name"] None)])
  /\ EntityTypes.update_entity_type Fixtures.unreachable Fixtures.wrapper
       None None [("display_name", EntityType.AStr "renamed")]
       (EntityTypes.mkWorld None [])
     = (Raise (RemoteError "unavailable"),
        EntityTypes.mkWorld None
          [EntityTypes.NewClient "global";
           EntityTypes.Rpc (EntityTypes.GetEntityTypeRequest id)]).
Proof.
  cbv zeta. split.
  - exact (proj1 (@update_entity_type_fetches_without_obj Fixtures.reachable
                    Fixtures.wrapper None None
                    [("display_name", EntityType.AStr "renamed")]
                    (EntityTypes.mkWorld None []) "global" eq_refl eq_refl)
                 _ _ eq_refl eq_refl).
  - exact (proj2 (@update_entity_type_fetches_without_obj Fixtures.unreachable
                    Fixtures.wrapper None None
                    [("display_name", EntityType.AStr "renamed")]
                    (EntityTypes.mkWorld None []) "global" eq_refl eq_refl)
                 _ eq_refl).
Defined.

(** ** Requests per call *)

Lemma emits_silent {A} (m : Eff EntityTypes.world A) (n : nat) :
  (forall w, EntityTypes.trace (snd (m w)) = EntityTypes.trace w) ->
  emits_at_most n m.
Proof.
  intros H w. exists []. rewrite app_nil_r. split; [apply H | cbn; lia].
Qed.

Lemma emits_bind {A B} (n1 n2 : nat) (m : Eff EntityTypes.world A)
    (k : A -> Eff EntityTypes.world B) :
  emits_at_most n1 m -> (forall a, emits_at_most n2 (k a)) ->
  emits_at_most (n1 + n2) (bind m k).
Proof.
  intros Hm Hk w. unfold bind. destruct (Hm w) as (evs1 & E1 & B1).
  destruct (m w) as [[a|e] w1]; cbn [snd] in *.
  - destruct (Hk a w1) as (evs2 & E2 & B2).
    exists (evs1 ++ evs2). split.
    + rewrite E2, E1, app_assoc. reflexivity.
    + unfold rpc_count in *. rewrite filter_app, length_app. lia.
  - exists evs1. split; [exact E1 | lia].
Qed.

Lemma emits_new_client ext id : emits_at_most 0 (EntityTypes.new_client ext id).
Proof.
  intros w. rewrite new_client_run.
  destruct (EntityTypes._set_region ext id) as [opts|x].
  - exists [EntityTypes.NewClient opts]. split; [reflexivity | cbn; lia].
  - exists []. rewrite app_nil_r. split; [reflexivity | cbn; lia].
Qed.

Lemma emits_rpc (r : EntityTypes.request) :
  emits_at_most 1 (EntityTypes.emit (EntityTypes.Rpc r)).
Proof.
  intros w. exists [EntityTypes.Rpc r]. split; [reflexivity | cbn; lia].
Qed.

Lemma emits_setattr_var v key value :
  emits_at_most 0 (EntityTypes.setattr_var v key value).
Proof.
  apply emits_silent. intros [ob tr]. destruct v as [|e].
  - destruct ob as [o|]; [|reflexivity].
    rewrite setattr_var_alias. destruct (EntityType.setattr o key value);
      reflexivity.
  - unfold EntityTypes.setattr_var, bind, lift, ret.
    destruct (EntityType.setattr e key value); reflexivity.
Qed.

Lemma emits_set_attrs kwargs :
  forall v, emits_at_most 0 (EntityTypes.set_attrs v kwargs).
Proof.
  induction kwargs as [|[key value] rest IH]; intros v.
  - apply emits_silent. reflexivity.
  - cbn [EntityTypes.set_attrs].
    apply (emits_bind (n1 := 0) (n2 := 0)); [apply emits_setattr_var|].
    intros a. apply IH.
Qed.

Lemma emits_deref v : emits_at_most 0 (EntityTypes.deref v).
Proof.
  apply emits_silent. intros [[o|] tr]; destruct v; reflexivity.
Qed.

Lemma emits_send ext id (v : EntityTypes.var)
    (k : EntityType.t -> EntityTypes.request)
    (remote : EntityType.t -> result EntityType.t) :
  emits_at_most 1 (EntityTypes.new_client ext id ;;;
                   e <- EntityTypes.deref v ;;
                   EntityTypes.emit (EntityTypes.Rpc (k e)) ;;;
                   lift (remote e)).
Proof.
  apply (emits_bind (n1 := 0) (n2 := 1)); [apply emits_new_client|].
  intros _. apply (emits_bind (n1 := 0) (n2 := 1)); [apply emits_deref|].
  intros e. apply (emits_bind (n1 := 1) (n2 := 0)); [apply emits_rpc|].
  intros _. apply emits_silent. reflexivity.
Qed.

Lemma emits_get ext self id :
  emits_at_most 1 (EntityTypes.get_entity_type ext self id).
Proof.
  unfold EntityTypes.get_entity_type. cbv zeta.
  apply (emits_bind (n1 := 0) (n2 := 1)); [apply emits_new_client|].
  intros _. apply (emits_bind (n1 := 1) (n2 := 0)); [apply emits_rpc|].
  intros _. apply emits_silent. reflexivity.
Qed.

Lemma emits_list ext self id :
  emits_at_most 1 (EntityTypes.list_entity_types ext self id).
Proof.
  unfold EntityTypes.list_entity_types. cbv zeta.
  apply (emits_bind (n1 := 0) (n2 := 1)); [apply emits_new_client|].
  intros _. apply (emits_bind (n1 := 1) (n2 := 0)); [apply emits_rpc|].
  intros _. apply (emits_bind (n1 := 0) (n2 := 0));
    [|intros pages]; apply emits_silent; reflexivity.
Qed.

(** X6.  No wrapper call repeats a request: whatever the arguments, the
    state of the caller's object and the answers of the service,
    [list_entity_types], [get_entity_type], [create_entity_type] and
    [delete_entity_type] add at most one request to the trace and
    [update_entity_type] at most two (the fetch and the update), and none
    removes an event from it. *)
Theorem wrapper_calls_never_retry
    (ext : EntityTypes.Externals) (self : EntityTypes.self_t)
    (id language_code : option string)
    (kwargs : list (string * EntityType.attr)) :
  emits_at_most 1 (EntityTypes.list_entity_types ext self id)
  /\ emits_at_most 1 (EntityTypes.get_entity_type ext self id)
  /\ emits_at_most 1
       (EntityTypes.create_entity_type ext self id language_code kwargs)
  /\ emits_at_most 2
       (EntityTypes.update_entity_type ext self id language_code kwargs)
  /\ emits_at_most 1 (EntityTypes.delete_entity_type ext self id).
Proof.
  split; [apply emits_list|]. split; [apply emits_get|].
  split; [|split].
  - unfold EntityTypes.create_entity_type. cbv zeta.
    apply (emits_bind (n1 := 0) (n2 := 1));
      [apply emits_silent; reflexivity|].
    intros w0. apply (emits_bind (n1 := 0) (n2 := 1)).
    { destruct (EntityTypes.obj_truthy w0);
        [apply emits_setattr_var | apply emits_silent; reflexivity]. }
    intros v. apply (emits_bind (n1 := 0) (n2 := 1)); [apply emits_set_attrs|].
    intros v'.
    apply (emits_send ext _ v'
             (fun e => EntityTypes.CreateEntityTypeRequest _ e _)
             (fun e => EntityTypes.remote_create_entity_type ext _ e _)).
  - unfold EntityTypes.update_entity_type.
    apply (emits_bind (n1 := 0) (n2 := 2));
      [apply emits_silent; reflexivity|].
    intros w0. apply (emits_bind (n1 := 1) (n2 := 1)).
    { destruct (EntityTypes.obj_truthy w0).
      - apply (emits_bind (n1 := 0) (n2 := 1)); [apply emits_setattr_var|].
        intros a. apply emits_silent. reflexivity.
      - apply (emits_bind (n1 := 1) (n2 := 0)); [apply emits_get|].
        intros a. apply emits_silent. reflexivity. }
    intros bound. cbv zeta.
    apply (emits_bind (n1 := 0) (n2 := 1)); [apply emits_set_attrs|].
    intros v'.
    apply (emits_send ext _ v'
             (fun e => EntityTypes.UpdateEntityTypeRequest e _ _)
             (fun e => EntityTypes.remote_update_entity_type ext e _ _)).
  - unfold EntityTypes.delete_entity_type. cbv zeta.
    apply (emits_bind (n1 := 0) (n2 := 1));
      [apply emits_silent; reflexivity|].
    intros w0. destruct (EntityTypes.obj_truthy w0).
    + apply (emits_bind (n1 := 0) (n2 := 1)); [apply emits_deref|].
      intros o. apply emits_silent. reflexivity.
    + apply (emits_bind (n1 := 0) (n2 := 1)); [apply emits_new_client|].
      intros _. apply (emits_bind (n1 := 1) (n2 := 0)); [apply emits_rpc|].
      intros _. apply emits_silent. reflexivity.
Qed.

(** X7.  A failure of the service surfaces unchanged.  When the region
    resolves and the remote call raises, [list_entity_types],
    [get_entity_type], [delete_entity_type] (no pre-built object) and
    [create_entity_type] (no pre-built object, accepted keyword arguments)
    raise that very exception, after the single request was sent. *)
Theorem remote_failure_surfaces_unchanged
    (ext : EntityTypes.Externals) (self : EntityTypes.self_t)
    (id language_code : option string)
    (kwargs : list (string * EntityType.attr)) (w : EntityTypes.world)
    (opts : string) (x : exn) :
  let agent := or_default id (EntityTypes.agent_id self) in
  let entity := or_default id (EntityTypes.entity_id self) in
  let lc := sent_language_code language_code in
  let after (id' : option string) (r : EntityTypes.request) :=
    EntityTypes.mkWorld (EntityTypes.obj w)
      (EntityTypes.trace w ++ [EntityTypes.NewClient opts; EntityTypes.Rpc r]) in
  (EntityTypes._set_region ext agent = Ok opts ->
   (EntityTypes.remote_list_entity_types ext agent = Raise x ->
    EntityTypes.list_entity_types ext self id w
    = (Raise x, after agent (EntityTypes.ListEntityTypesRequest agent)))
   /\ (forall e,
         EntityTypes.obj_truthy w = false ->
         apply_kwargs EntityType.default kwargs = Ok e ->
         EntityTypes.remote_create_entity_type ext agent e lc = Raise x ->
         EntityTypes.create_entity_type ext self id language_code kwargs w
         = (Raise x,
            after agent (EntityTypes.CreateEntityTypeRequest agent e lc))))
  /\ (EntityTypes._set_region ext entity = Ok opts ->
      (EntityTypes.remote_get_entity_type ext entity = Raise x ->
       EntityTypes.get_entity_type ext self id w
       = (Raise x, after entity (EntityTypes.GetEntityTypeRequest entity)))
      /\ (EntityTypes.obj_truthy w = false ->
          EntityTypes.remote_delete_entity_type ext entity = Raise x ->
          EntityTypes.delete_entity_type ext self id w
          = (Raise x,
             after entity (EntityTypes.DeleteEntityTypeRequest entity)))).
Proof.
  cbv zeta. split; intros Hr; split.
  - intros Hx. pose proof (list_entity_types_run ext self id w) as H.
    cbv zeta in H. rewrite Hr, Hx in H. exact H.
  - intros e Ht Hk Hx.
    pose proof (create_entity_type_without_obj_run ext self id language_code
                  kwargs w Ht) as H.
    cbv zeta in H. rewrite Hk, Hr, Hx in H. exact H.
  - intros Hx. pose proof (get_entity_type_run ext self id w) as H.
    cbv zeta in H. unfold or_default in *. rewrite Hr, Hx in H.
    rewrite <- app_assoc in H. exact H.
  - intros Ht Hx.
    pose proof (delete_entity_type_without_obj ext self id w Ht Hr) as H.
    cbv zeta in H. unfold or_default in *. rewrite Hx in H.
    rewrite <- app_assoc in H. exact H.
Qed.

Lemma remote_failure_surfaces_unchanged_witness :
  let id := Some "projects/p/locations/global/agents/a/entityTypes/e1" in
  EntityTypes.get_entity_type Fixtures.unreachable Fixtures.wrapper id
    (EntityTypes.mkWorld None [])
  = (Raise (RemoteError "unavailable"),
     EntityTypes.mkWorld None
       [EntityTypes.NewClient "global";
        EntityTypes.Rpc (EntityTypes.GetEntityTypeRequest id)])
  /\ EntityTypes.delete_entity_type Fixtures.unreachable Fixtures.wrapper id
       (EntityTypes.mkWorld None [])
     = (Raise (RemoteError "unavailable"),
        EntityTypes.mkWorld None
          [EntityTypes.NewClient "global";
           EntityTypes.Rpc (EntityTypes.DeleteEntityTypeRequest id)]).
Proof.
  cbv zeta.
  pose proof (proj2 (@remote_failure_surfaces_unchanged Fixtures.unreachable
                       Fixtures.wrapper
                       (Some "projects/p/locations/global/agents/a/entityTypes/e1")
                       None [] (EntityTypes.mkWorld None []) "global"
                       (RemoteError "unavailable")) eq_refl) as [Hg Hd].
  split; [exact (Hg eq_refl) | exact (Hd eq_refl eq_refl)].
Defined.

(** ** get_entities_map *)

Lemma dict_get_put {V} (d : list (string * V)) (key k : string) (v : V) :
  EntityTypes.dict_get (EntityTypes.dict_put d key v) k
  = if String.eqb key k then Some v else EntityTypes.dict_get d k.
Proof.
  induction d as [|[k0 x] d IH]; cbn [EntityTypes.dict_put EntityTypes.dict_get].
  - reflexivity.
  - destruct (String.eqb k0 key) eqn:E0; cbn [EntityTypes.dict_get].
    + apply String.eqb_eq in E0. subst k0.
      destruct (String.eqb key k); reflexivity.
    + destruct (String.eqb k0 k) eqn:E1.
      * apply String.eqb_eq in E1. subst k0.
        rewrite String.eqb_sym, E0. reflexivity.
      * exact IH.
Qed.

Lemma dict_of_list_lookup {A V} (kf : A -> string) (vf : A -> V) (k : string) :
  forall (l : list A),
    EntityTypes.dict_get
      (fold_left (fun d a => EntityTypes.dict_put d (kf a) (vf a)) l []) k
    = option_map vf (find_last (fun a => String.eqb (kf a) k) l).
Proof.
  induction l as [|a l IH] using rev_ind.
  - reflexivity.
  - rewrite fold_left_app. cbn [fold_left]. rewrite dict_get_put.
    unfold find_last in *. rewrite rev_app_distr. cbn [rev app find].
    destruct (String.eqb (kf a) k); [reflexivity | exact IH].
Qed.

Lemma find_last_unique {A} (kf : A -> string) (l : list A) (e : A) :
  NoDup (map kf l) -> In e l ->
  find_last (fun a => String.eqb (kf a) (kf e)) l = Some e.
Proof.
  unfold find_last. intros Hnd Hin.
  assert (Hnd' : NoDup (map kf (rev l))).
  { rewrite map_rev. apply NoDup_rev. exact Hnd. }
  apply in_rev in Hin. revert Hnd' Hin. generalize (rev l). clear l Hnd.
  induction l as [|a l IH]; intros Hnd Hin; [destruct Hin|].
  cbn [map] in Hnd. inversion Hnd as [|? ? Hnin Hnd']; subst.
  cbn [find]. destruct Hin as [-> | Hin].
  - rewrite String.eqb_refl. reflexivity.
  - destruct (String.eqb (kf a) (kf e)) eqn:E.
    + apply String.eqb_eq in E. exfalso. apply Hnin. rewrite E.
      apply in_map. exact Hin.
    + apply IH; assumption.
Qed.

Lemma get_entities_map_run (ext : EntityTypes.Externals)
    (self : EntityTypes.self_t) (agent_id : option string) (reverse : bool)
    (w : EntityTypes.world) (opts : string) (pages : list (list EntityType.t)) :
  let parent := or_default agent_id (EntityTypes.agent_id self) in
  EntityTypes._set_region ext parent = Ok opts ->
  EntityTypes.remote_list_entity_types ext parent = Ok pages ->
  fst (EntityTypes.get_entities_map ext self agent_id reverse w)
  = Ok (fold_left
          (fun d entity =>
             if reverse
             then EntityTypes.dict_put d (EntityType.display_name entity)
                    (EntityType.name entity)
             else EntityTypes.dict_put d (EntityType.name entity)
                    (EntityType.display_name entity))
          (List.concat pages) []).
Proof.
  cbv zeta. intros Hr Hl. unfold EntityTypes.get_entities_map. cbv zeta.
  fold (or_default agent_id (EntityTypes.agent_id self)).
  pose proof (list_entity_types_run ext self
                (or_default agent_id (EntityTypes.agent_id self)) w) as H.
  cbv zeta in H. rewrite or_default_idempotent, Hr, Hl in H.
  destruct reverse; unfold bind; rewrite H; reflexivity.
Qed.

(** X8.  [get_entities_map] maps every key to the value of the last listed
    entity type that carries the key: the resource name to the display name
    or, with [reverse], the display name to the resource name.  A key that
    no listed entity type carries is absent; of two entity types with the
    same key the later one wins. *)
Theorem get_entities_map_lookup
    (ext : EntityTypes.Externals) (self : EntityTypes.self_t)
    (agent_id : option string) (w : EntityTypes.world) (opts : string)
    (pages : list (list EntityType.t)) :
  let parent := or_default agent_id (EntityTypes.agent_id self) in
  EntityTypes._set_region ext parent = Ok opts ->
  EntityTypes.remote_list_entity_types ext parent = Ok pages ->
  exists by_name by_display_name,
    fst (EntityTypes.get_entities_map ext self agent_id false w) = Ok by_name
    /\ fst (EntityTypes.get_entities_map ext self agent_id true w)
       = Ok by_display_name
    /\ (forall k,
          EntityTypes.dict_get by_name k
          = option_map EntityType.display_name
              (find_last (fun e => String.eqb (EntityType.name e) k)
                         (List.concat pages)))
    /\ (forall k,
          EntityTypes.dict_get by_display_name k
          = option_map EntityType.name
              (find_last (fun e => String.eqb (EntityType.display_name e) k)
                         (List.concat pages))).
Proof.
  cbv zeta. intros Hr Hl.
  pose proof (get_entities_map_run ext self agent_id false w Hr Hl) as Hf.
  pose proof (get_entities_map_run ext self agent_id true w Hr Hl) as Hb.
  cbv zeta in Hf, Hb. cbn [negb] in Hf, Hb.
  eexists. eexists. split; [exact Hf|]. split; [exact Hb|].
  split; intros k; apply dict_of_list_lookup.
Qed.

Lemma get_entities_map_lookup_witness :
  let second := EntityType.with_display_name "colour" Fixtures.color in
  exists by_name,
    fst (EntityTypes.get_entities_map
           (Fixtures.listing [[Fixtures.color]; [second]]) Fixtures.wrapper
           None false (EntityTypes.mkWorld None []))
    = Ok by_name
    /\ EntityTypes.dict_get by_name (EntityType.name Fixtures.color)
       = Some "colour".
Proof.
  cbv zeta.
  destruct (@get_entities_map_lookup
              (Fixtures.listing
                 [[Fixtures.color];
                  [EntityType.with_display_name "colour" Fixtures.color]])
              Fixtures.wrapper None (EntityTypes.mkWorld None []) "global"
              [[Fixtures.color];
               [EntityType.with_display_name "colour" Fixtures.color]]
              eq_refl eq_refl)
    as (by_name & by_display & Hf & _ & Hlook & _).
  exists by_name. split; [exact Hf|]. rewrite Hlook. reflexivity.
Defined.

(** X9.  When the listed entity types have pairwise distinct resource names
    and pairwise distinct display names, the two maps of [get_entities_map]
    are inverse to each other on them: the map by name sends the name of
    each listed entity type to its display name, and the reversed map sends
    that display name back to the name. *)
Theorem get_entities_map_round_trip
    (ext : EntityTypes.Externals) (self : EntityTypes.self_t)
    (agent_id : option string) (w : EntityTypes.world) (opts : string)
    (pages : list (list EntityType.t)) :
  let parent := or_default agent_id (EntityTypes.agent_id self) in
  EntityTypes._set_region ext parent = Ok opts ->
  EntityTypes.remote_list_entity_types ext parent = Ok pages ->
  NoDup (map EntityType.name (List.concat pages)) ->
  NoDup (map EntityType.display_name (List.concat pages)) ->
  exists by_name by_display_name,
    fst (EntityTypes.get_entities_map ext self agent_id false w) = Ok by_name
    /\ fst (EntityTypes.get_entities_map ext self agent_id true w)
       = Ok by_display_name
    /\ forall e,
         In e (List.concat pages) ->
         EntityTypes.dict_get by_name (EntityType.name e)
         = Some (EntityType.display_name e)
         /\ EntityTypes.dict_get by_display_name (EntityType.display_name e)
            = Some (EntityType.name e).
Proof.
  cbv zeta. intros Hr Hl Hn Hd.
  pose proof (get_entities_map_run ext self agent_id false w Hr Hl) as Hf.
  pose proof (get_entities_map_run ext self agent_id true w Hr Hl) as Hb.
  cbv zeta in Hf, Hb. cbn [negb] in Hf, Hb.
  eexists. eexists. split; [exact Hf|]. split; [exact Hb|].
  intros e Hin. split.
  - rewrite dict_of_list_lookup, (find_last_unique _ _ _ Hn Hin). reflexivity.
  - rewrite dict_of_list_lookup, (find_last_unique _ _ _ Hd Hin). reflexivity.
Qed.

Lemma get_entities_map_round_trip_witness :
  let size := EntityType.mk "projects/p/locations/global/agents/a/entityTypes/e2"
                "size" 1 0 [] [] false false in
  exists by_name by_display_name,
    fst (EntityTypes.get_entities_map
           (Fixtures.listing [[Fixtures.color]; [size]]) Fixtures.wrapper
           None false (EntityTypes.mkWorld None []))
    = Ok by_name
    /\ fst (EntityTypes.get_entities_map
              (Fixtures.listing [[Fixtures.color]; [size]]) Fixtures.wrapper
              None true (EntityTypes.mkWorld None []))
       = Ok by_display_name
    /\ EntityTypes.dict_get by_name (EntityType.name size) = Some "size"
    /\ EntityTypes.dict_get by_display_name "size"
       = Some (EntityType.name size).
Proof.
  cbv zeta.
  set (size := EntityType.mk
                 "projects/p/locations/global/agents/a/entityTypes/e2"
                 "size" 1 0 [] [] false false).
  assert (Hn : NoDup (map EntityType.name
                        (List.concat [[Fixtures.color]; [size]]))).
  { cbn. repeat constructor; cbn; intuition discriminate. }
  assert (Hd : NoDup (map EntityType.display_name
                        (List.concat [[Fixtures.color]; [size]]))).
  { cbn. repeat constructor; cbn; intuition discriminate. }
  destruct (@get_entities_map_round_trip
              (Fixtures.listing [[Fixtures.color]; [size]])
              Fixtures.wrapper None (EntityTypes.mkWorld None []) "global"
              [[Fixtures.color]; [size]] eq_refl eq_refl Hn Hd)
    as (by_name & by_display & Hf & Hb & Hrt).
  exists by_name, by_display. split; [exact Hf|]. split; [exact Hb|].
  apply (Hrt size). cbn. right. left. reflexivity.
Defined.

(** ** entity_type_proto_to_dataframe, entity_types_to_df *)

Lemma add_entities_exact :
  forall entities df d,
    if existsb (fun entity => list_truthy (Entity.synonyms entity)) entities
    then EntityTypes.add_entities entities df d = Raise TypeError
    else exists d', EntityTypes.add_entities entities df d = Ok (df, d').
Proof.
  induction entities as [|entity rest IH]; intros df d.
  - cbn. exists d. reflexivity.
  - cbn [existsb EntityTypes.add_entities]. rewrite add_synonyms_cases.
    destruct (Entity.synonyms entity) as [|syn syns]; cbn [list_truthy orb rbind].
    + cbn [fst snd]. apply IH.
    + reflexivity.
Qed.

Lemma add_excluded_phrases_exact (phrases : list string) df d :
  EntityTypes.add_excluded_phrases phrases df d =
    match phrases with
    | [] => Ok df
    | _ :: _ => Raise TypeError
    end.
Proof. destruct phrases; reflexivity. Qed.

Lemma mode_neq (mode other : string) :
  mode <> other -> String.eqb mode other = false.
Proof. intros H. apply String.eqb_neq. exact H. Qed.

(** X10.  [entity_type_proto_to_dataframe] yields only empty frames.  In
    basic mode it returns the empty frame when no entity of the entity type
    has a synonym and raises [TypeError] (the dict handed to [pd.concat])
    otherwise; in advanced mode, for an entity type of a named kind, it
    returns two empty frames when there is neither a synonym nor an excluded
    phrase and raises [TypeError] otherwise; any other mode raises
    [ValueError]. *)
Theorem entity_type_proto_to_dataframe_outcomes (o : EntityType.t) :
  EntityTypes.entity_type_proto_to_dataframe o "basic"
  = (if has_synonym o then Raise TypeError
     else Ok (EntityTypes.BasicFrame pd.empty))
  /\ (forall kind,
        EntityTypes.kind_name (EntityType.kind o) = Ok kind ->
        EntityTypes.entity_type_proto_to_dataframe o "advanced"
        = (if has_synonym o || list_truthy (EntityType.excluded_phrases o)
           then Raise TypeError
           else Ok (EntityTypes.AdvancedFrames pd.empty pd.empty)))
  /\ (forall mode,
        mode <> "basic" -> mode <> "advanced" ->
        EntityTypes.entity_type_proto_to_dataframe o mode = Raise ValueError).
Proof.
  split; [|split].
  - unfold EntityTypes.entity_type_proto_to_dataframe,
      EntityTypes.entity_type_proto_to_dataframe_basic, has_synonym.
    cbn [String.eqb Ascii.eqb Bool.eqb andb].
    pose proof (add_entities_exact (EntityType.entities o) pd.empty
                  (pd.dict_set [] "display_name"
                     (PyStr (EntityType.display_name o)))) as H.
    destruct (existsb _ (EntityType.entities o)).
    + rewrite H. reflexivity.
    + destruct H as (d' & ->). reflexivity.
  - intros kind Hk.
    unfold EntityTypes.entity_type_proto_to_dataframe,
      EntityTypes.entity_type_proto_to_dataframe_advanced, has_synonym.
    cbn [String.eqb Ascii.eqb Bool.eqb andb]. rewrite Hk. cbn [rbind].
    match goal with
    | |- context [EntityTypes.add_entities ?es ?df ?d] =>
        pose proof (add_entities_exact es df d) as H
    end.
    destruct (existsb _ (EntityType.entities o)).
    + rewrite H. reflexivity.
    + destruct H as (d' & ->). cbn [rbind fst orb].
      rewrite add_excluded_phrases_exact.
      destruct (EntityType.excluded_phrases o); reflexivity.
  - intros mode Hb Ha. unfold EntityTypes.entity_type_proto_to_dataframe.
    rewrite (mode_neq Hb), (mode_neq Ha). reflexivity.
Qed.

Lemma entity_type_proto_to_dataframe_outcomes_witness :
  EntityTypes.entity_type_proto_to_dataframe Fixtures.color "advanced"
  = Raise TypeError
  /\ EntityTypes.entity_type_proto_to_dataframe Fixtures.color "full"
     = Raise ValueError.
Proof.
  pose proof (entity_type_proto_to_dataframe_outcomes Fixtures.color) as H.
  split.
  - exact (proj1 (proj2 H) _ eq_refl).
  - apply (proj2 (proj2 H)); discriminate.
Defined.

Lemma kind_name_raises (kind : Z) (x : exn) :
  EntityTypes.kind_name kind = Raise x -> x = AttributeError.
Proof.
  unfold EntityTypes.kind_name.
  repeat match goal with
         | |- (if ?c then _ else _) = _ -> _ => destruct c; [discriminate|]
         end.
  intros H. inversion H. reflexivity.
Qed.

Lemma entity_type_proto_to_dataframe_basic_exact (o : EntityType.t) :
  EntityTypes.entity_type_proto_to_dataframe_basic o
  = if has_synonym o then Raise TypeError else Ok pd.empty.
Proof.
  unfold EntityTypes.entity_type_proto_to_dataframe_basic, has_synonym.
  match goal with
  | |- context [EntityTypes.add_entities ?es ?df ?d] =>
      pose proof (add_entities_exact es df d) as H
  end.
  destruct (existsb _ (EntityType.entities o)).
  - rewrite H. reflexivity.
  - destruct H as (d' & ->). reflexivity.
Qed.

Lemma entity_type_proto_to_dataframe_advanced_exact (o : EntityType.t) :
  EntityTypes.entity_type_proto_to_dataframe_advanced o
  = if negb (kind_named o) then Raise AttributeError
    else if has_synonym o || list_truthy (EntityType.excluded_phrases o)
         then Raise TypeError
         else Ok (pd.empty, pd.empty).
Proof.
  unfold EntityTypes.entity_type_proto_to_dataframe_advanced, kind_named,
    has_synonym.
  destruct (EntityTypes.kind_name (EntityType.kind o)) as [kind|x] eqn:Ek;
    cbn [rbind negb].
  - match goal with
    | |- context [EntityTypes.add_entities ?es ?df ?d] =>
        pose proof (add_entities_exact es df d) as H
    end.
    destruct (existsb _ (EntityType.entities o)).
    + rewrite H. reflexivity.
    + destruct H as (d' & ->). cbn [rbind fst orb].
      rewrite add_excluded_phrases_exact.
      destruct (EntityType.excluded_phrases o); reflexivity.
  - rewrite (kind_name_raises _ Ek). reflexivity.
Qed.

Lemma collect_basic_exact (subset : option (list string)) :
  forall entity_types,
    EntityTypes.collect_basic subset entity_types pd.empty
    = if existsb has_synonym (kept subset entity_types)
      then Raise TypeError else Ok pd.empty.
Proof.
  induction entity_types as [|o rest IH]; [reflexivity|].
  cbn [EntityTypes.collect_basic]. unfold kept. cbn [filter].
  fold (kept subset rest).
  destruct (EntityTypes.skipped subset o); cbn [negb]; [exact IH|].
  cbn [existsb]. rewrite entity_type_proto_to_dataframe_basic_exact.
  destruct (has_synonym o); cbn [rbind orb]; [reflexivity|].
  rewrite concat_empty_frames. cbn [rbind]. exact IH.
Qed.

Lemma collect_advanced_exact (subset : option (list string)) :
  forall entity_types,
    EntityTypes.collect_advanced subset entity_types pd.empty pd.empty
    = Raise (advanced_exception (kept subset entity_types))
    \/ EntityTypes.collect_advanced subset entity_types pd.empty pd.empty
       = Ok (pd.empty, pd.empty)
       /\ advanced_exception (kept subset entity_types) = KeyError.
Proof.
  induction entity_types as [|o rest IH].
  - right. split; reflexivity.
  - cbn [EntityTypes.collect_advanced]. unfold kept. cbn [filter].
    fold (kept subset rest).
    destruct (EntityTypes.skipped subset o); cbn [negb]; [exact IH|].
    cbn [advanced_exception].
    rewrite entity_type_proto_to_dataframe_advanced_exact.
    destruct (negb (kind_named o)); [left; reflexivity|].
    destruct (has_synonym o || list_truthy (EntityType.excluded_phrases o));
      [left; reflexivity|].
    cbn [rbind fst snd]. rewrite concat_empty_frames. cbn [rbind]. exact IH.
Qed.

(** X11.  [entity_types_to_df] returns no table in any mode: every call
    ends in an exception, and which one is determined.  When the listing
    fails, it is the exception of the listing.  Otherwise, over the listed
    entity types that the subset filter does not skip: in basic mode
    [TypeError] (from [pd.concat] on a dict) when one of them has a synonym
    and [KeyError] (from [sort_values] on a frame without columns)
    otherwise; in advanced mode, going through them in order,
    [AttributeError] at the first whose kind is no member of the enum (from
    [obj.kind.name]) or [TypeError] at the first with a synonym or an
    excluded phrase, and [KeyError] (from [astype] on a frame without
    columns) when there is none of either; in any other mode
    [ValueError]. *)
Theorem entity_types_to_df_never_returns
    (ext : EntityTypes.Externals) (self : EntityTypes.self_t)
    (agent_id : option string) (mode : string)
    (subset : option (list string)) (w : EntityTypes.world) :
  fst (EntityTypes.entity_types_to_df ext self agent_id mode subset w)
  = match fst (EntityTypes.list_entity_types ext self agent_id w) with
    | Raise x => Raise x
    | Ok entity_types =>
        Raise (if String.eqb mode "basic"
               then basic_exception (kept subset entity_types)
               else if String.eqb mode "advanced"
                    then advanced_exception (kept subset entity_types)
                    else ValueError)
    end.
Proof.
  assert (Hlist :
    EntityTypes.list_entity_types ext self
      (or_default agent_id (EntityTypes.agent_id self)) w
    = EntityTypes.list_entity_types ext self agent_id w).
  { rewrite !list_entity_types_run. cbv zeta.
    rewrite or_default_idempotent. reflexivity. }
  unfold EntityTypes.entity_types_to_df. cbv zeta.
  fold (or_default agent_id (EntityTypes.agent_id self)).
  unfold bind at 1. rewrite Hlist.
  destruct (EntityTypes.list_entity_types ext self agent_id w)
    as [[entity_types | x] w']; cbn [fst]; [|reflexivity].
  destruct (String.eqb mode "basic").
  - unfold bind, lift, ret, basic_exception.
    rewrite collect_basic_exact.
    destruct (existsb has_synonym (kept subset entity_types));
      [reflexivity|].
    rewrite sort_values_empty. reflexivity.
  - destruct (String.eqb mode "advanced"); [|reflexivity].
    unfold bind, lift, ret.
    destruct (collect_advanced_exact subset entity_types) as [H | [H Hk]];
      rewrite H; [reflexivity|].
    cbn [fst]. rewrite Hk. reflexivity.
Qed.

(** X12.  [entity_types_to_df] checks its mode only after the listing: for
    a mode other than "basic" and "advanced" the entity types are first
    requested from the service, and only when the listing has come back
    does the call raise [ValueError]. *)
Theorem entity_types_to_df_lists_before_rejecting_mode
    (ext : EntityTypes.Externals) (self : EntityTypes.self_t)
    (agent_id : option string) (mode : string)
    (subset : option (list string)) (w : EntityTypes.world)
    (opts : string) (pages : list (list EntityType.t)) :
  let parent := or_default agent_id (EntityTypes.agent_id self) in
  mode <> "basic" -> mode <> "advanced" ->
  EntityTypes._set_region ext parent = Ok opts ->
  EntityTypes.remote_list_entity_types ext parent = Ok pages ->
  EntityTypes.entity_types_to_df ext self agent_id mode subset w
  = (Raise ValueError,
     EntityTypes.mkWorld (EntityTypes.obj w)
       (EntityTypes.trace w
        ++ [EntityTypes.NewClient opts;
            EntityTypes.Rpc (EntityTypes.ListEntityTypesRequest parent)])).
Proof.
  cbv zeta. intros Hb Ha Hr Hl.
  unfold EntityTypes.entity_types_to_df. cbv zeta.
  fold (or_default agent_id (EntityTypes.agent_id self)).
  pose proof (list_entity_types_run ext self
                (or_default agent_id (EntityTypes.agent_id self)) w) as H.
  cbv zeta in H. rewrite or_default_idempotent, Hr, Hl in H.
  unfold bind. rewrite H, (mode_neq Hb), (mode_neq Ha). reflexivity.
Qed.

Lemma entity_types_to_df_lists_before_rejecting_mode_witness :
  EntityTypes.entity_types_to_df (Fixtures.listing [[Fixtures.color]])
    Fixtures.wrapper None "full" None (EntityTypes.mkWorld None [])
  = (Raise ValueError,
     EntityTypes.mkWorld None
       [EntityTypes.NewClient "global";
        EntityTypes.Rpc (EntityTypes.ListEntityTypesRequest
                           (Some "projects/p/locations/global/agents/a"))]).
Proof.
  apply (@entity_types_to_df_lists_before_rejecting_mode
           (Fixtures.listing [[Fixtures.color]]) Fixtures.wrapper None "full"
           None (EntityTypes.mkWorld None []) "global" [[Fixtures.color]]);
    try discriminate; reflexivity.
Defined.

(** ** PageStats: routes, event handlers, repeated passes *)

Lemma count_transition_route_fold (leaf : LeafBuilders) :
  forall routes s,
    fold_left (PageStats.count_transition_route leaf) routes s
    = PageStats.mk (PageStats.page_proto_obj s) (PageStats.has_entry_fulfill s)
        (PageStats.parameters_count s)
        (PageStats.parameters_with_event_handler_count s)
        (PageStats.parameters_with_webhook_fulfill_count s)
        (PageStats.parameters_ratio s)
        (PageStats.transition_routes_count s)
        (PageStats.routes_with_fulfill_count s
         + count_if route_fulfilled routes)
        (PageStats.routes_with_webhook_fulfill_count s
         + count_if (route_webhooked leaf) routes)
        (PageStats.intent_routes_count s + count_if intent_only routes)
        (PageStats.cond_routes_count s + count_if condition_only routes)
        (PageStats.intent_and_cond_routes_count s
         + count_if intent_and_condition routes)
        (PageStats.event_handlers_count s)
        (PageStats.events_with_fulfill_count s)
        (PageStats.events_with_webhook_fulfill_count s)
        (PageStats.transition_route_groups_count s).
Proof.
  induction routes as [|tr rest IH]; intros s.
  - destruct s. unfold count_if. cbn -[Z.add]. f_equal; lia.
  - cbn [fold_left]. rewrite IH. unfold count_if. cbn [filter].
    unfold route_webhooked, route_fulfilled, intent_only, condition_only,
      intent_and_condition, has_intent, has_condition,
      PageStats.count_transition_route.
    destruct (Fulfillment.truthy (TransitionRoute.trigger_fulfillment tr)),
      (fb_has_webhook leaf (TransitionRoute.trigger_fulfillment tr)),
      (str_truthy (TransitionRoute.intent tr)),
      (str_truthy (TransitionRoute.condition tr));
      destruct s; cbn -[Z.of_nat Z.add]; f_equal; lia.
Qed.

Lemma count_event_handler_fold (leaf : LeafBuilders) :
  forall handlers s,
    fold_left (PageStats.count_event_handler leaf) handlers s
    = PageStats.mk (PageStats.page_proto_obj s) (PageStats.has_entry_fulfill s)
        (PageStats.parameters_count s)
        (PageStats.parameters_with_event_handler_count s)
        (PageStats.parameters_with_webhook_fulfill_count s)
        (PageStats.parameters_ratio s)
        (PageStats.transition_routes_count s)
        (PageStats.routes_with_fulfill_count s)
        (PageStats.routes_with_webhook_fulfill_count s)
        (PageStats.intent_routes_count s)
        (PageStats.cond_routes_count s)
        (PageStats.intent_and_cond_routes_count s)
        (PageStats.event_handlers_count s)
        (PageStats.events_with_fulfill_count s
         + count_if handler_fulfilled handlers)
        (PageStats.events_with_webhook_fulfill_count s
         + count_if (handler_webhooked leaf) handlers)
        (PageStats.transition_route_groups_count s).
Proof.
  induction handlers as [|eh rest IH]; intros s.
  - destruct s. unfold count_if. cbn -[Z.add]. f_equal; lia.
  - cbn [fold_left]. rewrite IH. unfold count_if. cbn [filter].
    unfold handler_fulfilled, handler_webhooked, PageStats.count_event_handler.
    destruct (Fulfillment.truthy (EventHandler.trigger_fulfillment eh)),
      (fb_has_webhook leaf (EventHandler.trigger_fulfillment eh));
      destruct s; cbn -[Z.of_nat Z.add]; f_equal; lia.
Qed.

Lemma count_parameter_fold_closed (leaf : LeafBuilders) :
  forall params s,
    fold_left (PageStats.count_parameter leaf) params s
    = PageStats.mk (PageStats.page_proto_obj s) (PageStats.has_entry_fulfill s)
        (PageStats.parameters_count s)
        (PageStats.parameters_with_event_handler_count s
         + count_if reprompted params)
        (PageStats.parameters_with_webhook_fulfill_count s
         + count_if (parameter_webhooked leaf) params)
        (PageStats.parameters_ratio s)
        (PageStats.transition_routes_count s)
        (PageStats.routes_with_fulfill_count s)
        (PageStats.routes_with_webhook_fulfill_count s)
        (PageStats.intent_routes_count s)
        (PageStats.cond_routes_count s)
        (PageStats.intent_and_cond_routes_count s)
        (PageStats.event_handlers_count s)
        (PageStats.events_with_fulfill_count s)
        (PageStats.events_with_webhook_fulfill_count s)
        (PageStats.transition_route_groups_count s).
Proof.
  induction params as [|param rest IH]; intros s.
  - destruct s. unfold count_if. cbn -[Z.add]. f_equal; lia.
  - cbn [fold_left]. rewrite IH. unfold count_if. cbn [filter].
    unfold reprompted, parameter_webhooked, PageStats.count_parameter.
    cbv zeta.
    destruct (list_truthy (FillBehavior.reprompt_event_handlers
                             (FormParameter.fill_behavior param))),
      (fb_has_webhook leaf
         (FillBehavior.initial_prompt_fulfillment
            (FormParameter.fill_behavior param)));
      destruct s; cbn -[Z.of_nat Z.add]; f_equal; lia.
Qed.

Lemma count_if_bounds {A} (f : A -> bool) (l : list A) :
  (0 <= count_if f l <= Z.of_nat (List.length l))%Z.
Proof.
  unfold count_if. pose proof (filter_length_le f l). lia.
Qed.

Lemma count_if_le {A} (f g : A -> bool) (l : list A) :
  (forall a, f a = true -> g a = true) ->
  (count_if f l <= count_if g l)%Z.
Proof.
  intros H. unfold count_if.
  induction l as [|a l IH]; cbn [filter]; [lia|].
  destruct (f a) eqn:Ef.
  - rewrite (H a Ef). cbn [List.length]. lia.
  - destruct (g a); cbn [List.length]; lia.
Qed.

Lemma count_if_guards (routes : list TransitionRoute.t) :
  (count_if intent_only routes + count_if condition_only routes
   + count_if intent_and_condition routes + count_if unguarded routes
   = Z.of_nat (List.length routes))%Z.
Proof.
  unfold count_if, intent_only, condition_only, intent_and_condition, unguarded.
  induction routes as [|tr rest IH]; [reflexivity|].
  cbn [filter].
  destruct (has_intent tr), (has_condition tr); cbn [andb negb List.length];
    lia.
Qed.

Lemma calc_transition_route_stats_closed (leaf : LeafBuilders) (s : PageStats.t) :
  let routes := Page.transition_routes (PageStats.page_proto_obj s) in
  PageStats.calc_transition_route_stats leaf s
  = PageStats.mk (PageStats.page_proto_obj s) (PageStats.has_entry_fulfill s)
      (PageStats.parameters_count s)
      (PageStats.parameters_with_event_handler_count s)
      (PageStats.parameters_with_webhook_fulfill_count s)
      (PageStats.parameters_ratio s)
      (Z.of_nat (List.length routes))
      (PageStats.routes_with_fulfill_count s + count_if route_fulfilled routes)
      (PageStats.routes_with_webhook_fulfill_count s
       + count_if (route_webhooked leaf) routes)
      (PageStats.intent_routes_count s + count_if intent_only routes)
      (PageStats.cond_routes_count s + count_if condition_only routes)
      (PageStats.intent_and_cond_routes_count s
       + count_if intent_and_condition routes)
      (PageStats.event_handlers_count s)
      (PageStats.events_with_fulfill_count s)
      (PageStats.events_with_webhook_fulfill_count s)
      (PageStats.transition_route_groups_count s).
Proof.
  cbv zeta. unfold PageStats.calc_transition_route_stats.
  rewrite count_transition_route_fold. destruct s; reflexivity.
Qed.

Lemma calc_event_handler_stats_closed (leaf : LeafBuilders) (s : PageStats.t) :
  let handlers := Page.event_handlers (PageStats.page_proto_obj s) in
  PageStats.calc_event_handler_stats leaf s
  = PageStats.mk (PageStats.page_proto_obj s) (PageStats.has_entry_fulfill s)
      (PageStats.parameters_count s)
      (PageStats.parameters_with_event_handler_count s)
      (PageStats.parameters_with_webhook_fulfill_count s)
      (PageStats.parameters_ratio s)
      (PageStats.transition_routes_count s)
      (PageStats.routes_with_fulfill_count s)
      (PageStats.routes_with_webhook_fulfill_count s)
      (PageStats.intent_routes_count s)
      (PageStats.cond_routes_count s)
      (PageStats.intent_and_cond_routes_count s)
      (Z.of_nat (List.length handlers))
      (PageStats.events_with_fulfill_count s
       + count_if handler_fulfilled handlers)
      (PageStats.events_with_webhook_fulfill_count s
       + count_if (handler_webhooked leaf) handlers)
      (PageStats.transition_route_groups_count s).
Proof.
  cbv zeta. unfold PageStats.calc_event_handler_stats.
  rewrite count_event_handler_fold. destruct s; reflexivity.
Qed.

Lemma calc_parameter_stats_closed (leaf : LeafBuilders) (s : PageStats.t) :
  let params := Form.parameters (Page.form (PageStats.page_proto_obj s)) in
  let with_handlers :=
    (PageStats.parameters_with_event_handler_count s
     + count_if reprompted params)%Z in
  PageStats.calc_parameter_stats leaf s
  = PageStats.mk (PageStats.page_proto_obj s) (PageStats.has_entry_fulfill s)
      (Z.of_nat (List.length params))
      with_handlers
      (PageStats.parameters_with_webhook_fulfill_count s
       + count_if (parameter_webhooked leaf) params)
      (if negb (Z.of_nat (List.length params) =? 0)%Z
       then true_div with_handlers (Z.of_nat (List.length params))
       else PageStats.parameters_ratio s)
      (PageStats.transition_routes_count s)
      (PageStats.routes_with_fulfill_count s)
      (PageStats.routes_with_webhook_fulfill_count s)
      (PageStats.intent_routes_count s)
      (PageStats.cond_routes_count s)
      (PageStats.intent_and_cond_routes_count s)
      (PageStats.event_handlers_count s)
      (PageStats.events_with_fulfill_count s)
      (PageStats.events_with_webhook_fulfill_count s)
      (PageStats.transition_route_groups_count s).
Proof.
  cbv zeta. unfold PageStats.calc_parameter_stats. cbv zeta.
  rewrite count_parameter_fold_closed. destruct s as [page ? ? ? ? ? ? ? ? ? ? ? ? ? ? ?].
  cbn [PageStats.page_proto_obj PageStats.parameters_count
       PageStats.set_parameters_count PageStats.has_entry_fulfill
       PageStats.parameters_with_event_handler_count
       PageStats.parameters_with_webhook_fulfill_count
       PageStats.parameters_ratio PageStats.transition_routes_count
       PageStats.routes_with_fulfill_count
       PageStats.routes_with_webhook_fulfill_count
       PageStats.intent_routes_count PageStats.cond_routes_count
       PageStats.intent_and_cond_routes_count PageStats.event_handlers_count
       PageStats.events_with_fulfill_count
       PageStats.events_with_webhook_fulfill_count
       PageStats.transition_route_groups_count].
  destruct (negb (Z.of_nat (List.length (Form.parameters (Page.form page))) =? 0)%Z);
    reflexivity.
Qed.

(** X13.  [calc_transition_route_stats] counts, it does not recompute: the
    route count is set to the number of routes of the page, and each of the
    five tallies grows by the number of routes of its kind (with a truthy
    trigger fulfillment; with one that also has a webhook; with an intent
    and no condition; with a condition and no intent; with both), on top of
    whatever the [PageStats] object held before the call. *)
Theorem calc_transition_route_stats_counts
    (leaf : LeafBuilders) (s : PageStats.t) :
  let routes := Page.transition_routes (PageStats.page_proto_obj s) in
  let s' := PageStats.calc_transition_route_stats leaf s in
  PageStats.transition_routes_count s' = Z.of_nat (List.length routes)
  /\ PageStats.routes_with_fulfill_count s'
     = (PageStats.routes_with_fulfill_count s
        + count_if route_fulfilled routes)%Z
  /\ PageStats.routes_with_webhook_fulfill_count s'
     = (PageStats.routes_with_webhook_fulfill_count s
        + count_if (route_webhooked leaf) routes)%Z
  /\ PageStats.intent_routes_count s'
     = (PageStats.intent_routes_count s + count_if intent_only routes)%Z
  /\ PageStats.cond_routes_count s'
     = (PageStats.cond_routes_count s + count_if condition_only routes)%Z
  /\ PageStats.intent_and_cond_routes_count s'
     = (PageStats.intent_and_cond_routes_count s
        + count_if intent_and_condition routes)%Z.
Proof.
  cbv zeta. rewrite calc_transition_route_stats_closed.
  cbn [PageStats.transition_routes_count PageStats.routes_with_fulfill_count
       PageStats.routes_with_webhook_fulfill_count
       PageStats.intent_routes_count PageStats.cond_routes_count
       PageStats.intent_and_cond_routes_count].
  split; [reflexivity|]. split; [reflexivity|]. split; [reflexivity|].
  split; [reflexivity|]. split; reflexivity.
Qed.

(** X14.  On a fresh [PageStats], the tallies of
    [calc_transition_route_stats] split the routes of the page: intent-only,
    condition-only and intent-and-condition routes, together with the routes
    that have neither an intent nor a condition (which no tally counts), add
    up to the route count; and the routes with a webhook fulfillment are
    among the routes with a fulfillment, which are among all routes. *)
Theorem transition_route_tallies_split_the_routes
    (leaf : LeafBuilders) (page : Page.t) :
  let s := PageStats.calc_transition_route_stats leaf (PageStats.init page) in
  (PageStats.intent_routes_count s + PageStats.cond_routes_count s
   + PageStats.intent_and_cond_routes_count s
   + count_if unguarded (Page.transition_routes page)
   = PageStats.transition_routes_count s)%Z
  /\ (0 <= PageStats.routes_with_webhook_fulfill_count s
      <= PageStats.routes_with_fulfill_count s)%Z
  /\ (PageStats.routes_with_fulfill_count s
      <= PageStats.transition_routes_count s)%Z.
Proof.
  cbv zeta. rewrite calc_transition_route_stats_closed.
  cbn [PageStats.transition_routes_count PageStats.routes_with_fulfill_count
       PageStats.routes_with_webhook_fulfill_count
       PageStats.intent_routes_count PageStats.cond_routes_count
       PageStats.intent_and_cond_routes_count PageStats.init
       PageStats.page_proto_obj].
  set (routes := Page.transition_routes page).
  pose proof (count_if_guards routes) as Hsplit.
  pose proof (count_if_bounds (route_webhooked leaf) routes) as Hw.
  pose proof (count_if_bounds route_fulfilled routes) as Hf.
  assert (Hwf : (count_if (route_webhooked leaf) routes
                 <= count_if route_fulfilled routes)%Z).
  { apply count_if_le. intros tr H. unfold route_webhooked in H.
    apply andb_prop in H. exact (proj1 H). }
  lia.
Qed.

(** X15.  [calc_event_handler_stats] sets the event-handler count to the
    number of event handlers of the page and adds to its two tallies the
    number of handlers with a truthy trigger fulfillment and the number of
    handlers whose fulfillment has a webhook (a handler is tested for the
    webhook whether or not its fulfillment is truthy); neither tally grows
    by more than the count. *)
Theorem calc_event_handler_stats_counts
    (leaf : LeafBuilders) (s : PageStats.t) :
  let handlers := Page.event_handlers (PageStats.page_proto_obj s) in
  let s' := PageStats.calc_event_handler_stats leaf s in
  PageStats.event_handlers_count s' = Z.of_nat (List.length handlers)
  /\ PageStats.events_with_fulfill_count s'
     = (PageStats.events_with_fulfill_count s
        + count_if handler_fulfilled handlers)%Z
  /\ PageStats.events_with_webhook_fulfill_count s'
     = (PageStats.events_with_webhook_fulfill_count s
        + count_if (handler_webhooked leaf) handlers)%Z
  /\ (PageStats.events_with_fulfill_count s
      <= PageStats.events_with_fulfill_count s'
      <= PageStats.events_with_fulfill_count s
         + PageStats.event_handlers_count s')%Z
  /\ (PageStats.events_with_webhook_fulfill_count s
      <= PageStats.events_with_webhook_fulfill_count s'
      <= PageStats.events_with_webhook_fulfill_count s
         + PageStats.event_handlers_count s')%Z.
Proof.
  cbv zeta. rewrite calc_event_handler_stats_closed.
  cbn [PageStats.event_handlers_count PageStats.events_with_fulfill_count
       PageStats.events_with_webhook_fulfill_count].
  split; [reflexivity|]. split; [reflexivity|]. split; [reflexivity|].
  pose proof (count_if_bounds handler_fulfilled
                (Page.event_handlers (PageStats.page_proto_obj s))).
  pose proof (count_if_bounds (handler_webhooked leaf)
                (Page.event_handlers (PageStats.page_proto_obj s))).
  lia.
Qed.

Lemma calc_parameter_stats_times_fields (leaf : LeafBuilders) (page : Page.t) :
  forall n,
    let params := Form.parameters (Page.form page) in
    let s := calc_parameter_stats_times leaf n (PageStats.init page) in
    PageStats.page_proto_obj s = page
    /\ PageStats.parameters_with_event_handler_count s
       = (Z.of_nat n * count_reprompted params)%Z
    /\ (params = [] -> PageStats.parameters_ratio s = PyInteger 0).
Proof.
  induction n as [|n IH]; cbv zeta.
  - cbn. split; [reflexivity|]. split; [reflexivity|]. reflexivity.
  - cbn [calc_parameter_stats_times]. cbv zeta in IH.
    destruct IH as (Hp & He & Hr).
    rewrite calc_parameter_stats_closed. cbv zeta.
    cbn [PageStats.page_proto_obj PageStats.parameters_with_event_handler_count
         PageStats.parameters_ratio].
    rewrite Hp, He. split; [reflexivity|]. split.
    + unfold count_reprompted, count_if. lia.
    + intros Hnil. rewrite Hnil. cbn [List.length Z.of_nat Z.eqb negb].
      apply Hr. exact Hnil.
Qed.

(** X16.  [calc_parameter_stats] accumulates over repeated calls on one
    [PageStats] object.  After [n + 1] calls the parameter count is still
    the number of form parameters, but the tally of parameters with reprompt
    event handlers has grown to [n + 1] times their number, and the ratio
    (the integer [0] for an empty form) is the float whose value is the
    quotient, as a rational number, of that tally by the count: it is the
    share of such parameters only after the first call. *)
Theorem calc_parameter_stats_accumulates
    (leaf : LeafBuilders) (page : Page.t) (n : nat) :
  let params := Form.parameters (Page.form page) in
  let s := calc_parameter_stats_times leaf (S n) (PageStats.init page) in
  PageStats.parameters_count s = Z.of_nat (List.length params)
  /\ PageStats.parameters_with_event_handler_count s
     = (Z.of_nat (S n) * count_reprompted params)%Z
  /\ match params with
     | [] => PageStats.parameters_ratio s = PyInteger 0
     | _ :: _ =>
         exists q,
           PageStats.parameters_ratio s = PyFloat q
           /\ (q == inject_Z (Z.of_nat (S n) * count_reprompted params)
                    / inject_Z (Z.of_nat (List.length params)))%Q
     end.
Proof.
  cbv zeta.
  destruct (calc_parameter_stats_times_fields leaf page (S n)) as (_ & He & Hr).
  cbv zeta in He, Hr. split; [|split; [exact He|]].
  - cbn [calc_parameter_stats_times].
    destruct (calc_parameter_stats_times_fields leaf page n) as (Hp & _ & _).
    cbv zeta in Hp. rewrite calc_parameter_stats_closed. cbv zeta.
    cbn [PageStats.parameters_count]. rewrite Hp. reflexivity.
  - destruct (Form.parameters (Page.form page)) as [|p ps] eqn:E.
    + apply Hr. reflexivity.
    + cbn [calc_parameter_stats_times] in *.
      destruct (calc_parameter_stats_times_fields leaf page n) as (Hp & Hn & _).
      cbv zeta in Hp, Hn.
      rewrite calc_parameter_stats_closed in *. cbv zeta in *.
      cbn [PageStats.parameters_ratio
           PageStats.parameters_with_event_handler_count] in *.
      rewrite Hp, E in *.
      assert (Hnz : (Z.of_nat (List.length (p :: ps)) =? 0)%Z = false).
      { apply Z.eqb_neq. cbn [List.length]. lia. }
      rewrite Hnz. cbn [negb]. rewrite He.
      apply true_div_quotient. cbn [List.length]. lia.
Qed.

(** X17.  The three passes of [generate_stats] are independent of their
    order: [calc_parameter_stats], [calc_transition_route_stats] and
    [calc_event_handler_stats] each read the page, write counters of their
    own and leave every other field of the [PageStats] object as it was, so
    any two of them commute, whatever the object held before. *)
Theorem page_stats_passes_commute (leaf : LeafBuilders) (s : PageStats.t) :
  PageStats.calc_transition_route_stats leaf
    (PageStats.calc_parameter_stats leaf s)
  = PageStats.calc_parameter_stats leaf
      (PageStats.calc_transition_route_stats leaf s)
  /\ PageStats.calc_event_handler_stats leaf
       (PageStats.calc_parameter_stats leaf s)
     = PageStats.calc_parameter_stats leaf
         (PageStats.calc_event_handler_stats leaf s)
  /\ PageStats.calc_event_handler_stats leaf
       (PageStats.calc_transition_route_stats leaf s)
     = PageStats.calc_transition_route_stats leaf
         (PageStats.calc_event_handler_stats leaf s).
Proof.
  rewrite !calc_transition_route_stats_closed, !calc_event_handler_stats_closed,
    !calc_parameter_stats_closed.
  destruct s. cbv zeta.
  cbn [PageStats.page_proto_obj PageStats.parameters_count
       PageStats.has_entry_fulfill
       PageStats.parameters_with_event_handler_count
       PageStats.parameters_with_webhook_fulfill_count
       PageStats.parameters_ratio PageStats.transition_routes_count
       PageStats.routes_with_fulfill_count
       PageStats.routes_with_webhook_fulfill_count
       PageStats.intent_routes_count PageStats.cond_routes_count
       PageStats.intent_and_cond_routes_count PageStats.event_handlers_count
       PageStats.events_with_fulfill_count
       PageStats.events_with_webhook_fulfill_count
       PageStats.transition_route_groups_count].
  split; [reflexivity|]. split; reflexivity.
Qed.

(** ** What a successful create installs *)

Lemma create_new_page_ok
    (display_name entry_fulfillment : pyval) (overwrite : bool)
    (self out s' : PageBuilder.builder) :
  PageBuilder.create_new_page display_name entry_fulfillment overwrite self
  = (Ok out, s') ->
  exists name seed,
    display_name = PyStr name /\ name <> ""
    /\ out = s' /\ s' = Some (fresh_page name seed)
    /\ (if truthy entry_fulfillment
        then entry_fulfillment = fulfillment_arg seed
        else seed = None)
    /\ (overwrite = true \/ PageBuilder.proto_obj_truthy self = false).
Proof.
  unfold PageBuilder.create_new_page, PageBuilder._create_new_proto_obj.
  unfold bind at 1, when at 1.
  destruct (PageBuilder.nonempty_str display_name) eqn:Hdn; cbn [negb];
    [|discriminate].
  unfold ret at 1. unfold bind at 1, when at 1.
  destruct (truthy entry_fulfillment
            && negb (isinstance entry_fulfillment TFulfillment)) eqn:Hef;
    [discriminate|].
  unfold ret at 1. unfold bind at 1, get at 1. unfold bind at 1, when at 1.
  destruct (PageBuilder.proto_obj_truthy self && negb overwrite) eqn:How;
    [discriminate|].
  unfold ret at 1. unfold bind at 1, get at 1.
  assert (Hbranch : overwrite || negb (PageBuilder.proto_obj_truthy self) = true).
  { destruct overwrite, (PageBuilder.proto_obj_truthy self);
      cbn in *; congruence. }
  rewrite Hbranch.
  assert (Hwhy : overwrite = true \/ PageBuilder.proto_obj_truthy self = false).
  { destruct overwrite; [left; reflexivity | right].
    destruct (PageBuilder.proto_obj_truthy self); [discriminate | reflexivity]. }
  unfold PageBuilder.nonempty_str in Hdn. apply andb_prop in Hdn.
  destruct Hdn as [Hdn Hstr].
  destruct display_name as [| | |name| | | | |]; try discriminate Hstr.
  assert (Hname : name <> "").
  { intros ->. discriminate Hdn. }
  destruct (truthy entry_fulfillment) eqn:Ht; cbn [negb].
  - destruct entry_fulfillment as [| | | |f| | | |]; try discriminate Hef.
    eff_unfold. cbn [Page_init proto_str proto_fulfillment rbind].
    intros H. inversion H.
    exists name, (Some f). repeat split; try assumption.
  - eff_unfold. cbn [Page_init proto_str proto_fulfillment rbind].
    intros H. inversion H.
    exists name, None. repeat split; try assumption.
Qed.

Lemma all_items_routes (l : list pyval) :
  forallb (fun tr => isinstance tr TTransitionRoute) l = true ->
  exists rs, l = map PyTransitionRoute rs.
Proof.
  induction l as [|v l IH]; intros H.
  - exists []. reflexivity.
  - cbn [forallb] in H. apply andb_prop in H. destruct H as [Hv Hl].
    destruct (IH Hl) as (rs & ->).
    destruct v; try discriminate Hv.
    exists (r :: rs). reflexivity.
Qed.

Lemma create_group_ok
    (display_name transition_routes : pyval) (overwrite : bool)
    (self out s' : TransitionRouteGroupBuilder.builder) :
  TransitionRouteGroupBuilder.create_new_transition_route_group
    display_name transition_routes overwrite self = (Ok out, s') ->
  exists name rs,
    display_name = PyStr name /\ name <> ""
    /\ out = s' /\ s' = Some (fresh_group name rs)
    /\ (if truthy transition_routes
        then transition_routes = routes_arg rs
             \/ exists r, transition_routes = PyTransitionRoute r /\ rs = [r]
        else rs = [])
    /\ (overwrite = true
        \/ TransitionRouteGroupBuilder.proto_obj_truthy self = false).
Proof.
  unfold TransitionRouteGroupBuilder.create_new_transition_route_group,
    TransitionRouteGroupBuilder._create_new_proto_obj.
  unfold bind at 1, when at 1.
  destruct (TransitionRouteGroupBuilder.nonempty_str display_name) eqn:Hdn;
    cbn [negb]; [|discriminate].
  unfold ret at 1. unfold bind at 1, when at 1.
  match goal with
  | |- (let (r, s0) := (if ?c then _ else _) _ in _) = _ -> _ =>
      destruct c eqn:Htr; [discriminate|]
  end.
  unfold ret at 1. unfold bind at 1, get at 1. unfold bind at 1, when at 1.
  destruct (TransitionRouteGroupBuilder.proto_obj_truthy self && negb overwrite)
    eqn:How; [discriminate|].
  unfold ret at 1. unfold bind at 1, get at 1.
  assert (Hbranch :
    overwrite || negb (TransitionRouteGroupBuilder.proto_obj_truthy self) = true).
  { destruct overwrite, (TransitionRouteGroupBuilder.proto_obj_truthy self);
      cbn in *; congruence. }
  rewrite Hbranch.
  assert (Hwhy : overwrite = true
                 \/ TransitionRouteGroupBuilder.proto_obj_truthy self = false).
  { destruct overwrite; [left; reflexivity | right].
    destruct (TransitionRouteGroupBuilder.proto_obj_truthy self);
      [discriminate | reflexivity]. }
  unfold TransitionRouteGroupBuilder.nonempty_str in Hdn. apply andb_prop in Hdn.
  destruct Hdn as [Hdn Hstr].
  destruct display_name as [| | |name| | | | |]; try discriminate Hstr.
  assert (Hname : name <> "").
  { intros ->. discriminate Hdn. }
  destruct (truthy transition_routes) eqn:Ht; cbn [negb andb] in *.
  - apply negb_false_iff in Htr. apply orb_prop in Htr.
    destruct Htr as [Hsingle | Hlist].
    + destruct transition_routes as [| | | | |r| | |]; try discriminate Hsingle.
      eff_unfold.
      cbn [isinstance negb TransitionRouteGroup_init proto_str proto_repeated
           all_transition_routes rbind].
      intros H. inversion H.
      exists name, [r]. repeat split; try assumption.
      right. exists r. split; reflexivity.
    + apply andb_prop in Hlist. destruct Hlist as [Hl Hall].
      destruct transition_routes as [| | | | | | |l|]; try discriminate Hl.
      unfold TransitionRouteGroupBuilder.all_routes in Hall.
      cbn [listify] in Hall.
      destruct (all_items_routes l Hall) as (rs & ->).
      eff_unfold.
      cbn [isinstance negb TransitionRouteGroup_init proto_str proto_repeated
           rbind].
      rewrite all_transition_routes_map. cbn [rbind].
      intros H. inversion H.
      exists name, rs. repeat split; try assumption.
      left. reflexivity.
  - eff_unfold.
    cbn [isinstance negb TransitionRouteGroup_init proto_str proto_repeated
         all_transition_routes rbind].
    intros H. inversion H.
    exists name, []. repeat split; try assumption.
Qed.

(** X18.  A call of [create_new_page] that succeeds always installs a
    fresh page, whatever the builder held: the display name is the
    non-empty string given, the entry fulfillment is the one given when it
    is truthy and the default [Fulfillment()] for every falsy argument
    ([None], an empty Fulfillment, or a falsy value of any other class,
    which the type check lets through), and the form, the routes, the event
    handlers and the route groups are empty.  The call can only succeed with
    [overwrite=True] or on a builder whose object is unset or falsy. *)
Theorem create_new_page_installs_fresh_page
    (display_name entry_fulfillment : pyval) (overwrite : bool)
    (self out s' : PageBuilder.builder) :
  PageBuilder.create_new_page display_name entry_fulfillment overwrite self
  = (Ok out, s') ->
  exists name seed,
    display_name = PyStr name /\ name <> ""
    /\ out = s' /\ s' = Some (fresh_page name seed)
    /\ (if truthy entry_fulfillment
        then entry_fulfillment = fulfillment_arg seed
        else seed = None)
    /\ (overwrite = true \/ PageBuilder.proto_obj_truthy self = false).
Proof. apply create_new_page_ok. Qed.

Lemma create_new_page_installs_fresh_page_witness :
  exists name seed,
    PyStr "Checkout" = PyStr name /\ name <> ""
    /\ Some (fresh_page "Checkout" None) = Some (fresh_page "Checkout" None)
    /\ Some (fresh_page "Checkout" None) = Some (fresh_page name seed)
    /\ (if truthy (PyList [])
        then PyList [] = fulfillment_arg seed
        else seed = None)
    /\ (true = true
        \/ PageBuilder.proto_obj_truthy (Some Fixtures.shop) = false).
Proof.
  exact (@create_new_page_installs_fresh_page
           (PyStr "Checkout") (PyList []) true (Some Fixtures.shop)
           (Some (fresh_page "Checkout" None))
           (Some (fresh_page "Checkout" None)) eq_refl).
Defined.

(** X19.  A call of [create_new_transition_route_group] that succeeds
    always installs a fresh group with the non-empty display name given and
    exactly the seed routes: the routes of the list given, the single route
    given when it is truthy, and no route at all for a falsy argument, which
    includes a single [TransitionRoute()] with no field set.  The call can
    only succeed with [overwrite=True] or on a builder whose object is unset
    or falsy. *)
Theorem create_new_transition_route_group_installs_fresh_group
    (display_name transition_routes : pyval) (overwrite : bool)
    (self out s' : TransitionRouteGroupBuilder.builder) :
  TransitionRouteGroupBuilder.create_new_transition_route_group
    display_name transition_routes overwrite self = (Ok out, s') ->
  exists name rs,
    display_name = PyStr name /\ name <> ""
    /\ out = s' /\ s' = Some (fresh_group name rs)
    /\ (if truthy transition_routes
        then transition_routes = routes_arg rs
             \/ exists r, transition_routes = PyTransitionRoute r /\ rs = [r]
        else rs = [])
    /\ (overwrite = true
        \/ TransitionRouteGroupBuilder.proto_obj_truthy self = false).
Proof. apply create_group_ok. Qed.

Lemma create_new_transition_route_group_installs_fresh_group_witness :
  exists name rs,
    PyStr "Routes" = PyStr name /\ name <> ""
    /\ Some (fresh_group "Routes" []) = Some (fresh_group "Routes" [])
    /\ Some (fresh_group "Routes" []) = Some (fresh_group name rs)
    /\ (if truthy (PyTransitionRoute TransitionRoute.default)
        then PyTransitionRoute TransitionRoute.default = routes_arg rs
             \/ exists r,
                  PyTransitionRoute TransitionRoute.default
                  = PyTransitionRoute r /\ rs = [r]
        else rs = [])
    /\ (false = true
        \/ TransitionRouteGroupBuilder.proto_obj_truthy None = false).
Proof.
  exact (@create_new_transition_route_group_installs_fresh_group
           (PyStr "Routes") (PyTransitionRoute TransitionRoute.default) false
           None (Some (fresh_group "Routes" []))
           (Some (fresh_group "Routes" [])) eq_refl).
Defined.

(** ** A named object stays named *)

Lemma preserves_readonly {S A} (I : S -> Prop) (m : Eff S A) :
  readonly m -> preserves I m.
Proof. intros Hm s Hs. rewrite (Hm s). exact Hs. Qed.

Lemma preserves_bind {S A B} (I : S -> Prop) (m : Eff S A) (k : A -> Eff S B) :
  preserves I m -> (forall a, preserves I (k a)) -> preserves I (bind m k).
Proof.
  intros Hm Hk s Hs. unfold bind. specialize (Hm s Hs).
  destruct (m s) as [[a|e] s1]; cbn [snd] in *.
  - apply Hk. exact Hm.
  - exact Hm.
Qed.

Lemma preserves_update_page (f : Page.t -> Page.t) :
  (forall p, Page.display_name (f p) = Page.display_name p) ->
  preserves page_named (BuildersCommon.update_proto_obj f).
Proof.
  intros Hf s (p & -> & Hn). cbn. exists (f p). split; [reflexivity|].
  rewrite Hf. exact Hn.
Qed.

Lemma preserves_update_group
    (f : TransitionRouteGroup.t -> TransitionRouteGroup.t) :
  (forall g, TransitionRouteGroup.display_name (f g)
             = TransitionRouteGroup.display_name g) ->
  preserves group_named (BuildersCommon.update_proto_obj f).
Proof.
  intros Hf s (g & -> & Hn). cbn. exists (f g). split; [reflexivity|].
  rewrite Hf. exact Hn.
Qed.

Ltac solve_preserves :=
  cbv zeta;
  first
    [ solve [apply preserves_readonly; solve_readonly]
    | apply preserves_update_page; intros []; reflexivity
    | apply preserves_update_group; intros []; reflexivity
    | apply preserves_bind; [solve_preserves | intros; solve_preserves]
    | match goal with
      | |- preserves _ (if ?c then _ else _) => destruct c; solve_preserves
      end ].

Lemma page_call_keeps_named (leaf : LeafBuilders) (c : PageBuilder.call) :
  preserves page_named (PageBuilder.run leaf c).
Proof.
  destruct c; cbn [PageBuilder.run];
    try (unfold PageBuilder.set_entry_fulfillment, PageBuilder.add_parameter,
           PageBuilder.add_transition_route, PageBuilder.add_event_handler,
           PageBuilder.add_transition_route_group, PageBuilder.remove_parameter,
           PageBuilder.remove_transition_route, PageBuilder.remove_event_handler,
           PageBuilder.remove_transition_route_group;
         solve_preserves).
  intros s Hs.
  destruct (PageBuilder.create_new_page display_name entry_fulfillment
              overwrite s) as [[out|e] s'] eqn:E; cbn [snd].
  - destruct (create_new_page_ok _ _ _ _ E) as (name & seed & _ & Hn & _ & -> & _).
    exists (fresh_page name seed). split; [reflexivity | exact Hn].
  - pose proof (@page_call_failsafe leaf
                  (PageBuilder.CreateNewPage display_name entry_fulfillment
                     overwrite) s e s' E) as ->.
    exact Hs.
Qed.

Lemma group_call_keeps_named (leaf : LeafBuilders)
    (c : TransitionRouteGroupBuilder.call) :
  preserves group_named (TransitionRouteGroupBuilder.run leaf c).
Proof.
  destruct c; cbn [TransitionRouteGroupBuilder.run];
    try (unfold TransitionRouteGroupBuilder.add_transition_route,
           TransitionRouteGroupBuilder.remove_transition_route;
         solve_preserves).
  intros s Hs.
  destruct (TransitionRouteGroupBuilder.create_new_transition_route_group
              display_name transition_routes overwrite s)
    as [[out|e] s'] eqn:E; cbn [snd].
  - destruct (create_group_ok _ _ _ _ E) as (name & rs & _ & Hn & _ & -> & _).
    exists (fresh_group name rs). split; [reflexivity | exact Hn].
  - pose proof (@group_call_failsafe leaf
                  (TransitionRouteGroupBuilder.CreateNewTransitionRouteGroup
                     display_name transition_routes overwrite) s e s' E) as ->.
    exact Hs.
Qed.

(** X20.  Once a builder holds an object with a non-empty display name, it
    holds one after every sequence of calls, failed calls included: no
    operation of [PageBuilder] or [TransitionRouteGroupBuilder] unsets the
    held object or empties its display name, and a create call that
    overwrites installs an object that is named again. *)
Theorem named_object_stays_named
    (leaf : LeafBuilders) (cs : list PageBuilder.call)
    (gcs : list TransitionRouteGroupBuilder.call)
    (self : PageBuilder.builder) (gself : TransitionRouteGroupBuilder.builder) :
  page_named self -> group_named gself ->
  page_named (PageBuilder.run_all leaf cs self)
  /\ group_named (group_run_all leaf gcs gself).
Proof.
  intros Hp Hg. split.
  - revert self Hp. induction cs as [|c cs IH]; intros self Hp; [exact Hp|].
    cbn [PageBuilder.run_all]. apply IH. apply page_call_keeps_named. exact Hp.
  - revert gself Hg. induction gcs as [|c gcs IH]; intros gself Hg; [exact Hg|].
    cbn [group_run_all]. apply IH. apply group_call_keeps_named. exact Hg.
Qed.

Lemma named_object_stays_named_witness :
  page_named
    (PageBuilder.run_all SpecLeaf.leaf
       [PageBuilder.RemoveParameter (PyStr "email");
        PageBuilder.CreateNewPage (PyStr "") PyNone true;
        PageBuilder.CreateNewPage (PyStr "Checkout") PyNone true]
       (Some Fixtures.shop))
  /\ group_named
       (group_run_all SpecLeaf.leaf
          [TransitionRouteGroupBuilder.RemoveTransitionRoute
             PyNone (PyStr "intents/buy") PyNone]
          (Some Fixtures.shop_routes)).
Proof.
  apply named_object_stays_named.
  - exists Fixtures.shop. split; [reflexivity | discriminate].
  - exists Fixtures.shop_routes. split; [reflexivity | discriminate].
Defined.

Lemma all_items_handlers (l : list pyval) :
  forallb (fun eh => isinstance eh TEventHandler) l = true ->
  exists ehs, l = map PyEventHandler ehs.
Proof.
  induction l as [|v l IH]; intros H.
  - exists []. reflexivity.
  - cbn [forallb] in H. apply andb_prop in H. destruct H as [Hv Hl].
    destruct (IH Hl) as (ehs & ->).
    destruct v; try discriminate Hv.
    exists (e :: ehs). reflexivity.
Qed.

Lemma all_event_handlers_map (ehs : list EventHandler.t) :
  all_event_handlers (map PyEventHandler ehs) = Ok ehs.
Proof.
  induction ehs as [|e ehs IH]; [reflexivity|].
  cbn [map all_event_handlers]. rewrite IH. reflexivity.
Qed.

Lemma add_parameter_stored
    (display_name entity_type initial_prompt_fulfillment required
     default_value is_list redact reprompt_event_handlers : pyval)
    (p : Page.t) (out s' : PageBuilder.builder) :
  PageBuilder.add_parameter display_name entity_type
    initial_prompt_fulfillment required default_value is_list redact
    reprompt_event_handlers (Some p) = (Ok out, s') ->
  exists name entity prompt req lst red handlers default,
    display_name = PyStr name /\ name <> ""
    /\ entity_type = PyStr entity /\ entity <> ""
    /\ initial_prompt_fulfillment = PyFulfillment prompt
    /\ Fulfillment.truthy prompt = true
    /\ required = PyBool req /\ is_list = PyBool lst /\ redact = PyBool red
    /\ (reprompt_event_handlers = PyNone /\ handlers = []
        \/ reprompt_event_handlers = handlers_arg handlers
        \/ exists eh, reprompt_event_handlers = PyEventHandler eh
                     /\ handlers = [eh])
    /\ (if req then default = None
        else exists v, default_value = PyStr v /\ default = Some v)
    /\ out = s'
    /\ s' = Some (Page.with_parameters
                    (Form.parameters (Page.form p)
                     ++ [FormParameter.mk name req entity lst
                           (FillBehavior.mk prompt handlers) default red]) p).
Proof.
  unfold PageBuilder.add_parameter. rewrite bind_check_some.
  unfold bind at 1, when at 1.
  destruct (PageBuilder.nonempty_str display_name) eqn:Hdn; cbn [negb];
    [|discriminate].
  unfold ret at 1. unfold bind at 1, when at 1.
  destruct (PageBuilder.nonempty_str entity_type) eqn:Het; cbn [negb];
    [|discriminate].
  unfold ret at 1. unfold bind at 1, when at 1.
  destruct (truthy initial_prompt_fulfillment
            && isinstance initial_prompt_fulfillment TFulfillment) eqn:Hipf;
    cbn [negb]; [|discriminate].
  unfold ret at 1. unfold bind at 1, when at 1.
  destruct (isinstance required TBool && isinstance is_list TBool
            && isinstance redact TBool) eqn:Hb; cbn [negb]; [|discriminate].
  unfold ret at 1.
  unfold PageBuilder.nonempty_str in Hdn, Het.
  apply andb_prop in Hdn, Het, Hipf, Hb.
  destruct Hdn as [Hdn Hdn'], Het as [Het Het'], Hipf as [Hipf Hipf'],
    Hb as [Hb Hrd].
  apply andb_prop in Hb. destruct Hb as [Hrq Hil].
  destruct display_name as [| | |name| | | | |]; try discriminate Hdn'.
  destruct entity_type as [| | |entity| | | | |]; try discriminate Het'.
  destruct initial_prompt_fulfillment as [| | | |prompt| | | |];
    try discriminate Hipf'.
  destruct required as [|req| | | | | | |]; try discriminate Hrq.
  destruct is_list as [|lst| | | | | | |]; try discriminate Hil.
  destruct redact as [|red| | | | | | |]; try discriminate Hrd.
  assert (Hname : name <> "") by (intros ->; discriminate Hdn).
  assert (Hentity : entity <> "") by (intros ->; discriminate Het).
  clear Hdn Hdn' Het Het' Hipf' Hrq Hil Hrd.
  assert (Hparam :
    forall (reh0 : pyval) (handlers : list EventHandler.t),
      proto_repeated all_event_handlers reh0 = Ok handlers ->
      (reprompt_event_handlers = PyNone /\ handlers = []
       \/ reprompt_event_handlers = handlers_arg handlers
       \/ exists eh, reprompt_event_handlers = PyEventHandler eh
                     /\ handlers = [eh]) ->
      (the_param <-
         (if req
          then lift (FormParameter_init (PyStr name) (PyBool req)
                       (PyStr entity) (PyBool lst) (PyBool red) PyNone)
          else when (negb (isinstance default_value TStr)) (raise ValueError) ;;;
               lift (FormParameter_init (PyStr name) (PyBool req)
                       (PyStr entity) (PyBool lst) (PyBool red) default_value)) ;;
       fill_behavior <-
         lift (FillBehavior_init (PyFulfillment prompt) reh0) ;;
       BuildersCommon.update_proto_obj
         (fun p0 : Page.t =>
            Page.with_parameters
              (Form.parameters (Page.form p0)
               ++ [FormParameter.with_fill_behavior fill_behavior the_param])
              p0) ;;;
       get) (Some p) = (Ok out, s') ->
      exists name0 entity0 prompt0 req0 lst0 red0 handlers0 default,
        PyStr name = PyStr name0 /\ name0 <> ""
        /\ PyStr entity = PyStr entity0 /\ entity0 <> ""
        /\ PyFulfillment prompt = PyFulfillment prompt0
        /\ Fulfillment.truthy prompt0 = true
        /\ PyBool req = PyBool req0 /\ PyBool lst = PyBool lst0
        /\ PyBool red = PyBool red0
        /\ (reprompt_event_handlers = PyNone /\ handlers0 = []
            \/ reprompt_event_handlers = handlers_arg handlers0
            \/ exists eh, reprompt_event_handlers = PyEventHandler eh
                          /\ handlers0 = [eh])
        /\ (if req0 then default = None
            else exists v, default_value = PyStr v /\ default = Some v)
        /\ out = s'
        /\ s' = Some (Page.with_parameters
                        (Form.parameters (Page.form p)
                         ++ [FormParameter.mk name0 req0 entity0 lst0
                               (FillBehavior.mk prompt0 handlers0) default red0])
                        p)).
  { intros reh0 handlers Hrep Hshape.
    unfold FillBehavior_init. cbn [proto_fulfillment rbind]. rewrite Hrep.
    cbn [rbind].
    destruct req.
    - eff_unfold. cbn. intros H. inversion H.
      exists name, entity, prompt, true, lst, red, handlers, None.
      repeat split; try assumption; reflexivity.
    - destruct default_value as [| | |v| | | | |];
        try (eff_unfold; cbn; discriminate).
      eff_unfold. cbn. intros H. inversion H.
      exists name, entity, prompt, false, lst, red, handlers, (Some v).
      repeat split; try assumption; try reflexivity.
      exists v. split; reflexivity. }
  unfold bind at 1.
  destruct (truthy reprompt_event_handlers) eqn:Ht.
  - unfold bind at 1, BuildersCommon._is_type_or_list_of_types, when at 1.
    destruct (BuildersCommon.is_type_or_list_of_types reprompt_event_handlers
                TEventHandler) eqn:Hty; cbn [negb]; [|discriminate].
    unfold ret at 1 2.
    unfold BuildersCommon.is_type_or_list_of_types in Hty.
    apply orb_prop in Hty. destruct Hty as [Hty | Hty].
    + destruct reprompt_event_handlers as [| | | | | |eh| |];
        try discriminate Hty.
      cbn [isinstance negb].
      apply (Hparam _ [eh]); [reflexivity|].
      right. right. exists eh. split; reflexivity.
    + destruct reprompt_event_handlers as [| | | | | | |l|];
        try discriminate Hty.
      destruct (all_items_handlers l Hty) as (ehs & ->).
      cbn [isinstance negb].
      apply (Hparam _ ehs).
      * cbn [proto_repeated]. apply all_event_handlers_map.
      * right. left. reflexivity.
  - unfold ret at 1.
    destruct reprompt_event_handlers as [| | | | | | |l|].
    1: { apply (Hparam _ []); [reflexivity|]. left. split; reflexivity. }
    7: { destruct l; [|discriminate Ht].
         apply (Hparam _ []); [reflexivity|]. right. left. reflexivity. }
    all: unfold FillBehavior_init;
      cbn [proto_fulfillment proto_repeated rbind];
      destruct req;
        [ eff_unfold; cbn; discriminate
        | destruct default_value; eff_unfold; cbn; discriminate ].
Qed.



(** X22.  The default value of [add_parameter] counts only for a parameter
    that is not required.  With [required=True] the argument is ignored: the
    call behaves as if it had not been passed.  With [required=False] an
    argument that is not a string makes the call raise [ValueError] and
    leave the page as it was; this includes [None], the default of the
    argument, so a parameter that is not required cannot be added without a
    default value. *)
Theorem add_parameter_default_value
    (display_name entity_type initial_prompt_fulfillment default_value
     is_list redact reprompt_event_handlers : pyval) (p : Page.t) :
  PageBuilder.add_parameter display_name entity_type
    initial_prompt_fulfillment (PyBool true) default_value is_list redact
    reprompt_event_handlers (Some p)
  = PageBuilder.add_parameter display_name entity_type
      initial_prompt_fulfillment (PyBool true) PyNone is_list redact
      reprompt_event_handlers (Some p)
  /\ (isinstance default_value TStr = false ->
      PageBuilder.add_parameter display_name entity_type
        initial_prompt_fulfillment (PyBool false) default_value is_list redact
        reprompt_event_handlers (Some p)
      = (Raise ValueError, Some p)).
Proof.
  split; [reflexivity|].
  intros Hdv. unfold PageBuilder.add_parameter. eff_unfold.
  cbn [truthy]. rewrite Hdv. cbn [negb].
  repeat match goal with
         | |- context [if ?c then _ else _] => destruct c
         end; reflexivity.
Qed.

Lemma add_parameter_default_value_witness :
  PageBuilder.add_parameter (PyStr "zip") (PyStr "sys.zip-code")
    (PyFulfillment Fixtures.prompt) (PyBool false) PyNone (PyBool false)
    (PyBool false) PyNone (Some Fixtures.shop)
  = (Raise ValueError, Some Fixtures.shop).
Proof.
  apply (@add_parameter_default_value
           (PyStr "zip") (PyStr "sys.zip-code") (PyFulfillment Fixtures.prompt)
           PyNone (PyBool false) (PyBool false) PyNone Fixtures.shop).
  reflexivity.
Defined.

(** ** Removing by name *)

Lemma filter_idem {A} (f : A -> bool) (l : list A) :
  filter f (filter f l) = filter f l.
Proof.
  induction l as [|a l IH]; [reflexivity|].
  cbn [filter]. destruct (f a) eqn:Ef; [|exact IH].
  cbn [filter]. rewrite Ef, IH. reflexivity.
Qed.

Lemma remove_parameter_run (display_name : pyval) (p : Page.t) :
  PageBuilder.remove_parameter display_name (Some p)
  = if negb (truthy display_name)
       || negb (BuildersCommon.is_type_or_list_of_types display_name TStr)
    then (Raise ValueError, Some p)
    else returns
           (Page.with_parameters
              (filter (fun param =>
                         negb (BuildersCommon.str_in
                                 (FormParameter.display_name param)
                                 (if negb (isinstance display_name TList)
                                  then [display_name]
                                  else listify display_name)))
                      (Form.parameters (Page.form p))) p).
Proof.
  unfold PageBuilder.remove_parameter. eff_unfold.
  destruct (truthy display_name); cbn [negb orb]; [|reflexivity].
  destruct (BuildersCommon.is_type_or_list_of_types display_name TStr);
    reflexivity.
Qed.

Lemma remove_group_run (transition_route_groups : pyval) (p : Page.t) :
  PageBuilder.remove_transition_route_group transition_route_groups (Some p)
  = if negb (BuildersCommon.is_type_or_list_of_types transition_route_groups
               TStr)
    then (Raise ValueError, Some p)
    else returns
           (Page.with_transition_route_groups
              (filter (fun trg =>
                         negb (BuildersCommon.str_in trg
                                 (if negb (isinstance transition_route_groups
                                             TList)
                                  then [transition_route_groups]
                                  else listify transition_route_groups)))
                      (Page.transition_route_groups p)) p).
Proof.
  unfold PageBuilder.remove_transition_route_group. eff_unfold.
  destruct (BuildersCommon.is_type_or_list_of_types transition_route_groups
              TStr); reflexivity.
Qed.

(** X23.  Removing by name is idempotent.  A second call of
    [remove_parameter], or of [remove_transition_route_group], with the same
    argument right after the first has the outcome of the first and leaves
    the builder as the first left it: what a successful call removed is
    gone, so the repeated call finds nothing more to remove, and a call that
    raised is refused again for the same reason. *)
Theorem remove_by_name_is_idempotent (v : pyval) (self : PageBuilder.builder) :
  PageBuilder.remove_parameter v (snd (PageBuilder.remove_parameter v self))
  = PageBuilder.remove_parameter v self
  /\ PageBuilder.remove_transition_route_group v
       (snd (PageBuilder.remove_transition_route_group v self))
     = PageBuilder.remove_transition_route_group v self.
Proof.
  destruct self as [p|]; [|split; reflexivity].
  split.
  - rewrite remove_parameter_run.
    destruct (negb (truthy v)
              || negb (BuildersCommon.is_type_or_list_of_types v TStr)) eqn:E;
      cbn [snd returns].
    + rewrite remove_parameter_run, E. reflexivity.
    + unfold returns. cbn [snd]. rewrite remove_parameter_run, E.
      unfold returns. destruct p as [? ? ? [params] ? ? ?].
      cbn [Page.with_parameters Page.form Form.parameters Page.name
           Page.display_name Page.entry_fulfillment
           Page.transition_route_groups Page.transition_routes
           Page.event_handlers].
      rewrite filter_idem. reflexivity.
  - rewrite remove_group_run.
    destruct (negb (BuildersCommon.is_type_or_list_of_types v TStr)) eqn:E;
      cbn [snd returns].
    + rewrite remove_group_run, E. reflexivity.
    + unfold returns. cbn [snd]. rewrite remove_group_run, E.
      unfold returns. destruct p as [? ? ? ? groups ? ?].
      cbn [Page.with_transition_route_groups Page.form Page.name
           Page.display_name Page.entry_fulfillment
           Page.transition_route_groups Page.transition_routes
           Page.event_handlers].
      rewrite filter_idem. reflexivity.
Qed.

Lemma name_in_true (names : list string) (s : string) :
  In s names -> name_in names s = true.
Proof.
  intros H. unfold name_in. apply existsb_exists. exists s.
  split; [exact H | apply String.eqb_refl].
Qed.

Lemma name_in_false (names : list string) (s : string) :
  ~ In s names -> name_in names s = false.
Proof.
  intros H. unfold name_in. destruct (existsb (String.eqb s) names) eqn:E;
    [|reflexivity].
  apply existsb_exists in E. destruct E as (x & Hx & Heq).
  apply String.eqb_eq in Heq. subst x. contradiction.
Qed.

Lemma all_strs_map (names : list string) :
  all_strs (map PyStr names) = Ok names.
Proof.
  induction names as [|n names IH]; [reflexivity|].
  cbn [map all_strs]. rewrite IH. reflexivity.
Qed.

Lemma add_group_names (p : Page.t) (names : list string) :
  PageBuilder.add_transition_route_group (names_arg names) (Some p)
  = returns (Page.with_transition_route_groups
               (Page.transition_route_groups p ++ names) p).
Proof.
  unfold PageBuilder.add_transition_route_group.
  pose proof (names_arg_is_strs names) as Hty.
  eff_unfold. rewrite Hty. cbn [negb isinstance names_arg proto_repeated].
  rewrite all_strs_map. reflexivity.
Qed.

(** X24.  [add_transition_route_group] and [remove_transition_route_group]
    are an inverse pair: adding a list of route-group ids of which none is
    on the page yet appends them, in order, after the ids already there,
    and removing the same list afterwards gives back exactly the page as it
    was before the add. *)
Theorem add_then_remove_transition_route_group
    (p : Page.t) (names : list string) :
  (forall n, In n names -> ~ In n (Page.transition_route_groups p)) ->
  exists p',
    PageBuilder.add_transition_route_group (names_arg names) (Some p)
    = returns p'
    /\ Page.transition_route_groups p'
       = Page.transition_route_groups p ++ names
    /\ PageBuilder.remove_transition_route_group (names_arg names) (Some p')
       = returns p.
Proof.
  intros Hnew.
  exists (Page.with_transition_route_groups
            (Page.transition_route_groups p ++ names) p).
  split; [apply add_group_names|]. split; [reflexivity|].
  rewrite remove_group_names. unfold returns.
  destruct p as [? ? ? ? groups ? ?].
  cbn [Page.with_transition_route_groups Page.form Page.name
       Page.display_name Page.entry_fulfillment
       Page.transition_route_groups Page.transition_routes
       Page.event_handlers] in *.
  rewrite filter_app_appended; [reflexivity| |].
  - intros y Hy. rewrite name_in_false; [reflexivity|].
    intros Hin. exact (Hnew y Hin Hy).
  - intros y Hy. rewrite (name_in_true _ _ Hy). reflexivity.
Qed.

Lemma add_then_remove_transition_route_group_witness :
  exists p',
    PageBuilder.add_transition_route_group
      (names_arg ["groups/faq"; "groups/exit"]) (Some Fixtures.shop)
    = returns p'
    /\ Page.transition_route_groups p'
       = Page.transition_route_groups Fixtures.shop
         ++ ["groups/faq"; "groups/exit"]
    /\ PageBuilder.remove_transition_route_group
         (names_arg ["groups/faq"; "groups/exit"]) (Some p')
       = returns Fixtures.shop.
Proof.
  apply (@add_then_remove_transition_route_group Fixtures.shop
           ["groups/faq"; "groups/exit"]).
  intros n Hn Hin. cbn in Hn, Hin.
  destruct Hn as [<- | [<- | []]];
    destruct Hin as [H | [H | []]]; discriminate H.
Defined.

(** X25.  [add_parameter] and [remove_parameter] are an inverse pair: when
    [add_parameter] succeeds with a display name that no parameter of the
    form carries yet, [remove_parameter] called with that display name
    afterwards succeeds and gives back exactly the page as it was before the
    add. *)
Theorem add_then_remove_parameter
    (display_name entity_type initial_prompt_fulfillment required
     default_value is_list redact reprompt_event_handlers : pyval)
    (p : Page.t) (out s' : PageBuilder.builder) :
  PageBuilder.add_parameter display_name entity_type
    initial_prompt_fulfillment required default_value is_list redact
    reprompt_event_handlers (Some p) = (Ok out, s') ->
  (forall name, display_name = PyStr name ->
                ~ In name (PageBuilder.parameter_names p)) ->
  PageBuilder.remove_parameter display_name s' = returns p.
Proof.
  intros Hadd Hnew.
  destruct (add_parameter_stored _ _ _ _ _ _ _ _ _ Hadd)
    as (name & entity & prompt & req & lst & red & handlers & default
        & -> & Hname & _ & _ & _ & _ & _ & _ & _ & _ & _ & _ & ->).
  specialize (Hnew name eq_refl).
  rewrite (remove_parameter_name _ Hname). unfold returns.
  destruct p as [? ? ? [params] ? ? ?].
  cbn [Page.with_parameters Page.form Form.parameters Page.name
       Page.display_name Page.entry_fulfillment
       Page.transition_route_groups Page.transition_routes
       Page.event_handlers] in *.
  unfold PageBuilder.parameter_names in Hnew.
  cbn [Page.form Form.parameters] in Hnew.
  rewrite filter_app_appended; [reflexivity| |].
  - intros y Hy. rewrite name_in_false; [reflexivity|].
    intros [Heq | []]. apply Hnew. rewrite Heq. apply in_map. exact Hy.
  - intros y [<- | []]. cbn [FormParameter.display_name].
    rewrite name_in_true; [reflexivity | left; reflexivity].
Qed.

Lemma add_then_remove_parameter_witness :
  PageBuilder.remove_parameter (PyStr "address")
    (Some (Page.with_parameters
             [Fixtures.email; Fixtures.phone; Fixtures.address] Fixtures.shop))
  = returns Fixtures.shop.
Proof.
  apply (@add_then_remove_parameter
           (PyStr "address") (PyStr "sys.address")
           (PyFulfillment Fixtures.prompt) (PyBool true) PyNone
           (PyBool false) (PyBool false) PyNone Fixtures.shop
           (Some (Page.with_parameters
                    [Fixtures.email; Fixtures.phone; Fixtures.address]
                    Fixtures.shop))).
  - reflexivity.
  - intros name H. inversion H. subst name. cbn.
    intros [H0 | [H0 | []]]; discriminate H0.
Defined.

(** ** Explicit objects, and what a call leaves alone *)

Lemma routes_arg_is_routes (rs : list TransitionRoute.t) :
  BuildersCommon.is_type_or_list_of_types (routes_arg rs) TTransitionRoute
  = true.
Proof.
  unfold BuildersCommon.is_type_or_list_of_types, routes_arg.
  cbn [isinstance orb]. apply all_routes_map.
Qed.

(** X26.  Explicit objects take precedence.  When [add_transition_route]
    (of a page or of a group) is passed a list of routes or a single route,
    and when [add_event_handler] is passed a list of handlers or a single
    handler, the call succeeds on a held object and appends exactly those
    objects, in order, after the ones already held: the field arguments
    (intent, condition, event, targets, fulfillment, response, parameter
    map) are not looked at and no leaf builder is run. *)
Theorem explicit_objects_take_precedence
    (leaf : LeafBuilders) (p : Page.t) (g : TransitionRouteGroup.t)
    (rs : list TransitionRoute.t) (r : TransitionRoute.t)
    (ehs : list EventHandler.t) (eh : EventHandler.t)
    (a1 a2 a3 a4 a5 a6 a7 : pyval) :
  PageBuilder.add_transition_route leaf (routes_arg rs) a1 a2 a3 a4 a5 a6 a7
    (Some p)
  = returns (Page.with_transition_routes (Page.transition_routes p ++ rs) p)
  /\ PageBuilder.add_transition_route leaf (PyTransitionRoute r)
       a1 a2 a3 a4 a5 a6 a7 (Some p)
     = returns (Page.with_transition_routes (Page.transition_routes p ++ [r]) p)
  /\ PageBuilder.add_event_handler leaf (handlers_arg ehs) a1 a2 a3 a4 a5 a6
       (Some p)
     = returns (Page.with_event_handlers (Page.event_handlers p ++ ehs) p)
  /\ PageBuilder.add_event_handler leaf (PyEventHandler eh) a1 a2 a3 a4 a5 a6
       (Some p)
     = returns (Page.with_event_handlers (Page.event_handlers p ++ [eh]) p)
  /\ TransitionRouteGroupBuilder.add_transition_route leaf (routes_arg rs)
       a1 a2 a3 a4 a5 a6 a7 (Some g)
     = returns (TransitionRouteGroup.with_transition_routes
                  (TransitionRouteGroup.transition_routes g ++ rs) g)
  /\ TransitionRouteGroupBuilder.add_transition_route leaf
       (PyTransitionRoute r) a1 a2 a3 a4 a5 a6 a7 (Some g)
     = returns (TransitionRouteGroup.with_transition_routes
                  (TransitionRouteGroup.transition_routes g ++ [r]) g).
Proof.
  pose proof (routes_arg_is_routes rs) as Hrs.
  pose proof (handlers_arg_is_handlers ehs) as Hehs.
  pose proof (all_transition_routes_map rs) as Hall.
  pose proof (all_event_handlers_map ehs) as Hallh.
  split.
  { unfold PageBuilder.add_transition_route. eff_unfold. rewrite Hrs.
    cbn [routes_arg is_none negb isinstance proto_repeated].
    rewrite Hall. reflexivity. }
  split; [reflexivity|].
  split.
  { unfold PageBuilder.add_event_handler. eff_unfold. rewrite Hehs.
    cbn [handlers_arg is_none negb isinstance proto_repeated].
    rewrite Hallh. reflexivity. }
  split; [reflexivity|].
  split; [|reflexivity].
  unfold TransitionRouteGroupBuilder.add_transition_route. eff_unfold.
  rewrite Hrs. cbn [routes_arg is_none negb isinstance proto_repeated].
  rewrite Hall. reflexivity.
Qed.

Lemma frames_readonly {A} (fr : Page.t -> Page.t)
    (m : Eff PageBuilder.builder A) :
  readonly m -> frames fr m.
Proof.
  intros Hm p a s' H. specialize (Hm (Some p)). rewrite H in Hm.
  cbn [snd] in Hm. subst s'. exists p. split; reflexivity.
Qed.

Lemma frames_bind {A B} (fr : Page.t -> Page.t)
    (m : Eff PageBuilder.builder A) (k : A -> Eff PageBuilder.builder B) :
  frames fr m -> (forall a, frames fr (k a)) -> frames fr (bind m k).
Proof.
  intros Hm Hk p b s' H. unfold bind in H.
  destruct (m (Some p)) as [[a|e] s1] eqn:E; [|discriminate].
  destruct (Hm p a s1 E) as (p1 & -> & H1).
  destruct (Hk a p1 b s' H) as (p' & -> & H2).
  exists p'. split; [reflexivity | congruence].
Qed.

Lemma frames_update (fr f : Page.t -> Page.t) :
  (forall p, fr (f p) = fr p) ->
  frames fr (BuildersCommon.update_proto_obj f).
Proof.
  intros Hf p a s' H. cbv in H. inversion H. exists (f p).
  split; [reflexivity | apply Hf].
Qed.

Ltac solve_frames :=
  cbv zeta;
  first
    [ solve [apply frames_readonly; solve_readonly]
    | apply frames_update; intros []; reflexivity
    | apply frames_bind; [solve_frames | intros; solve_frames]
    | match goal with
      | |- frames _ (if ?c then _ else _) => destruct c; solve_frames
      end ].

Lemma page_call_frames (leaf : LeafBuilders) (c : PageBuilder.call) :
  frames (blank c) (PageBuilder.run leaf c).
Proof.
  destruct c; cbn [PageBuilder.run blank];
    try (unfold PageBuilder.set_entry_fulfillment, PageBuilder.add_parameter,
           PageBuilder.add_transition_route, PageBuilder.add_event_handler,
           PageBuilder.add_transition_route_group, PageBuilder.remove_parameter,
           PageBuilder.remove_transition_route, PageBuilder.remove_event_handler,
           PageBuilder.remove_transition_route_group;
         solve_frames).
Qed.

(** X27.  Every operation of [PageBuilder] works on one field of the page.
    When a call succeeds on a held page, the page held afterwards differs
    from it at most in the field the operation is about: the entry
    fulfillment for [set_entry_fulfillment], the form parameters for
    [add_parameter] and [remove_parameter], the transition routes, the event
    handlers and the route groups for their add and remove operations; the
    display name and every other collection are as before.  Only
    [create_new_page] replaces the page as a whole. *)
Theorem call_changes_only_its_field
    (leaf : LeafBuilders) (c : PageBuilder.call) (p : Page.t)
    (out s' : PageBuilder.builder) :
  PageBuilder.run leaf c (Some p) = (Ok out, s') ->
  exists p', s' = Some p' /\ blank c p' = blank c p.
Proof. apply page_call_frames. Qed.

Lemma call_changes_only_its_field_witness :
  exists p',
    Some (Page.with_transition_routes [Fixtures.cancel] Fixtures.shop)
    = Some p'
    /\ Page.with_transition_routes [] p'
       = Page.with_transition_routes [] Fixtures.shop.
Proof.
  exact (@call_changes_only_its_field SpecLeaf.leaf
           (PageBuilder.RemoveTransitionRoute PyNone (PyStr "intents/buy")
              PyNone)
           Fixtures.shop _ _ eq_refl).
Defined.
